(** * ngz: SPORTident card reader — CRC, card decoding, framing, validation

    A shallow embedding of the TypeScript sources

      - [crc.ts]            (the SPORTident CRC),
      - [SiMessage.ts]      (frames and the pre-built requests),
      - [SiDataFrame.ts]    (time normalisation and the card decoders),
      - [SiDriver.ts]       (byte accumulator, message queue, start-up at both
                             speeds, block reading, Card-5 read-out),
      - [validator.ts]      (inline and score-O validation, course detection),

    together with the properties of these functions.

    Conventions.  A JavaScript [number] that holds an integer is a [Z]; the
    sources only ever build such numbers from bytes, sums and products, and
    the zero hour and the clock are taken as whole milliseconds, so the
    non-finite doubles are left out.  A [Buffer] is a [list byte]; reading past
    its end gives [undefined], which the bitwise operators of JavaScript turn
    into [0].  All the shifts of the sources stay far below [2^31], so the
    32-bit wrap-around of [<<] never shows and [Z.shiftl] is exact. *)

From Stdlib Require Import ZArith List Lia Bool String Ascii.
From Stdlib.Strings Require Import Byte.
From Stdlib Require DecimalString HexadecimalString.
From Equations Require Import Equations.
Import ListNotations.

#[local] Open Scope Z_scope.

(* ================================================================== *)
(** * Buffers *)
(* ================================================================== *)

Module Buf.

Definition Buffer := list byte.

Definition byte_val (b : byte) : Z := Z.of_N (Byte.to_N b).

(** [buffer[i]]: the byte, or [undefined] outside of the buffer. *)
Definition get (buffer : Buffer) (i : Z) : option Z :=
  if i <? 0 then None
  else option_map byte_val (nth_error buffer (Z.to_nat i)).

(** ToInt32 of a buffer element, as the operators [<<], [&], [|] apply it:
    [undefined] becomes [0]. *)
Definition int32 (o : option Z) : Z :=
  match o with Some z => z | None => 0 end.

Definition length (buffer : Buffer) : Z := Z.of_nat (List.length buffer).

(** An index of [subarray]: a negative one counts from the end, and both
    kinds are clamped to the buffer. *)
Definition clamp_index (len i : Z) : Z :=
  if i <? 0 then Z.max (len + i) 0 else Z.min i len.

(** [buffer.subarray(start, end)]; empty when the end is not after the start. *)
Definition subarray (buffer : Buffer) (start stop : Z) : Buffer :=
  let s := clamp_index (length buffer) start in
  let e := clamp_index (length buffer) stop in
  firstn (Z.to_nat (e - s)) (skipn (Z.to_nat s) buffer).

(** A buffer written down as numbers, [Buffer.from([...])]: every entry is
    taken modulo 256. *)
Definition of_list (l : list Z) : Buffer :=
  map (fun z => match Byte.of_N (Z.to_N (z mod 256)) with
                | Some b => b
                | None => x00
                end) l.

(** The bytes moved by [source.copy(target, targetStart, sourceStart, sourceEnd)]
    once its indices are accepted: nothing when the target starts past its end
    or the source range is empty, and else as many bytes as the range, the
    target and the source allow.  The result is the target after the copy. *)
Definition copy_bytes (source target : Buffer) (targetStart sourceStart sourceEnd : Z)
  : Buffer :=
  if (length target <=? targetStart) || (sourceEnd <=? sourceStart) then target
  else
    let nb := Z.min (Z.min (sourceEnd - sourceStart) (length target - targetStart))
                    (length source - sourceStart) in
    firstn (Z.to_nat targetStart) target
      ++ firstn (Z.to_nat nb) (skipn (Z.to_nat sourceStart) source)
      ++ skipn (Z.to_nat (targetStart + nb)) target.

End Buf.

(* ================================================================== *)
(** * crc.ts *)
(* ================================================================== *)

Module Crc.

Definition POLY : Z := 0x8005.
Definition BITF : Z := 0x8000.

(** [((buffer[p] << 8) | (buffer[p+1] & 0xff)) & 0xffff] *)
Definition word16 (buffer : Buf.Buffer) (p : Z) : Z :=
  Z.land (Z.lor (Z.shiftl (Buf.int32 (Buf.get buffer p)) 8)
                (Z.land (Buf.int32 (Buf.get buffer (p + 1))) 0xff))
         0xffff.

(** One turn of the inner [for (j = 0; j < 16; j++)] loop on [(tmp, val)]. *)
Definition bit_step (s : Z * Z) : Z * Z :=
  let '(tmp, val) := s in
  let shifted := Z.land (Z.shiftl tmp 1) 0xffff in
  let carried :=
    if negb (Z.land val BITF =? 0) then Z.land (shifted + 1) 0xffff
    else shifted in
  let tmp' :=
    if negb (Z.land tmp BITF =? 0) then Z.land (Z.lxor carried POLY) 0xffff
    else carried in
  (tmp', Z.land (Z.shiftl val 1) 0xffff).

(** The outer [for (i = floor(count / 2); i > 0; i--)] loop; the state is the
    read pointer [ptr] and the accumulator [tmp]. *)
Fixpoint outer_loop (i : nat) (buffer : Buf.Buffer) (count ptr tmp : Z) : Z :=
  match i with
  | O => tmp
  | S i' =>
      let '(val, ptr') :=
        if (1 <? Z.of_nat i) then (word16 buffer ptr, ptr + 2)
        else if count mod 2 =? 1
             then (Z.land (Z.shiftl (Buf.int32 (Buf.get buffer (count - 1))) 8)
                          0xffff, ptr)
             else (0, ptr) in
      let tmp' := fst (Nat.iter 16 bit_step (tmp, val)) in
      outer_loop i' buffer count ptr' tmp'
  end.

Definition crc (buffer : Buf.Buffer) : Z :=
  let count := Buf.length buffer in
  let tmp := word16 buffer 0 in
  let tmp :=
    if 2 <? count
    then outer_loop (Z.to_nat (count / 2)) buffer count 2 tmp
    else tmp in
  Z.land tmp 0xffff.

(** The reference vector of the SPORTident documentation. *)
Definition reference_vector : Buf.Buffer :=
  Buf.of_list [0x53; 0x00; 0x05; 0x01; 0x0f; 0xb5; 0x00; 0x00; 0x1e; 0x08].

End Crc.

(* ================================================================== *)
(** * SiMessage.ts *)
(* ================================================================== *)

Module SiMessage.

Definition WAKEUP : Z := 0xff.
Definition STX : Z := 0x02.
Definition ETX : Z := 0x03.
Definition ACK : Z := 0x06.
Definition NAK : Z := 0x15.

Definition GET_SYSTEM_VALUE : Z := 0x83.
Definition SET_MASTER_MODE : Z := 0xf0.
Definition DIRECT_MODE : Z := 0x4d.
Definition BEEP : Z := 0xf9.

Definition SI_CARD_5_DETECTED : Z := 0xe5.
Definition SI_CARD_6_PLUS_DETECTED : Z := 0xe6.
Definition SI_CARD_8_PLUS_DETECTED : Z := 0xe8.
Definition SI_CARD_REMOVED : Z := 0xe7.

Definition GET_SI_CARD_5 : Z := 0xb1.
Definition GET_SI_CARD_6_BN : Z := 0xe1.
Definition GET_SI_CARD_8_PLUS_BN : Z := 0xef.

Definition METADATA_SIZE : Z := 6.
Definition MAX_MESSAGE_SIZE : Z := 139.

Record SiMessage : Type := mkSiMessage { sequence : Buf.Buffer }.

(** [x === y] between a possibly undefined byte and a number. *)
Definition strict_eq (o : option Z) (z : Z) : bool :=
  match o with Some v => v =? z | None => false end.

Definition byteAt (m : SiMessage) (i : Z) : option Z := Buf.get (sequence m) i.
Definition commandByte (m : SiMessage) : option Z := Buf.get (sequence m) 1.
Definition startByte (m : SiMessage) : option Z := Buf.get (sequence m) 0.
Definition endByte (m : SiMessage) : option Z :=
  Buf.get (sequence m) (Buf.length (sequence m) - 1).

Definition data (m : SiMessage) : Buf.Buffer :=
  let cmdLength := Buf.length (sequence m) - 4 in
  Buf.subarray (sequence m) 1 (1 + cmdLength).

Definition extractedCRC (m : SiMessage) : Z :=
  let i := Buf.length (sequence m) in
  Z.lor (Z.land (Z.shiftl (Buf.int32 (Buf.get (sequence m) (i - 3))) 8) 0xffff)
        (Z.land (Buf.int32 (Buf.get (sequence m) (i - 2))) 0xff).

Definition computedCRC (m : SiMessage) : Z := Crc.crc (data m).

Definition validCRC (m : SiMessage) : bool := computedCRC m =? extractedCRC m.

Definition valid (m : SiMessage) : bool :=
  strict_eq (startByte m) STX && strict_eq (endByte m) ETX && validCRC m.

Definition check (m : SiMessage) (command : Z) : bool :=
  valid m && strict_eq (commandByte m) command.

(** [b.toString(16).padStart(2, '0').toUpperCase()] for a byte. *)
Definition hex_digit (d : Z) : ascii :=
  if d <? 10 then ascii_of_nat (Z.to_nat (48 + d))
  else ascii_of_nat (Z.to_nat (65 + (d - 10))).

Definition hex_byte (b : byte) : string :=
  let v := Buf.byte_val b in
  String (hex_digit (v / 16)) (String (hex_digit (v mod 16)) EmptyString).

Definition toString (m : SiMessage) : string :=
  String.concat " " (map hex_byte (sequence m)).

Definition of_list (l : list Z) : SiMessage := mkSiMessage (Buf.of_list l).

Definition STARTUP_SEQUENCE : SiMessage :=
  of_list [WAKEUP; STX; STX; SET_MASTER_MODE; 0x01; DIRECT_MODE; 0x6d; 0x0a; ETX].
Definition GET_PROTOCOL_CONFIGURATION : SiMessage :=
  of_list [STX; GET_SYSTEM_VALUE; 0x02; 0x74; 0x01; 0x04; 0x14; ETX].
Definition GET_CARDBLOCKS_CONFIGURATION : SiMessage :=
  of_list [STX; GET_SYSTEM_VALUE; 0x02; 0x33; 0x01; 0x16; 0x11; ETX].
Definition ACK_SEQUENCE : SiMessage := of_list [ACK].
Definition BEEP_TWICE : SiMessage :=
  of_list [STX; BEEP; 0x01; 0x02; 0x14; 0x0a; ETX].
Definition READ_SICARD_5 : SiMessage :=
  of_list [STX; GET_SI_CARD_5; 0x00; GET_SI_CARD_5; 0x00; ETX].
Definition READ_SICARD_6_B0 : SiMessage :=
  of_list [STX; GET_SI_CARD_6_BN; 0x01; 0x00; 0x46; 0x0a; ETX].
Definition READ_SICARD_8_PLUS_B1 : SiMessage :=
  of_list [STX; GET_SI_CARD_8_PLUS_BN; 0x01; 0x01; 0xe3; 0x09; ETX].

Definition READ_SICARD_6_B6 : SiMessage :=
  of_list [STX; GET_SI_CARD_6_BN; 0x01; 0x06; 0x40; 0x0a; ETX].
Definition READ_SICARD_6_B7 : SiMessage :=
  of_list [STX; GET_SI_CARD_6_BN; 0x01; 0x07; 0x41; 0x0a; ETX].
Definition READ_SICARD_6_PLUS_B2 : SiMessage :=
  of_list [STX; GET_SI_CARD_6_BN; 0x01; 0x02; 0x44; 0x0a; ETX].
Definition READ_SICARD_6_PLUS_B3 : SiMessage :=
  of_list [STX; GET_SI_CARD_6_BN; 0x01; 0x03; 0x45; 0x0a; ETX].
Definition READ_SICARD_6_PLUS_B4 : SiMessage :=
  of_list [STX; GET_SI_CARD_6_BN; 0x01; 0x04; 0x42; 0x0a; ETX].
Definition READ_SICARD_6_PLUS_B5 : SiMessage :=
  of_list [STX; GET_SI_CARD_6_BN; 0x01; 0x05; 0x43; 0x0a; ETX].
Definition READ_SICARD_8_PLUS_B0 : SiMessage :=
  of_list [STX; GET_SI_CARD_8_PLUS_BN; 0x01; 0x00; 0xe2; 0x09; ETX].
Definition READ_SICARD_10_PLUS_B0 : SiMessage := READ_SICARD_8_PLUS_B0.
Definition READ_SICARD_10_PLUS_B4 : SiMessage :=
  of_list [STX; GET_SI_CARD_8_PLUS_BN; 0x01; 0x04; 0xe6; 0x09; ETX].
Definition READ_SICARD_10_PLUS_B5 : SiMessage :=
  of_list [STX; GET_SI_CARD_8_PLUS_BN; 0x01; 0x05; 0xe7; 0x09; ETX].
Definition READ_SICARD_10_PLUS_B6 : SiMessage :=
  of_list [STX; GET_SI_CARD_8_PLUS_BN; 0x01; 0x06; 0xe4; 0x09; ETX].
Definition READ_SICARD_10_PLUS_B7 : SiMessage :=
  of_list [STX; GET_SI_CARD_8_PLUS_BN; 0x01; 0x07; 0xe5; 0x09; ETX].

Definition SICARD_6_READOUT_COMMANDS : list SiMessage :=
  [READ_SICARD_6_B0; READ_SICARD_6_B6; READ_SICARD_6_B7;
   READ_SICARD_6_PLUS_B2; READ_SICARD_6_PLUS_B3;
   READ_SICARD_6_PLUS_B4; READ_SICARD_6_PLUS_B5].

Definition SICARD_8_9_READOUT_COMMANDS : list SiMessage :=
  [READ_SICARD_8_PLUS_B0; READ_SICARD_8_PLUS_B1].

Definition SICARD_10_PLUS_READOUT_COMMANDS : list SiMessage :=
  [READ_SICARD_10_PLUS_B0; READ_SICARD_10_PLUS_B4; READ_SICARD_10_PLUS_B5;
   READ_SICARD_10_PLUS_B6; READ_SICARD_10_PLUS_B7].

(** ** Notions used to state the properties of the messages *)

(** The requests with a frame of their own: every pre-built message but the
    wake-up sequence and the lone [ACK]. *)
Definition framed_requests : list SiMessage :=
  [GET_PROTOCOL_CONFIGURATION; GET_CARDBLOCKS_CONFIGURATION; BEEP_TWICE;
   READ_SICARD_5]
  ++ SICARD_6_READOUT_COMMANDS ++ SICARD_8_9_READOUT_COMMANDS
  ++ SICARD_10_PLUS_READOUT_COMMANDS.

End SiMessage.

(* ================================================================== *)
(** * Outcomes of a call *)
(* ================================================================== *)

(** A call returns a value, throws the [TypeError] of a property read on
    [undefined], throws the [RangeError] of a buffer copy that starts past the
    end of its source, or is still inside a [while] loop when the fuel of the
    model runs out. *)
Inductive outcome (A : Type) : Type :=
| Ret (a : A)
| TypeError
| RangeError
| OutOfFuel.

Arguments Ret {A} a.
Arguments TypeError {A}.
Arguments RangeError {A}.
Arguments OutOfFuel {A}.

Definition bind {A B : Type} (c : outcome A) (k : A -> outcome B) : outcome B :=
  match c with
  | Ret a => k a
  | TypeError => TypeError
  | RangeError => RangeError
  | OutOfFuel => OutOfFuel
  end.

Notation "x <- c ;; k" := (bind c (fun x => k))
  (at level 61, c at next level, right associativity).
Notation "' pat <- c ;; k" := (bind c (fun x => let 'pat := x in k))
  (at level 61, pat pattern, c at next level, right associativity).

(* ================================================================== *)
(** * Calls that run on fuel *)
(* ================================================================== *)

Module Fuel.

(** [run] returns [a]: some amount of fuel lets the call come back with [a]. *)
Definition returns {A : Type} (run : nat -> outcome A) (a : A) : Prop :=
  exists fuel, run fuel = Ret a.

(** More fuel never changes a value that was returned. *)
Definition monotone {A : Type} (run : nat -> outcome A) : Prop :=
  forall fuel fuel' a, (fuel <= fuel')%nat -> run fuel = Ret a -> run fuel' = Ret a.

(** [run] settles on [a]: from some amount of fuel on the call returns [a]. *)
Definition settles {A : Type} (run : nat -> outcome A) (a : A) : Prop :=
  exists n, forall fuel, (n <= fuel)%nat -> run fuel = Ret a.

End Fuel.

(* ================================================================== *)
(** * SiDataFrame.ts *)
(* ================================================================== *)

Module SiDataFrame.

Record SiPunch : Type := mkSiPunch { code : Z; timestampMs : Z }.

Record SiCardData : Type := mkSiCardData {
  cardNumber : string;
  cardSeries : string;
  startTime : Z;
  finishTime : Z;
  checkTime : Z;
  punchCount : Z;
  punches : list SiPunch
}.

Definition NO_TIME : Z := -1.

Definition NO_SI_TIME : Z := 1000 * 0xeeee.
Definition TWELVE_HOURS : Z := 1000 * 12 * 3600.
Definition ONE_DAY : Z := 2 * TWELVE_HOURS.

Definition byteAt (data : Buf.Buffer) (i : Z) : Z :=
  Z.land (Buf.int32 (Buf.get data i)) 0xff.

Definition wordAt (data : Buf.Buffer) (i : Z) : Z :=
  Z.lor (Z.shiftl (byteAt data i) 8) (byteAt data (i + 1)).

Definition block3At (data : Buf.Buffer) (i : Z) : Z :=
  Z.lor (Z.shiftl (byteAt data i) 16) (wordAt data (i + 1)).

Definition timestampAt (data : Buf.Buffer) (i : Z) : Z := 1000 * wordAt data i.

(** [while (newTimestamp < baseTime) newTimestamp += stepTime;] — one unit of
    fuel per turn of the loop. *)
Fixpoint advance_loop (fuel : nat) (newTimestamp baseTime stepTime : Z)
  {struct fuel} : outcome Z :=
  if newTimestamp <? baseTime then
    match fuel with
    | O => OutOfFuel
    | S fuel' => advance_loop fuel' (newTimestamp + stepTime) baseTime stepTime
    end
  else Ret newTimestamp.

Definition advanceTimePast (fuel : nat) (timestamp refTime stepTime : Z)
  : outcome Z :=
  if timestamp =? NO_SI_TIME then Ret NO_TIME
  else if refTime =? NO_TIME then Ret timestamp
  else
    let newTimestamp := timestamp in
    let baseTime := refTime - 3600000 in
    advance_loop fuel newTimestamp baseTime stepTime.

Definition newRefTime (refTime punchTime : Z) : Z :=
  if negb (punchTime =? NO_TIME) then punchTime else refTime.

Definition SI5_TIMED_PUNCHES : Z := 30.

(** The data frame of a Card-5 answer and the fields read from it. *)
Definition si5_data (message : SiMessage.SiMessage) : Buf.Buffer :=
  Buf.subarray (SiMessage.sequence message) 5 133.

Definition si5_siNumber (data : Buf.Buffer) : Z :=
  let siNumber := wordAt data 0x04 in
  let cns := byteAt data 0x06 in
  if 0x01 <? cns then siNumber + cns * 100000 else siNumber.

Definition si5_nbPunches (data : Buf.Buffer) : Z := byteAt data 0x17 - 1.
Definition si5_rawStart (data : Buf.Buffer) : Z := timestampAt data 0x13.
Definition si5_rawFinish (data : Buf.Buffer) : Z := timestampAt data 0x15.
Definition si5_rawCheck (data : Buf.Buffer) : Z := timestampAt data 0x19.
Definition si5_nbTimed (data : Buf.Buffer) : Z :=
  Z.min (si5_nbPunches data) SI5_TIMED_PUNCHES.

(** [for (let i = 0; i < nbTimed; i++)]: [todo] turns are left, the next one
    is turn [i]; the state is the punch list and the running [refTime]. *)
Fixpoint si5_timed_loop (fuel : nat) (data : Buf.Buffer) (todo : nat) (i : Z)
  (punches : list SiPunch) (refTime : Z) : outcome (list SiPunch * Z) :=
  match todo with
  | O => Ret (punches, refTime)
  | S todo' =>
      let offset := 0x21 + (i / 5) * 0x10 + (i mod 5) * 0x03 in
      let code := byteAt data offset in
      let rawTime := timestampAt data (offset + 1) in
      punchTime <- advanceTimePast fuel rawTime refTime TWELVE_HOURS ;;
      si5_timed_loop fuel data todo' (i + 1)
        (punches ++ [mkSiPunch code punchTime]) (newRefTime refTime punchTime)
  end.

(** [for (let i = 0; i < nbPunches - SI5_TIMED_PUNCHES; i++)] *)
Fixpoint si5_untimed_loop (data : Buf.Buffer) (todo : nat) (i : Z)
  (punches : list SiPunch) : list SiPunch :=
  match todo with
  | O => punches
  | S todo' =>
      let code := byteAt data (0x20 + i * 0x10) in
      si5_untimed_loop data todo' (i + 1) (punches ++ [mkSiPunch code NO_TIME])
  end.

(** [punches[k].timestampMs] *)
Definition punch_timestamp (punches : list SiPunch) (k : Z) : outcome Z :=
  if k <? 0 then TypeError
  else match nth_error punches (Z.to_nat k) with
       | Some p => Ret (timestampMs p)
       | None => TypeError
       end.

Definition number_toString (n : Z) : string :=
  DecimalString.NilZero.string_of_int (Z.to_int n).

Definition parseSi5 (fuel : nat) (message : SiMessage.SiMessage) (zerohour : Z)
  : outcome SiCardData :=
  let data := si5_data message in
  let siNumber := si5_siNumber data in
  let nbPunches := si5_nbPunches data in
  let rawStart := si5_rawStart data in
  let rawFinish := si5_rawFinish data in
  let rawCheck := si5_rawCheck data in
  startTime <- advanceTimePast fuel rawStart zerohour TWELVE_HOURS ;;
  checkTime <- advanceTimePast fuel rawCheck zerohour TWELVE_HOURS ;;
  let nbTimed := Z.min nbPunches SI5_TIMED_PUNCHES in
  let refTime := newRefTime zerohour startTime in
  '(punches, refTime) <-
     si5_timed_loop fuel data (Z.to_nat nbTimed) 0 [] refTime ;;
  let punches :=
    si5_untimed_loop data (Z.to_nat (nbPunches - SI5_TIMED_PUNCHES)) 0 punches in
  lastTimedRef <-
    (if 0 <? nbTimed
     then ts <- punch_timestamp punches (nbTimed - 1) ;;
          Ret (newRefTime (newRefTime zerohour startTime) ts)
     else Ret (newRefTime zerohour startTime)) ;;
  finishTime <- advanceTimePast fuel rawFinish lastTimedRef TWELVE_HOURS ;;
  Ret (mkSiCardData (number_toString siNumber) "SiCard 5"
         startTime finishTime checkTime nbPunches punches).

(** ** SI-Card 6+ shared logic *)

(** [source.copy(target, targetStart, sourceStart, sourceEnd)] with
    non-negative indices: a start past the end of the source is refused. *)
Definition copy (source target : Buf.Buffer) (targetStart sourceStart sourceEnd : Z)
  : outcome Buf.Buffer :=
  if Buf.length source <? sourceStart then RangeError
  else Ret (Buf.copy_bytes source target targetStart sourceStart sourceEnd).

(** [for (let i = 1; i < dataMessages.length; i++)], on the messages after
    the first. *)
Fixpoint copy_blocks (later : list SiMessage.SiMessage) (i : Z)
  (dataFrame : Buf.Buffer) : outcome Buf.Buffer :=
  match later with
  | [] => Ret dataFrame
  | message :: later' =>
      dataFrame <- copy (SiMessage.sequence message) dataFrame (i * 128) 6 (6 + 128) ;;
      copy_blocks later' (i + 1) dataFrame
  end.

Definition extractSi6PlusDataFrame (dataMessages : list SiMessage.SiMessage)
  : outcome Buf.Buffer :=
  let totalLength := Z.of_nat (List.length dataMessages) * 128 in
  let dataFrame := repeat x00 (Z.to_nat totalLength) in
  match dataMessages with
  | [] => TypeError
  | first :: later =>
      dataFrame <- copy (SiMessage.sequence first) dataFrame 0 6 (6 + 128) ;;
      copy_blocks later 1 dataFrame
  end.

Definition extractFullTime (data : Buf.Buffer) (pageStart : Z) : Z :=
  let pmFlag := Z.land (byteAt data pageStart) 1 in
  let twelveHoursTime := timestampAt data (pageStart + 2) in
  if twelveHoursTime =? NO_SI_TIME then NO_SI_TIME
  else pmFlag * TWELVE_HOURS + twelveHoursTime.

Definition extractCode (data : Buf.Buffer) (punchIndex : Z) : Z :=
  let codeHigh := Z.shiftl (Z.land (byteAt data punchIndex) 0xc0) 2 in
  codeHigh + byteAt data (punchIndex + 1).

Record Layout : Type := mkLayout {
  siNumberIndex : Z;
  startTimeIndex : Z;
  finishTimeIndex : Z;
  checkTimeIndex : Z;
  nbPunchesIndex : Z;
  punchesStartIndex : Z;
  punchPageSize : Z;
  layoutSeries : string
}.

(** [for (let i = 0; i < nbPunches; i++)] of [parseSi6Plus]. *)
Fixpoint si6_punch_loop (fuel : nat) (data : Buf.Buffer) (layout : Layout)
  (todo : nat) (i : Z) (punches : list SiPunch) (refTime : Z)
  : outcome (list SiPunch * Z) :=
  match todo with
  | O => Ret (punches, refTime)
  | S todo' =>
      let punchIndex := (punchesStartIndex layout + i) * punchPageSize layout in
      let rawTime := extractFullTime data punchIndex in
      punchTime <- advanceTimePast fuel rawTime refTime ONE_DAY ;;
      let code := extractCode data punchIndex in
      si6_punch_loop fuel data layout todo' (i + 1)
        (punches ++ [mkSiPunch code punchTime]) (newRefTime refTime punchTime)
  end.

Definition parseSi6Plus (fuel : nat) (dataMessages : list SiMessage.SiMessage)
  (layout : Layout) (zerohour : Z) : outcome SiCardData :=
  data <- extractSi6PlusDataFrame dataMessages ;;
  let cardNumber := number_toString (block3At data (siNumberIndex layout)) in
  let nbPunches := byteAt data (nbPunchesIndex layout) in
  let rawStart := extractFullTime data (startTimeIndex layout) in
  let rawCheck := extractFullTime data (checkTimeIndex layout) in
  startTime <- advanceTimePast fuel rawStart zerohour ONE_DAY ;;
  checkTime <- advanceTimePast fuel rawCheck zerohour ONE_DAY ;;
  let refTime := newRefTime zerohour startTime in
  '(punches, refTime) <-
     si6_punch_loop fuel data layout (Z.to_nat nbPunches) 0 [] refTime ;;
  refTime <-
    (if 0 <? Z.of_nat (List.length punches)
     then ts <- punch_timestamp punches (Z.of_nat (List.length punches) - 1) ;;
          Ret (newRefTime refTime ts)
     else Ret refTime) ;;
  let rawFinish := extractFullTime data (finishTimeIndex layout) in
  finishTime <- advanceTimePast fuel rawFinish refTime ONE_DAY ;;
  Ret (mkSiCardData cardNumber (layoutSeries layout)
         startTime finishTime checkTime nbPunches punches).

Definition SI6_PAGE_SIZE : Z := 16.
Definition SI6_DOUBLE_WORD : Z := 4.

Definition si6_layout : Layout :=
  mkLayout (2 * SI6_DOUBLE_WORD + 3)
           (SI6_PAGE_SIZE + 2 * SI6_DOUBLE_WORD)
           (SI6_PAGE_SIZE + 1 * SI6_DOUBLE_WORD)
           (SI6_PAGE_SIZE + 3 * SI6_DOUBLE_WORD)
           (SI6_PAGE_SIZE + 2)
           (8 * SI6_PAGE_SIZE / SI6_DOUBLE_WORD)
           SI6_DOUBLE_WORD
           "SiCard 6".

Definition parseSi6 (fuel : nat) (dataMessages : list SiMessage.SiMessage)
  (zerohour : Z) : outcome SiCardData :=
  parseSi6Plus fuel dataMessages si6_layout zerohour.

Definition SI8_PAGE_SIZE : Z := 4.
Definition SI8_SINUMBER_PAGE : Z := 6 * SI8_PAGE_SIZE.

Inductive Si8PlusSeries : Type := SI8 | SI9 | SI10PLUS | PCARD | UNKNOWN.

Definition series_name (series : Si8PlusSeries) : string :=
  match series with
  | SI8 => "SiCard 8"
  | SI9 => "SiCard 9"
  | SI10PLUS => "SiCard 10/11/SIAC"
  | PCARD => "pCard"
  | UNKNOWN => "Unknown"
  end.

Definition SI8_PLUS_PUNCHES_START (series : Si8PlusSeries) : Z :=
  match series with
  | SI8 => 34
  | SI9 => 14
  | SI10PLUS => 32
  | PCARD => 44
  | UNKNOWN => 0
  end.

Definition detectSi8Series (data : Buf.Buffer) : Si8PlusSeries :=
  let nibble := Z.land (byteAt data SI8_SINUMBER_PAGE) 0x0f in
  if nibble =? 2 then SI8
  else if nibble =? 1 then SI9
  else if nibble =? 4 then PCARD
  else if nibble =? 15 then SI10PLUS
  else UNKNOWN.

Definition parseSi8Plus (fuel : nat) (dataMessages : list SiMessage.SiMessage)
  (zerohour : Z) : outcome SiCardData :=
  data <- extractSi6PlusDataFrame dataMessages ;;
  let series := detectSi8Series data in
  let punchesStart := SI8_PLUS_PUNCHES_START series in
  parseSi6Plus fuel dataMessages
    (mkLayout (SI8_SINUMBER_PAGE + 1)
              (3 * SI8_PAGE_SIZE)
              (4 * SI8_PAGE_SIZE)
              (2 * SI8_PAGE_SIZE)
              (5 * SI8_PAGE_SIZE + 2)
              punchesStart
              SI8_PAGE_SIZE
              (series_name series))
    zerohour.

(** ** Notions used to state further properties of the decoders *)




(** ** Notions used to state the properties of the decoders *)

(** The last element of the punch list read from the timed slots. *)
Definition last_timed (timed : list SiPunch) : option SiPunch :=
  nth_error timed (List.length timed - 1).

(** The reference the finish time is advanced past: the running reference
    [refTime] left by the timed punches, unless the last timed punch carries
    no time, in which case it is the [seed] the running reference started
    from. *)
Definition finish_reference (seed refTime : Z) (timed : list SiPunch) : Z :=
  match last_timed timed with
  | Some p => if timestampMs p =? NO_TIME then seed else refTime
  | None => refTime
  end.

End SiDataFrame.

(* ================================================================== *)
(** * validator.ts *)
(* ================================================================== *)

Module Validator.

Record Course : Type := mkCourse {
  name : string;
  controls : list Z;
  isInline : bool;
  useBoxStart : bool;
  fixedStartTimeMs : option Z
}.

Record ControlResult : Type := mkControlResult {
  expectedCode : Z;
  found : bool;
  timestampMs : Z
}.

Record ValidationResult : Type := mkValidationResult {
  course : Course;
  controlResults : list ControlResult;
  missingCount : Z;
  extraControls : list Z;
  allCorrect : bool
}.

(** [0, 1, ..., n - 1]: the values a counter takes in
    [for (let k = 0; k < n; k++)]. *)
Definition indices (n : Z) : list Z := map Z.of_nat (seq 0 (Z.to_nat n)).

(** [expected.includes(code)] *)
Definition includes (expected : list Z) (code : Z) : bool :=
  existsb (Z.eqb code) expected.

(** [expected[i]] and [punches[j]], read inside the bounds of the array (every
    read below is guarded by [i < m] or [j < n]). *)
Definition code_at (expected : list Z) (i : Z) : Z :=
  nth (Z.to_nat i) expected 0.

Definition punch_at (punches : list SiDataFrame.SiPunch) (j : Z)
  : SiDataFrame.SiPunch :=
  nth (Z.to_nat j) punches (SiDataFrame.mkSiPunch 0 SiDataFrame.NO_TIME).

(** [for (const p of punches) if (expected.includes(p.code)) relevantPunches.push(p)] *)
Definition relevant (expected : list Z) (punches : list SiDataFrame.SiPunch)
  : list SiDataFrame.SiPunch :=
  fold_left
    (fun relevantPunches p =>
       if includes expected (SiDataFrame.code p)
       then relevantPunches ++ [p] else relevantPunches)
    punches [].

(** The distance matrix [matrix[i][j]], a store from the cell to its number.
    A cell is read only after it has been written. *)
Definition Matrix : Type := Z -> Z -> Z.

Definition mset (matrix : Matrix) (i j : Z) (v : Z) : Matrix :=
  fun i' j' => if (i' =? i) && (j' =? j) then v else matrix i' j'.

Definition empty_matrix : Matrix := fun _ _ => 0.

(** [Math.min(a, b, c)] *)
Definition min3 (a b c : Z) : Z := Z.min a (Z.min b c).

(** The body of the two nested loops that fill the matrix. *)
Definition fill_cell (expected : list Z) (relevantPunches : list SiDataFrame.SiPunch)
  (i : Z) (matrix : Matrix) (j : Z) : Matrix :=
  let cost :=
    if code_at expected i =? SiDataFrame.code (punch_at relevantPunches j)
    then 0 else 1 in
  mset matrix (i + 1) (j + 1)
    (min3 (1 + matrix (i + 1) j) (1 + matrix i (j + 1)) (cost + matrix i j)).

Definition build_matrix (expected : list Z)
  (relevantPunches : list SiDataFrame.SiPunch) : Matrix :=
  let m := Z.of_nat (List.length expected) in
  let n := Z.of_nat (List.length relevantPunches) in
  let matrix :=
    fold_left (fun matrix i => mset matrix i 0 i) (indices (m + 1)) empty_matrix in
  let matrix :=
    fold_left (fun matrix j => mset matrix 0 j j) (indices (n + 1)) matrix in
  fold_left
    (fun matrix i =>
       fold_left (fill_cell expected relevantPunches i) (indices n) matrix)
    (indices m) matrix.

(** [existsCodeFrom(code, punches, fromIndex)] *)
Definition existsCodeFrom (code : Z) (punches : list SiDataFrame.SiPunch)
  (fromIndex : Z) : bool :=
  existsb (fun p => SiDataFrame.code p =? code)
          (skipn (Z.to_nat fromIndex) punches).

(** [findExtraControls(expected, punches)] *)
Definition findExtraControls (expected : list Z)
  (punches : list SiDataFrame.SiPunch) : list Z :=
  fold_left
    (fun extras p =>
       if negb (includes expected (SiDataFrame.code p))
       then extras ++ [SiDataFrame.code p] else extras)
    punches [].

Definition PM (expectedCode : Z) : ControlResult :=
  mkControlResult expectedCode false SiDataFrame.NO_TIME.

(** The trace [while (i < m && j < n)]; it returns [i] and [controlResults]
    at the exit of the loop. *)
Equations? trace_loop (expected : list Z)
  (relevantPunches : list SiDataFrame.SiPunch) (matrix : Matrix) (totalCost : Z)
  (i j : Z) (controlResults : list ControlResult) : Z * list ControlResult
  by wf (Z.to_nat (Z.of_nat (List.length expected) - i)
         + Z.to_nat (Z.of_nat (List.length relevantPunches) - j))%nat lt :=
trace_loop expected relevantPunches matrix totalCost i j controlResults
  with Z_lt_dec i (Z.of_nat (List.length expected)),
       Z_lt_dec j (Z.of_nat (List.length relevantPunches)) := {
  | left _, left _ =>
      if matrix (i + 1) (j + 1) =? matrix i j then
        trace_loop expected relevantPunches matrix totalCost (i + 1) (j + 1)
          (controlResults ++
             [mkControlResult (code_at expected i) true
                (SiDataFrame.timestampMs (punch_at relevantPunches j))])
      else if negb (existsCodeFrom (code_at expected i) relevantPunches (j + 1)) then
        trace_loop expected relevantPunches matrix totalCost (i + 1) j
          (controlResults ++ [PM (code_at expected i)])
      else if matrix i (j + 1) >? totalCost then
        trace_loop expected relevantPunches matrix totalCost (i + 1) (j - 1 + 1)
          (controlResults ++ [PM (code_at expected i)])
      else
        trace_loop expected relevantPunches matrix totalCost i (j + 1)
          controlResults
  | _, _ => (i, controlResults) }.
Proof. all: lia. Qed.

(** [while (i < m) { controlResults.push(PM); i++ }]: the expected controls
    from [i] on are missing. *)
Definition remaining (expected : list Z) (i : Z)
  (controlResults : list ControlResult) : list ControlResult :=
  fold_left
    (fun controlResults k => controlResults ++ [PM (code_at expected (i + k))])
    (indices (Z.of_nat (List.length expected) - i)) controlResults.

Definition count_missing (controlResults : list ControlResult) : Z :=
  Z.of_nat (List.length (filter (fun r => negb (found r)) controlResults)).

Definition validateInline (course : Course) (punches : list SiDataFrame.SiPunch)
  : ValidationResult :=
  let expected := controls course in
  let relevantPunches := relevant expected punches in
  let m := Z.of_nat (List.length expected) in
  let n := Z.of_nat (List.length relevantPunches) in
  let matrix := build_matrix expected relevantPunches in
  let totalCost := matrix m n in
  let '(i, controlResults) :=
    trace_loop expected relevantPunches matrix totalCost 0 0 [] in
  let controlResults := remaining expected i controlResults in
  let extraControls := findExtraControls expected punches in
  let missingCount := count_missing controlResults in
  mkValidationResult course controlResults missingCount extraControls
    (missingCount =? 0).

(** The scan [for (let i = 0; i < punches.length; i++)] of [validateScoreO]
    for one expected code: the time stamp of the first unused punch with this
    code and the [used] flags after marking it, or nothing. *)
Fixpoint score_scan (expectedCode : Z) (punches : list SiDataFrame.SiPunch)
  (used : list bool) : option (Z * list bool) :=
  match punches, used with
  | p :: punches', u :: used' =>
      if negb u && (SiDataFrame.code p =? expectedCode)
      then Some (SiDataFrame.timestampMs p, true :: used')
      else match score_scan expectedCode punches' used' with
           | Some (t, used'') => Some (t, u :: used'')
           | None => None
           end
  | _, _ => None
  end.

(** [expected.map(expectedCode => ...)], threading the [used] flags. *)
Fixpoint score_map (expected : list Z) (punches : list SiDataFrame.SiPunch)
  (used : list bool) : list ControlResult :=
  match expected with
  | [] => []
  | expectedCode :: expected' =>
      match score_scan expectedCode punches used with
      | Some (t, used') =>
          mkControlResult expectedCode true t :: score_map expected' punches used'
      | None => PM expectedCode :: score_map expected' punches used
      end
  end.

Definition validateScoreO (course : Course) (punches : list SiDataFrame.SiPunch)
  : ValidationResult :=
  let expected := controls course in
  let used := repeat false (List.length punches) in
  let controlResults := score_map expected punches used in
  let extraControls := findExtraControls expected punches in
  let missingCount := count_missing controlResults in
  mkValidationResult course controlResults missingCount extraControls
    (missingCount =? 0).

(** ** Auto-detect course *)

(** What [autoDetectCourse] gives back: a result, the [Error] it throws, or
    the [null] that [bestResult!] would pass on. *)
Inductive detection : Type :=
| Detected (result : ValidationResult)
| Thrown (message : string)
| Null.

(** [course.isInline ? validateInline(course, punches) : validateScoreO(course, punches)] *)
Definition validate (course : Course) (punches : list SiDataFrame.SiPunch)
  : ValidationResult :=
  if isInline course then validateInline course punches
  else validateScoreO course punches.

(** The test that makes [result] the new [bestResult]. *)
Definition replaces (bestResult : option ValidationResult) (result : ValidationResult)
  : bool :=
  match bestResult with
  | None => true
  | Some best =>
      (missingCount result <? missingCount best)
      || ((missingCount result =? missingCount best)
          && (Z.of_nat (List.length (controls (course result)))
              >? Z.of_nat (List.length (controls (course best)))))
  end.

Definition autoDetectCourse (courses : list Course)
  (punches : list SiDataFrame.SiPunch) : detection :=
  if Z.of_nat (List.length courses) =? 0 then Thrown "No courses defined"
  else
    let bestResult :=
      fold_left
        (fun bestResult course =>
           let result := validate course punches in
           if replaces bestResult result then Some result else bestResult)
        courses None in
    match bestResult with
    | Some result => Detected result
    | None => Null
    end.

(** ** Notions used to state further properties of the validator *)

(** [r] is at least as good a match as [r']: fewer controls missing, or as
    many on a course that is at least as long. *)
Definition at_least_as_good (r r' : ValidationResult) : Prop :=
  missingCount r < missingCount r' \/
  (missingCount r = missingCount r' /\
   (List.length (controls (course r')) <= List.length (controls (course r)))%nat).

(** The number of punches with code [c] that are not yet used. *)
Fixpoint unused_with_code (c : Z) (punches : list SiDataFrame.SiPunch)
  (used : list bool) : nat :=
  match punches, used with
  | p :: punches', u :: used' =>
      ((if negb u && (SiDataFrame.code p =? c)%Z then 1 else 0)
       + unused_with_code c punches' used')%nat
  | _, _ => O
  end.

(** A control result is either missing, with [NO_TIME], or found, with the
    time stamp of a punch that passes [ok]. *)
Definition stamped_by (ok : ControlResult -> SiDataFrame.SiPunch -> Prop)
  (r : ControlResult) : Prop :=
  (found r = false /\ timestampMs r = SiDataFrame.NO_TIME) \/
  (found r = true /\
   exists p, ok r p /\ timestampMs r = SiDataFrame.timestampMs p).

(** The number of control results that are found. *)
Definition count_found (controlResults : list ControlResult) : nat :=
  List.length (filter found controlResults).

(** ** A course run in order *)

(** The controls can be read off the codes in order: the codes hold the
    controls one after the other, with any codes before, between and after
    them. *)
Inductive in_order : list Z -> list Z -> Prop :=
| in_order_nil (codes : list Z) : in_order [] codes
| in_order_skip (controls : list Z) (c : Z) (codes : list Z) :
    in_order controls codes -> in_order controls (c :: codes)
| in_order_take (c : Z) (controls codes : list Z) :
    in_order controls codes -> in_order (c :: controls) (c :: codes).

(** ** Notions used to state the properties of the validator *)

(** The shape of a validation result: one control result per control, the
    count of the results not found, [allCorrect] exactly when that count is
    zero, and the extra controls in punch order. *)
Definition well_shaped (course : Course) (punches : list SiDataFrame.SiPunch)
  (r : ValidationResult) : Prop :=
  List.length (controlResults r) = List.length (controls course) /\
  missingCount r
  = Z.of_nat (List.length (filter (fun c => negb (found c)) (controlResults r))) /\
  (allCorrect r = true <-> missingCount r = 0) /\
  extraControls r
  = map SiDataFrame.code
      (filter (fun p => negb (includes (controls course) (SiDataFrame.code p)))
              punches).

(** The control result of a punch that was matched. *)
Definition matched (p : SiDataFrame.SiPunch) : ControlResult :=
  mkControlResult (SiDataFrame.code p) true (SiDataFrame.timestampMs p).

Section Levenshtein.

Variable expected : list Z.
Variable relevantPunches : list SiDataFrame.SiPunch.

Let m : Z := Z.of_nat (List.length expected).
Let n : Z := Z.of_nat (List.length relevantPunches).

Definition cost (i j : Z) : Z :=
  if code_at expected i =? SiDataFrame.code (punch_at relevantPunches j)
  then 0 else 1.

(** The cell [(i + 1, j + 1)] obeys the recurrence of the edit distance. *)
Definition recurrence (matrix : Matrix) (i j : Z) : Prop :=
  matrix (i + 1) (j + 1)
  = min3 (1 + matrix (i + 1) j) (1 + matrix i (j + 1)) (cost i j + matrix i j).

(** The borders are written. *)
Definition borders (matrix : Matrix) : Prop :=
  (forall i, 0 <= i <= m -> matrix i 0 = i) /\
  (forall j, 0 <= j <= n -> matrix 0 j = j).

(** The state of the matrix when the loops are about to fill cell
    [(i + 1, j + 1)]: the borders are there and the recurrence holds at every
    cell filled before. *)
Definition filled_before (i j : Z) (matrix : Matrix) : Prop :=
  borders matrix /\
  forall a b, 0 <= a -> 0 <= b < n -> a < i \/ (a = i /\ b < j) ->
              recurrence matrix a b.

End Levenshtein.

End Validator.

(* ================================================================== *)
(** * SiDriver.ts *)
(* ================================================================== *)

Module SiDriver.

Inductive CommStatus : Type :=
| STARTING | ON | READY | PROCESSING | PROCESSING_ERROR | OFF | FATAL_ERROR.

Inductive Direction : Type := SEND | READ | INFO | ERROR.

(** What the driver emits to its listeners. *)
Inductive Event : Type :=
| EvStatus (status : CommStatus) (message : option string)
| EvCardRead (data : SiDataFrame.SiCardData)
| EvLog (direction : Direction) (msg : string).

(** What a driver call throws.  [PortFailure] is a rejection that comes from
    the port adapter; the other three are built by the driver itself. *)
Inductive Exn : Type :=
| TimeoutError (msg : string)
| InvalidMessageError (receivedMessage : SiMessage.SiMessage) (expectedCommand : option Z)
| Error (msg : string)
| PortFailure (reason : string).

(** The port adapter: a write or a change of baud rate completes ([None]) or
    is rejected with a reason. *)
Record SiPortAdapter : Type := mkSiPortAdapter {
  write : Buf.Buffer -> option string;
  setBaudRate : Z -> option string
}.

(** The message queue: the frames not yet taken and the pending takes, each
    known by its timer. *)
Record SiMessageQueue : Type := mkSiMessageQueue {
  queue : list SiMessage.SiMessage;
  waiters : list nat
}.

(** [push(msg)]: the first pending take is resolved with the frame, or the
    frame is stored.  The second component is the take that was resolved. *)
Definition push (q : SiMessageQueue) (msg : SiMessage.SiMessage)
  : SiMessageQueue * option (nat * SiMessage.SiMessage) :=
  match waiters q with
  | waiter :: rest => (mkSiMessageQueue (queue q) rest, Some (waiter, msg))
  | [] => (mkSiMessageQueue (queue q ++ [msg]) [], None)
  end.

Definition TIMEOUT_DELAY : Z := 500.

Record SiDriver : Type := mkSiDriver {
  port : SiPortAdapter;
  messageQueue : SiMessageQueue;
  running : bool;
  zerohour : Z;
  si6_192PunchesMode : bool;
  accBuffer : Buf.Buffer;
  accSize : Z;
  lastDataTime : Z;
  (** the events emitted so far, oldest first *)
  emitted : list Event;
  (** the takes resolved so far by [push], oldest first *)
  resolved : list (nat * SiMessage.SiMessage);
  (** the buffers handed to [port.write] so far, oldest first *)
  written : list Buf.Buffer;
  (** what arrives while a take waits on the empty queue, one entry per such
      take: a frame, or nothing before the timeout *)
  incoming : list (option SiMessage.SiMessage)
}.

(** [new SiDriver(port, zerohour)], given what will arrive. *)
Definition new_SiDriver (port : SiPortAdapter) (zerohour : Z)
  (incoming : list (option SiMessage.SiMessage)) : SiDriver :=
  mkSiDriver port (mkSiMessageQueue [] []) false zerohour false
    (repeat x00 139) 0 0 [] [] [] incoming.

Definition set_acc (d : SiDriver) (accBuffer : Buf.Buffer) (accSize : Z) : SiDriver :=
  mkSiDriver (port d) (messageQueue d) (running d) (zerohour d)
    (si6_192PunchesMode d) accBuffer accSize (lastDataTime d)
    (emitted d) (resolved d) (written d) (incoming d).

Definition set_accSize (d : SiDriver) (accSize : Z) : SiDriver :=
  set_acc d (accBuffer d) accSize.

Definition set_lastDataTime (d : SiDriver) (lastDataTime : Z) : SiDriver :=
  mkSiDriver (port d) (messageQueue d) (running d) (zerohour d)
    (si6_192PunchesMode d) (accBuffer d) (accSize d) lastDataTime
    (emitted d) (resolved d) (written d) (incoming d).

Definition set_messageQueue (d : SiDriver) (q : SiMessageQueue)
  (r : option (nat * SiMessage.SiMessage)) : SiDriver :=
  mkSiDriver (port d) q (running d) (zerohour d)
    (si6_192PunchesMode d) (accBuffer d) (accSize d) (lastDataTime d)
    (emitted d)
    (match r with Some w => resolved d ++ [w] | None => resolved d end)
    (written d) (incoming d).

Definition set_si6_192PunchesMode (d : SiDriver) (mode : bool) : SiDriver :=
  mkSiDriver (port d) (messageQueue d) (running d) (zerohour d)
    mode (accBuffer d) (accSize d) (lastDataTime d)
    (emitted d) (resolved d) (written d) (incoming d).

Definition set_incoming (d : SiDriver) (incoming : list (option SiMessage.SiMessage))
  : SiDriver :=
  mkSiDriver (port d) (messageQueue d) (running d) (zerohour d)
    (si6_192PunchesMode d) (accBuffer d) (accSize d) (lastDataTime d)
    (emitted d) (resolved d) (written d) incoming.

Definition add_written (d : SiDriver) (data : Buf.Buffer) : SiDriver :=
  mkSiDriver (port d) (messageQueue d) (running d) (zerohour d)
    (si6_192PunchesMode d) (accBuffer d) (accSize d) (lastDataTime d)
    (emitted d) (resolved d) (written d ++ [data]) (incoming d).

(** [this.emit(...)] *)
Definition emit (d : SiDriver) (e : Event) : SiDriver :=
  mkSiDriver (port d) (messageQueue d) (running d) (zerohour d)
    (si6_192PunchesMode d) (accBuffer d) (accSize d) (lastDataTime d)
    (emitted d ++ [e]) (resolved d) (written d) (incoming d).

Definition log (d : SiDriver) (direction : Direction) (msg : string) : SiDriver :=
  emit d (EvLog direction msg).

Definition dispatchMessage (d : SiDriver) : SiDriver :=
  let msgBuf := Buf.subarray (accBuffer d) 0 (accSize d) in
  let msg := SiMessage.mkSiMessage msgBuf in
  let d := log d READ (SiMessage.toString msg) in
  let '(q, r) := push (messageQueue d) msg in
  let d := set_messageQueue d q r in
  set_accSize d 0.

(** [handleSerialData(chunk)], with [now] the value of [Date.now()].  The
    copy into the accumulator starts at index 0 of the chunk and ends at a
    non-negative index as long as [accSize] is at most 139, which the driver
    maintains: it is never refused. *)
Definition handleSerialData (d : SiDriver) (now : Z) (chunk : Buf.Buffer) : SiDriver :=
  let d := if now >? lastDataTime d + TIMEOUT_DELAY then set_accSize d 0 else d in
  let d := set_lastDataTime d now in
  let nb := Z.min (Buf.length chunk) (139 - accSize d) in
  let d := set_acc d (Buf.copy_bytes chunk (accBuffer d) (accSize d) 0 nb) (accSize d + nb) in
  if (accSize d =? 1)
     && negb (SiMessage.strict_eq (Buf.get (accBuffer d) 0) 0x02)
  then dispatchMessage d
  else if accSize d >=? 3 then
    let expectedDataLen := Z.land (Buf.int32 (Buf.get (accBuffer d) 2)) 0xff in
    let expectedTotal := expectedDataLen + 6 in
    if accSize d >=? expectedTotal then dispatchMessage d else d
  else d.

(** ** The driver task

    A step of the task takes the driver to a new state and either returns a
    value or throws. *)
Inductive result (A : Type) : Type :=
| Ok (a : A)
| Throw (e : Exn).

Arguments Ok {A} a.
Arguments Throw {A} e.

Definition Task (A : Type) : Type := SiDriver -> result A * SiDriver.

Definition ret {A : Type} (a : A) : Task A := fun d => (Ok a, d).

Definition throw {A : Type} (e : Exn) : Task A := fun d => (Throw e, d).

Definition andThen {A B : Type} (t : Task A) (k : A -> Task B) : Task B :=
  fun d => match t d with
           | (Ok a, d') => k a d'
           | (Throw e, d') => (Throw e, d')
           end.

Definition act (f : SiDriver -> SiDriver) : Task unit := fun d => (Ok tt, f d).

(** [await this.port.write(data)] *)
Definition port_write (data : Buf.Buffer) : Task unit :=
  fun d => match write (port d) data with
           | None => (Ok tt, add_written d data)
           | Some reason => (Throw (PortFailure reason), d)
           end.

(** [send(msg)] *)
Definition send (msg : SiMessage.SiMessage) : Task unit :=
  andThen (act (fun d => log d SEND (SiMessage.toString msg)))
    (fun _ => port_write (SiMessage.sequence msg)).

(** [await this.messageQueue.take(timeoutMs)]: the oldest stored frame, or
    else what arrives during the wait. *)
Definition take (timeoutMs : Z) : Task SiMessage.SiMessage :=
  fun d =>
    match queue (messageQueue d) with
    | msg :: rest =>
        (Ok msg, set_messageQueue d (mkSiMessageQueue rest (waiters (messageQueue d))) None)
    | [] =>
        match incoming d with
        | Some msg :: later => (Ok msg, set_incoming d later)
        | None :: later => (Throw (TimeoutError "Message timeout"), set_incoming d later)
        | [] => (Throw (TimeoutError "Message timeout"), d)
        end
    end.

(** [pollAnswer(command, timeoutMs = 2000)] *)
Definition pollAnswer (command : Z) : Task SiMessage.SiMessage :=
  andThen (take 2000)
    (fun msg =>
       if negb (SiMessage.check msg command)
       then throw (InvalidMessageError msg (Some command))
       else ret msg).

Definition EXTENDED_PROTOCOL_MASK : Z := 1.
Definition HANDSHAKE_MODE_MASK : Z := 4.
Definition CONFIG_CHECK_MASK : Z := Z.lor EXTENDED_PROTOCOL_MASK HANDSHAKE_MODE_MASK.

Definition EXTENDED_PROTOCOL_ERROR : string :=
  "Master station should be configured with extended protocol".
Definition HANDSHAKE_MODE_ERROR : string :=
  "Master station should be configured in handshake mode (no autosend)".

(** [startup()] *)
Definition startup : Task unit :=
  andThen (send SiMessage.STARTUP_SEQUENCE) (fun _ =>
  andThen (pollAnswer SiMessage.SET_MASTER_MODE) (fun _ =>
  andThen (send SiMessage.GET_PROTOCOL_CONFIGURATION) (fun _ =>
  andThen (pollAnswer SiMessage.GET_SYSTEM_VALUE) (fun configMsg =>
  let cpcByte := Buf.int32 (SiMessage.byteAt configMsg 6) in
  if negb (Z.land cpcByte CONFIG_CHECK_MASK =? CONFIG_CHECK_MASK) then
    if Z.land cpcByte EXTENDED_PROTOCOL_MASK =? 0
    then throw (Error EXTENDED_PROTOCOL_ERROR)
    else throw (Error HANDSHAKE_MODE_ERROR)
  else
  andThen (send SiMessage.GET_CARDBLOCKS_CONFIGURATION) (fun _ =>
  andThen (pollAnswer SiMessage.GET_SYSTEM_VALUE) (fun blockMsg =>
  let mode := Z.land (Buf.int32 (SiMessage.byteAt blockMsg 6)) 0xff =? 0xff in
  andThen (act (fun d => set_si6_192PunchesMode d mode)) (fun _ =>
  andThen (act (fun d =>
             log d INFO
               (if mode then "SiCard6 192 Punches Mode Enabled"
                else "SiCard6 192 Punches Mode Disabled"))) (fun _ =>
  andThen (send SiMessage.BEEP_TWICE) (fun _ =>
  act (fun d => emit d (EvStatus ON None))))))))))).

(** ** Reading the blocks of a card *)





(** [ackAndWaitRemoval()]: whatever the wait for the removal throws is
    caught. *)
Definition ackAndWaitRemoval : Task unit :=
  andThen (send SiMessage.ACK_SEQUENCE) (fun _ d =>
    match take 5000 d with
    | (Ok msg, d) =>
        if negb (SiMessage.strict_eq (SiMessage.commandByte msg)
                   SiMessage.SI_CARD_REMOVED)
        then (Ok tt,
              log d INFO
                ("Expected card removal, got: " ++ SiMessage.toString msg)%string)
        else (Ok tt, d)
    | (Throw _, d) => (Ok tt, log d INFO "Timeout waiting for card removal")
    end).

(** ** Start-up at both speeds *)

(** The driver together with the baud rates that its port has been set to,
    oldest first. *)
Definition Station : Type := (SiDriver * list Z)%type.

(** [await this.port.setBaudRate(rate); await this.startup();] *)
Definition startup_at (rate : Z) (s : Station) : result unit * Station :=
  let '(d, rates) := s in
  match setBaudRate (port d) rate with
  | Some reason => (Throw (PortFailure reason), (d, rates))
  | None => let '(r, d') := startup d in (r, (d', rates ++ [rate]))
  end.

(** [err instanceof TimeoutError] *)
Definition is_TimeoutError (err : Exn) : bool :=
  match err with
  | TimeoutError _ => true
  | _ => false
  end.

Definition NO_ANSWER_ERROR : string :=
  "Master station did not answer to startup sequence (high/low baud)".

(** [startupBootstrap()] *)
Definition startupBootstrap (s : Station) : result unit * Station :=
  match startup_at 38400 s with
  | (Ok u, s) => (Ok u, s)
  | (Throw err, s) =>
      if is_TimeoutError err then
        match startup_at 4800 s with
        | (Ok u, s) => (Ok u, s)
        | (Throw err2, s) =>
            if is_TimeoutError err2 then (Throw (Error NO_ANSWER_ERROR), s)
            else (Throw err2, s)
        end
      else (Throw err, s)
  end.

(** ** Reading a Card 5 *)

(** [n.toString(16)] *)
Definition toString16 (n : Z) : string :=
  HexadecimalString.NilZero.string_of_int (Z.to_hex_int n).

(** [err.message] *)
Definition message (err : Exn) : string :=
  match err with
  | TimeoutError msg => msg
  | InvalidMessageError receivedMessage expectedCommand =>
      ("Invalid message: got " ++ SiMessage.toString receivedMessage
       ++ match expectedCommand with
          | Some command => " (expected command 0x" ++ toString16 command ++ ")"
          | None => EmptyString
          end)%string
  | Error msg => msg
  | PortFailure reason => reason
  end.



(** ** Notions used to state the properties of the driver *)

(** The steps of [startup] up to the answer to "get protocol configuration". *)
Definition startup_until_config : Task SiMessage.SiMessage :=
  andThen (send SiMessage.STARTUP_SEQUENCE) (fun _ =>
  andThen (pollAnswer SiMessage.SET_MASTER_MODE) (fun _ =>
  andThen (send SiMessage.GET_PROTOCOL_CONFIGURATION) (fun _ =>
  pollAnswer SiMessage.GET_SYSTEM_VALUE))).

(** A buffer that holds one frame: its length byte, at index 2, counts the
    bytes besides [STX], command, length, the two CRC bytes and [ETX]. *)
Definition framed (frame : Buf.Buffer) : Prop :=
  exists len, Buf.get frame 2 = Some len /\ Buf.length frame = len + 6.

(** A task that never throws an [Error] of the driver's own. *)
Definition no_Error {A : Type} (t : Task A) : Prop :=
  forall d msg, fst (t d) <> Throw (Error msg).

(** A port on which every write and every change of baud rate completes. *)
Definition reliable_port : SiPortAdapter :=
  mkSiPortAdapter (fun _ => None) (fun _ => None).

(** ** Notions used to state further properties of the driver *)

(** The bytes received and not yet dispatched. *)
Definition pending (d : SiDriver) : Buf.Buffer :=
  firstn (Z.to_nat (accSize d)) (accBuffer d).

(** The accumulator has its 139 bytes and is filled up to an index inside. *)
Definition acc_ok (d : SiDriver) : Prop :=
  List.length (accBuffer d) = 139%nat /\ 0 <= accSize d <= 139.

(** The test of [handleSerialData] on the bytes gathered: a lone byte that is
    not [STX], or at least three bytes of which the third announces no more
    than what is there. *)
Definition dispatchable (bytes : Buf.Buffer) : bool :=
  ((Buf.length bytes =? 1) && negb (SiMessage.strict_eq (Buf.get bytes 0) 0x02))
  || ((Buf.length bytes >=? 3)
      && (Buf.length bytes >=? Z.land (Buf.int32 (Buf.get bytes 2)) 0xff + 6)).

(** The driver after the chunks of [inputs], each with the time at which it
    arrives. *)
Definition feed (d : SiDriver) (inputs : list (Z * Buf.Buffer)) : SiDriver :=
  fold_left (fun d input => handleSerialData d (fst input) (snd input)) inputs d.

(** Every chunk of [inputs] arrives at most 500 ms after the chunk before
    it, the first one at most 500 ms after [last]. *)
Fixpoint within (last : Z) (inputs : list (Z * Buf.Buffer)) : Prop :=
  match inputs with
  | [] => True
  | input :: later => fst input <= last + TIMEOUT_DELAY /\ within (fst input) later
  end.

(** Events that are all log lines. *)
Definition only_logs (events : list Event) : Prop :=
  Forall (fun e => exists direction msg, e = EvLog direction msg) events.

(** What a task leaves behind.  When it returns: log lines, then the events
    [final], and the buffers [writes] handed to the port.  When it throws: log
    lines only, and the first buffers of [writes]. *)
Definition leaves {A : Type} (t : Task A) (writes : list Buf.Buffer)
  (final : list Event) : Prop :=
  forall d, exists logs,
    only_logs logs /\
    match t d with
    | (Ok _, d') =>
        emitted d' = emitted d ++ logs ++ final /\
        written d' = written d ++ writes
    | (Throw _, d') =>
        emitted d' = emitted d ++ logs /\
        exists done rest, writes = done ++ rest /\ written d' = written d ++ done
    end.



End SiDriver.

(* ================================================================== *)
(** * Frames for the examples *)
(* ================================================================== *)

Module Frames.

(** A frame around a payload: [STX], command, length, payload, the CRC of
    command, length and payload (high byte first), [ETX]. *)
Definition build (command : Z) (payload : list Z) : SiMessage.SiMessage :=
  let body := command :: Z.of_nat (List.length payload) :: payload in
  let c := Crc.crc (Buf.of_list body) in
  SiMessage.of_list
    (SiMessage.STX :: body ++ [Z.shiftr c 8; Z.land c 0xff; SiMessage.ETX]).

(** [l] with the bytes [vals] written from index [i] on. *)
Definition poke (l : list Z) (i : Z) (vals : list Z) : list Z :=
  firstn (Z.to_nat i) l ++ vals
    ++ skipn (Z.to_nat i + List.length vals) l.

(** The answer to "read Card-5" around a 128-byte card memory; the two bytes
    before the memory are the station number. *)
Definition card5_answer (memory : list Z) : SiMessage.SiMessage :=
  build SiMessage.GET_SI_CARD_5 ([0x00; 0x01] ++ memory).

(** A card memory that holds only zeros. *)
Definition blank_memory : list Z := repeat 0 128.


(** A card with two punches and no start: control 31 at 40000 s, control 32
    without a time ([EE EE]), finish at 1000 s. *)
Definition untimed_last_memory : list Z :=
  poke (poke (poke (poke (poke blank_memory
    0x13 [0xee; 0xee; 0x03; 0xe8; 0x03])
    0x19 [0xee; 0xee])
    0x21 [31; 0x9c; 0x40])
    0x24 [32; 0xee; 0xee])
    0x04 [0x10; 0x93; 0x00].

Definition untimed_last_card5 : SiMessage.SiMessage :=
  card5_answer untimed_last_memory.

(** The answer to "get protocol configuration" with configuration byte [cpc]
    (at index 6 of the frame). *)
Definition config_answer (cpc : Z) : SiMessage.SiMessage :=
  build SiMessage.GET_SYSTEM_VALUE [0x00; 0x01; 0x74; cpc].

Definition startup_answer : SiMessage.SiMessage :=
  build SiMessage.SET_MASTER_MODE [0x00; 0x01; 0x4d].

(** The answer to "read Card-6 block [bn]" around a 128-byte block. *)
Definition card6_answer (bn : Z) (block : list Z) : SiMessage.SiMessage :=
  build SiMessage.GET_SI_CARD_6_BN ([0x00; 0x01; bn] ++ block).

(** A Card-6 with the same story as [untimed_last_memory]: no start, two
    punches, control 31 at 40000 s and control 32 without a time, finish at
    1000 s.  The header block holds count and finish, the punches start the
    second block. *)
Definition untimed_last_card6 : list SiMessage.SiMessage :=
  [card6_answer 0
     (poke (poke (poke (poke blank_memory
        18 [2])
        20 [0x00; 0x00; 0x03; 0xe8])
        24 [0x00; 0x00; 0xee; 0xee])
        28 [0x00; 0x00; 0xee; 0xee]);
   card6_answer 6
     (poke (poke blank_memory
        0 [0x00; 31; 0x9c; 0x40])
        4 [0x00; 32; 0xee; 0xee])].

End Frames.

(* ================================================================== *)
(** * Facts about buffers *)
(* ================================================================== *)

Module BufFacts.

Lemma byte_val_range (b : byte) : 0 <= Buf.byte_val b < 256.
Proof.
  unfold Buf.byte_val. pose proof (Byte.to_N_bounded b) as H.
  split; [apply N2Z.is_nonneg|]. lia.
Qed.

Lemma get_nil (i : Z) : Buf.get [] i = None.
Proof.
  unfold Buf.get. destruct (i <? 0); [reflexivity|].
  destruct (Z.to_nat i); reflexivity.
Qed.

Lemma get_0_cons (b : byte) (l : Buf.Buffer) : Buf.get (b :: l) 0 = Some (Buf.byte_val b).
Proof. reflexivity. Qed.

Lemma get_1_singleton (b : byte) : Buf.get [b] 1 = None.
Proof. reflexivity. Qed.

End BufFacts.

(* ================================================================== *)
(** * Properties of the CRC *)
(* ================================================================== *)

Module CrcFacts.
Import Crc.

Lemma crc_nil : crc [] = 0.
Proof. reflexivity. Qed.

Lemma crc_singleton (b : byte) : crc [b] = Z.shiftl (Buf.byte_val b) 8.
Proof.
  unfold crc, word16.
  change (2 <? Buf.length [b]) with false. cbv iota.
  rewrite BufFacts.get_0_cons. change (0 + 1) with 1.
  rewrite BufFacts.get_1_singleton. cbn [Buf.int32].
  change (Z.land 0 0xff) with 0. rewrite Z.lor_0_r.
  pose proof (BufFacts.byte_val_range b) as Hb.
  assert (Hs : 0 <= Z.shiftl (Buf.byte_val b) 8 < 2 ^ 16).
  { rewrite Z.shiftl_mul_pow2 by lia.
    change (2 ^ 8) with 256. change (2 ^ 16) with 65536. lia. }
  change 0xffff with (Z.ones 16).
  rewrite !Z.land_ones by lia.
  rewrite Z.mod_mod by lia.
  apply Z.mod_small. exact Hs.
Qed.

(** C3, as the code has it: the CRC of a buffer shorter than two bytes is
    [0] for the empty buffer and the single byte shifted into the high half
    for a one-byte buffer (there is no early return for short buffers). *)
Theorem crc_short_buffer (buffer : Buf.Buffer) :
  (List.length buffer < 2)%nat ->
  crc buffer = match buffer with
               | [] => 0
               | b :: _ => Z.shiftl (Buf.byte_val b) 8
               end.
Proof.
  destruct buffer as [|b [|b' rest]]; cbn [List.length]; intros Hlen.
  - apply crc_nil.
  - apply crc_singleton.
  - lia.
Qed.

Lemma crc_short_buffer_witness :
  (List.length [x2a] < 2)%nat /\ crc [x2a] = Z.shiftl (Buf.byte_val x2a) 8.
Proof.
  split; [simpl; lia | apply (crc_short_buffer [x2a]); simpl; lia].
Defined.

(** C3, as the claim states it, fails on the one-byte buffer [01]: its
    length is below two and its CRC is [0x0100]. *)
Lemma crc_short_buffer_not_zero :
  (List.length [x01] < 2)%nat /\ crc [x01] = 0x0100 /\ crc [x01] <> 0.
Proof.
  split; [simpl; lia|]. split; [reflexivity|]. vm_compute. discriminate.
Qed.

(** C9: the CRC of the ten-byte reference vector
    [53 00 05 01 0F B5 00 00 1E 08] is [0x2C12]. *)
Theorem crc_reference_vector : crc reference_vector = 0x2c12.
Proof. vm_compute. reflexivity. Qed.

End CrcFacts.


(* ================================================================== *)
(** * Sanity of the frame codec *)
(* ================================================================== *)

Module SiMessageFacts.
Import SiMessage.

(** The embedded CRCs of the pre-built requests agree with [Crc.crc]. *)
Example prebuilt_requests_valid :
  valid GET_PROTOCOL_CONFIGURATION = true /\
  valid GET_CARDBLOCKS_CONFIGURATION = true /\
  valid BEEP_TWICE = true /\
  valid READ_SICARD_5 = true /\
  valid READ_SICARD_6_B0 = true /\
  valid READ_SICARD_8_PLUS_B1 = true.
Proof. vm_compute. repeat split. Qed.

Example toString_example : toString (of_list [0x02; 0xf0; 0x03]) = "02 F0 03"%string.
Proof. reflexivity. Qed.

End SiMessageFacts.

(* ================================================================== *)
(** * Facts about calls that run on fuel *)
(* ================================================================== *)

Module FuelFacts.
Import Fuel.

Lemma settles_returns {A : Type} (run : nat -> outcome A) (a : A) :
  settles run a -> returns run a.
Proof. intros [n Hn]. exists n. apply Hn. lia. Qed.

Lemma returns_settles {A : Type} (run : nat -> outcome A) (a : A) :
  monotone run -> returns run a -> settles run a.
Proof. intros Hmono [n Hn]. exists n. intros fuel Hle. eapply Hmono; eauto. Qed.

Lemma settles_unique {A : Type} (run : nat -> outcome A) (a b : A) :
  settles run a -> settles run b -> a = b.
Proof.
  intros [n Hn] [k Hk].
  specialize (Hn (Nat.max n k) (Nat.le_max_l _ _)).
  specialize (Hk (Nat.max n k) (Nat.le_max_r _ _)).
  congruence.
Qed.

Lemma returns_unique {A : Type} (run : nat -> outcome A) (a b : A) :
  monotone run -> returns run a -> returns run b -> a = b.
Proof.
  intros Hmono Ha Hb.
  eapply settles_unique; eapply returns_settles; eauto.
Qed.

Lemma bind_Ret_inv {A B : Type} (c : outcome A) (k : A -> outcome B) (b : B) :
  bind c k = Ret b -> exists a, c = Ret a /\ k a = Ret b.
Proof. destruct c; simpl; intros H; try discriminate. eauto. Qed.

Lemma settles_bind {A B : Type} (run : nat -> outcome A)
  (k : nat -> A -> outcome B) (a : A) (b : B) :
  settles run a -> settles (fun fuel => k fuel a) b ->
  settles (fun fuel => bind (run fuel) (k fuel)) b.
Proof.
  intros [n Hn] [n' Hn']. exists (Nat.max n n'). intros fuel Hle.
  rewrite Hn by lia. simpl. apply Hn'. lia.
Qed.

Lemma settles_const {A : Type} (a : A) : settles (fun _ => Ret a) a.
Proof. exists O. reflexivity. Qed.

End FuelFacts.

(* ================================================================== *)
(** * Time normalisation *)
(* ================================================================== *)

Module AdvanceFacts.
Import SiDataFrame Fuel FuelFacts.

Lemma advance_loop_monotone (fuel : nat) :
  forall fuel' ts base step r,
    (fuel <= fuel')%nat ->
    advance_loop fuel ts base step = Ret r ->
    advance_loop fuel' ts base step = Ret r.
Proof.
  induction fuel as [|fuel IH]; intros fuel' ts base step r Hle H.
  - simpl in H. destruct fuel'; simpl; destruct (ts <? base); congruence.
  - destruct fuel' as [|fuel']; [lia|].
    simpl in *. destruct (ts <? base); [|exact H].
    apply IH; [lia | exact H].
Qed.

(** The loop leaves after at most [base - ts] turns when the step is positive. *)
Lemma advance_loop_terminates (step base : Z) (Hstep : 0 < step) (fuel : nat) :
  forall ts, (Z.to_nat (base - ts) <= fuel)%nat ->
             exists r, advance_loop fuel ts base step = Ret r.
Proof.
  induction fuel as [|fuel IH]; intros ts Hfuel.
  - simpl. destruct (Z.ltb_spec ts base) as [Hlt|Hge]; [lia|]. eauto.
  - simpl. destruct (Z.ltb_spec ts base) as [Hlt|Hge]; [|eauto].
    apply IH. lia.
Qed.



Lemma advanceTimePast_monotone (timestamp refTime stepTime : Z) :
  monotone (fun fuel => advanceTimePast fuel timestamp refTime stepTime).
Proof.
  intros fuel fuel' r Hle. unfold advanceTimePast.
  destruct (timestamp =? NO_SI_TIME); [auto|].
  destruct (refTime =? NO_TIME); [auto|].
  apply advance_loop_monotone. exact Hle.
Qed.

Lemma advanceTimePast_settles (timestamp refTime stepTime : Z) :
  0 < stepTime ->
  exists r, settles (fun fuel => advanceTimePast fuel timestamp refTime stepTime) r.
Proof.
  intros Hstep.
  set (n := Z.to_nat (refTime - 3600000 - timestamp)).
  destruct (advance_loop_terminates stepTime (refTime - 3600000) Hstep n timestamp)
    as [r Hr]; [lia|].
  unfold advanceTimePast.
  destruct (timestamp =? NO_SI_TIME); [eexists; apply settles_const|].
  destruct (refTime =? NO_TIME); [eexists; apply settles_const|].
  exists r, n. intros fuel Hle.
  eapply advance_loop_monotone; eauto.
Qed.





Example advanceTimePast_example :
  advanceTimePast 2 1000000 90000000 TWELVE_HOURS = Ret 87400000 /\
  advanceTimePast 1 1000000 90000000 TWELVE_HOURS = OutOfFuel /\
  advanceTimePast 0 NO_SI_TIME 90000000 TWELVE_HOURS = Ret NO_TIME /\
  advanceTimePast 0 1000000 NO_TIME TWELVE_HOURS = Ret 1000000 /\
  advanceTimePast 50 1000000 90000000 0 = OutOfFuel.
Proof. repeat split. Qed.

End AdvanceFacts.

(* ================================================================== *)
(** * The Card-5 decoder *)
(* ================================================================== *)

Module Si5Facts.
Import SiDataFrame Fuel FuelFacts AdvanceFacts.

Lemma TWELVE_HOURS_pos : 0 < TWELVE_HOURS.
Proof. reflexivity. Qed.

Lemma newRefTime_resolved (refTime punchTime : Z) :
  punchTime <> NO_TIME -> newRefTime refTime punchTime = punchTime.
Proof.
  intros H. unfold newRefTime.
  destruct (Z.eqb_spec punchTime NO_TIME); [contradiction | reflexivity].
Qed.

Lemma newRefTime_unresolved (refTime : Z) : newRefTime refTime NO_TIME = refTime.
Proof. reflexivity. Qed.

Lemma last_timed_snoc (l : list SiPunch) (p : SiPunch) :
  last_timed (l ++ [p]) = Some p.
Proof.
  unfold last_timed. rewrite length_app. simpl.
  replace (List.length l + 1 - 1)%nat with (List.length l + 0)%nat by lia.
  rewrite nth_error_app2 by lia.
  replace (List.length l + 0 - List.length l)%nat with O by lia.
  reflexivity.
Qed.

(** The timed loop appends one punch per turn, and its running reference is
    the reference the finish time uses whenever the last punch has a time. *)
Lemma si5_timed_loop_result (fuel : nat) (data : Buf.Buffer) (todo : nat) :
  forall i punches refTime punches' refTime',
    si5_timed_loop fuel data todo i punches refTime = Ret (punches', refTime') ->
    exists new,
      punches' = punches ++ new /\ List.length new = todo /\
      (todo = O -> refTime' = refTime) /\
      (forall p, last_timed punches' = Some p -> todo <> O ->
                 refTime' = newRefTime refTime' (timestampMs p) /\
                 (timestampMs p <> NO_TIME -> refTime' = timestampMs p)).
Proof.
  induction todo as [|todo IH]; intros i punches refTime punches' refTime' H.
  - simpl in H. injection H as <- <-. exists []. rewrite app_nil_r.
    repeat split; try reflexivity; intros; congruence.
  - simpl in H. apply bind_Ret_inv in H. destruct H as [punchTime [Hadv H]].
    apply IH in H. destruct H as [new [Heq [Hlen [Hzero Hlast]]]].
    eexists (_ :: new). split; [rewrite Heq, <- app_assoc; reflexivity|].
    split; [simpl; congruence|]. split; [discriminate|].
    intros p Hp _. destruct todo as [|todo].
    + specialize (Hzero eq_refl). destruct new; [|discriminate].
      rewrite app_nil_r in Heq. subst punches'.
      rewrite last_timed_snoc in Hp. injection Hp as <-. simpl.
      subst refTime'. unfold newRefTime at 1 3.
      destruct (Z.eqb_spec punchTime NO_TIME) as [He|Hne]; simpl.
      * split; [|contradiction].
        rewrite He. unfold newRefTime. simpl. reflexivity.
      * unfold newRefTime.
        destruct (Z.eqb_spec punchTime NO_TIME); [contradiction|].
        simpl. split; reflexivity.
    + apply Hlast; [exact Hp | discriminate].
Qed.

Lemma si5_timed_loop_monotone (data : Buf.Buffer) (todo : nat) :
  forall i punches refTime,
    monotone (fun fuel => si5_timed_loop fuel data todo i punches refTime).
Proof.
  induction todo as [|todo IH]; intros i punches refTime fuel fuel' r Hle H.
  - exact H.
  - simpl in *. apply bind_Ret_inv in H. destruct H as [punchTime [Hadv H]].
    rewrite (advanceTimePast_monotone _ _ _ fuel fuel' punchTime Hle Hadv).
    simpl. eapply IH; eauto.
Qed.

Lemma si5_timed_loop_settles (data : Buf.Buffer) (todo : nat) :
  forall i punches refTime,
    exists r, settles (fun fuel => si5_timed_loop fuel data todo i punches refTime) r.
Proof.
  induction todo as [|todo IH]; intros i punches refTime.
  - eexists. apply settles_const.
  - simpl.
    destruct (advanceTimePast_settles
                (timestampAt data (0x21 + i / 5 * 0x10 + i mod 5 * 0x03 + 1))
                refTime TWELVE_HOURS TWELVE_HOURS_pos) as [punchTime Hadv].
    edestruct IH as [r Hr].
    exists r.
    apply (settles_bind _ (fun fuel punchTime => si5_timed_loop fuel data todo _ _ _)
             punchTime r Hadv).
    exact Hr.
Qed.

Lemma si5_untimed_loop_result (data : Buf.Buffer) (todo : nat) :
  forall i punches,
    exists new, si5_untimed_loop data todo i punches = punches ++ new /\
                List.length new = todo.
Proof.
  induction todo as [|todo IH]; intros i punches; cbn [si5_untimed_loop].
  - exists []. rewrite app_nil_r. split; reflexivity.
  - destruct (IH (i + 1) (punches ++ [mkSiPunch (byteAt data (0x20 + i * 0x10)) NO_TIME]))
      as [new [Heq Hlen]].
    eexists (_ :: new). rewrite Heq, <- app_assoc. split; [reflexivity|].
    simpl. congruence.
Qed.

(** The read [punches[nbTimed - 1]] of the decoder hits the last timed punch. *)
Lemma punch_timestamp_last_timed (timed more : list SiPunch) (nbTimed : Z) :
  0 < nbTimed -> List.length timed = Z.to_nat nbTimed ->
  exists p, last_timed timed = Some p /\
            punch_timestamp (timed ++ more) (nbTimed - 1) = Ret (timestampMs p).
Proof.
  intros Hpos Hlen. unfold punch_timestamp, last_timed.
  destruct (Z.ltb_spec (nbTimed - 1) 0) as [Hneg|_]; [lia|].
  replace (Z.to_nat (nbTimed - 1)) with (List.length timed - 1)%nat by lia.
  rewrite nth_error_app1 by lia.
  destruct (nth_error timed (List.length timed - 1)) as [p|] eqn:Hnth.
  - exists p. split; reflexivity.
  - apply nth_error_None in Hnth. lia.
Qed.

(** The steps of [parseSi5], read off a call that returned. *)
Lemma parseSi5_inv (fuel : nat) (message : SiMessage.SiMessage) (zerohour : Z)
  (card : SiCardData) :
  parseSi5 fuel message zerohour = Ret card ->
  let data := si5_data message in
  exists startTime checkTime timed refTime finishTime,
    advanceTimePast fuel (si5_rawStart data) zerohour TWELVE_HOURS = Ret startTime /\
    advanceTimePast fuel (si5_rawCheck data) zerohour TWELVE_HOURS = Ret checkTime /\
    si5_timed_loop fuel data (Z.to_nat (si5_nbTimed data)) 0 []
      (newRefTime zerohour startTime) = Ret (timed, refTime) /\
    advanceTimePast fuel (si5_rawFinish data)
      (finish_reference (newRefTime zerohour startTime) refTime timed)
      TWELVE_HOURS = Ret finishTime /\
    card = mkSiCardData (number_toString (si5_siNumber data)) "SiCard 5"
             startTime finishTime checkTime (si5_nbPunches data)
             (si5_untimed_loop data
                (Z.to_nat (si5_nbPunches data - SI5_TIMED_PUNCHES)) 0 timed).
Proof.
  intros H data. unfold parseSi5 in H. fold data in H.
  apply bind_Ret_inv in H. destruct H as [startTime [Hstart H]].
  apply bind_Ret_inv in H. destruct H as [checkTime [Hcheck H]].
  apply bind_Ret_inv in H. destruct H as [[timed refTime] [Hloop H]].
  apply bind_Ret_inv in H. destruct H as [lastTimedRef [Hlast H]].
  apply bind_Ret_inv in H. destruct H as [finishTime [Hfinish H]].
  injection H as <-.
  exists startTime, checkTime, timed, refTime, finishTime.
  repeat split; try assumption.
  replace (finish_reference (newRefTime zerohour startTime) refTime timed)
    with lastTimedRef; [exact Hfinish|].
  pose proof Hloop as Hres. apply si5_timed_loop_result in Hres.
  destruct Hres as [new [Heq [Hlen [Hzero Hrun]]]]. simpl in Heq. subst new.
  fold (si5_nbTimed data) in Hlast, Hlen, Hzero, Hrun, Hloop.
  destruct (si5_untimed_loop_result data
              (Z.to_nat (si5_nbPunches data - SI5_TIMED_PUNCHES)) 0 timed)
    as [more [Hmore _]].
  rewrite Hmore in Hlast.
  destruct (Z.ltb_spec 0 (si5_nbTimed data)) as [Hpos|Hnone].
  - destruct (punch_timestamp_last_timed timed more (si5_nbTimed data) Hpos Hlen)
      as [p [Hp Hts]].
    rewrite Hts in Hlast. simpl in Hlast. injection Hlast as <-.
    unfold finish_reference. rewrite Hp.
    assert (Htodo : Z.to_nat (si5_nbTimed data) <> O) by lia.
    destruct (Hrun p Hp Htodo) as [_ Hresolved].
    destruct (Z.eqb_spec (timestampMs p) NO_TIME) as [He|Hne].
    + rewrite He. apply newRefTime_unresolved.
    + rewrite newRefTime_resolved by exact Hne. symmetry. auto.
  - injection Hlast as <-.
    assert (Hnil : timed = []) by (destruct timed; [reflexivity | simpl in Hlen; lia]).
    subst timed. unfold finish_reference, last_timed. simpl.
    symmetry. apply Hzero. lia.
Qed.

Lemma parseSi5_monotone (message : SiMessage.SiMessage) (zerohour : Z) :
  monotone (fun fuel => parseSi5 fuel message zerohour).
Proof.
  intros fuel fuel' card Hle H. unfold parseSi5 in *.
  apply bind_Ret_inv in H. destruct H as [startTime [Hstart H]].
  apply bind_Ret_inv in H. destruct H as [checkTime [Hcheck H]].
  apply bind_Ret_inv in H. destruct H as [[timed refTime] [Hloop H]].
  apply bind_Ret_inv in H. destruct H as [lastTimedRef [Hlast H]].
  apply bind_Ret_inv in H. destruct H as [finishTime [Hfinish H]].
  rewrite (advanceTimePast_monotone _ _ _ fuel fuel' _ Hle Hstart). simpl.
  rewrite (advanceTimePast_monotone _ _ _ fuel fuel' _ Hle Hcheck). simpl.
  rewrite (si5_timed_loop_monotone _ _ _ _ _ fuel fuel' _ Hle Hloop). simpl.
  rewrite Hlast. simpl.
  rewrite (advanceTimePast_monotone _ _ _ fuel fuel' _ Hle Hfinish). simpl.
  exact H.
Qed.

(** [parseSi5] returns: no read fails and every loop ends. *)
Lemma parseSi5_settles (message : SiMessage.SiMessage) (zerohour : Z) :
  exists card, settles (fun fuel => parseSi5 fuel message zerohour) card.
Proof.
  set (data := si5_data message).
  destruct (advanceTimePast_settles (si5_rawStart data) zerohour TWELVE_HOURS
              TWELVE_HOURS_pos) as [startTime [n1 Hstart]].
  destruct (advanceTimePast_settles (si5_rawCheck data) zerohour TWELVE_HOURS
              TWELVE_HOURS_pos) as [checkTime [n2 Hcheck]].
  destruct (si5_timed_loop_settles data (Z.to_nat (si5_nbTimed data)) 0 []
              (newRefTime zerohour startTime)) as [[timed refTime] [n3 Hloop]].
  pose proof (Hloop n3 (Nat.le_refl _)) as Hres.
  apply si5_timed_loop_result in Hres.
  destruct Hres as [new [Heq [Hlen _]]]. simpl in Heq. subst new.
  destruct (si5_untimed_loop_result data
              (Z.to_nat (si5_nbPunches data - SI5_TIMED_PUNCHES)) 0 timed)
    as [more [Hmore _]].
  assert (Hlast : exists lastTimedRef,
             (if 0 <? si5_nbTimed data
              then ts <- punch_timestamp
                           (si5_untimed_loop data
                              (Z.to_nat (si5_nbPunches data - SI5_TIMED_PUNCHES)) 0 timed)
                           (si5_nbTimed data - 1) ;;
                   Ret (newRefTime (newRefTime zerohour startTime) ts)
              else Ret (newRefTime zerohour startTime)) = Ret lastTimedRef).
  { destruct (Z.ltb_spec 0 (si5_nbTimed data)) as [Hpos|Hnone]; [|eauto].
    rewrite Hmore.
    destruct (punch_timestamp_last_timed timed more (si5_nbTimed data) Hpos Hlen)
      as [p [_ Hts]].
    rewrite Hts. simpl. eauto. }
  destruct Hlast as [lastTimedRef Hlast].
  destruct (advanceTimePast_settles (si5_rawFinish data) lastTimedRef TWELVE_HOURS
              TWELVE_HOURS_pos) as [finishTime [n4 Hfinish]].
  eexists. exists (Nat.max (Nat.max n1 n2) (Nat.max n3 n4)). intros fuel Hle.
  unfold parseSi5. fold data.
  rewrite Hstart by lia. simpl.
  rewrite Hcheck by lia. simpl.
  fold (si5_nbTimed data).
  rewrite Hloop by lia. simpl.
  rewrite Hlast. simpl.
  rewrite Hfinish by lia. simpl.
  reflexivity.
Qed.

End Si5Facts.

(* ================================================================== *)
(** * Card-5: punch count and finish time *)
(* ================================================================== *)

Module Si5Claims.
Import SiDataFrame Fuel FuelFacts AdvanceFacts Si5Facts.



(** The finish time that [parseSi5] computes: the raw finish time advanced,
    in 12-hour steps, past [finish_reference], which is the running reference
    left by the timed punches (seeded from the zero hour and the start time)
    unless the last timed punch has no time; then it is the seed again. *)
Theorem parseSi5_finishTime (message : SiMessage.SiMessage) (zerohour : Z) :
  exists card timed refTime,
    returns (fun fuel => parseSi5 fuel message zerohour) card /\
    (forall card', returns (fun fuel => parseSi5 fuel message zerohour) card' ->
                   card' = card) /\
    returns (fun fuel =>
               si5_timed_loop fuel (si5_data message)
                 (Z.to_nat (si5_nbTimed (si5_data message))) 0 []
                 (newRefTime zerohour (startTime card)))
            (timed, refTime) /\
    returns (fun fuel =>
               advanceTimePast fuel (si5_rawFinish (si5_data message))
                 (finish_reference (newRefTime zerohour (startTime card))
                    refTime timed)
                 TWELVE_HOURS)
            (finishTime card).
Proof.
  destruct (parseSi5_settles message zerohour) as [card Hcard].
  pose proof (settles_returns _ _ Hcard) as Hret.
  destruct Hret as [fuel Hfuel]. pose proof Hfuel as Hinv.
  apply parseSi5_inv in Hinv.
  destruct Hinv as (st & ct & timed & refTime & ft & _ & _ & Hloop & Hfinish & ->).
  eexists _, timed, refTime. split; [exists fuel; exact Hfuel|]. split.
  { intros card' Hret'.
    eapply returns_unique; eauto using parseSi5_monotone.
    exists fuel. exact Hfuel. }
  cbn [startTime finishTime].
  split; exists fuel; assumption.
Qed.

(** C6: the finish time should be the raw finish time advanced past the
    running reference left by the timed punches.  On a card whose last timed
    punch has no time the code does otherwise: the running reference is the
    first punch (40000 s), yet the finish (1000 s) is advanced past the seed
    (the zero hour) and stays at 1000 s, before the punch, while advancing it
    past the running reference gives 44200 s. *)
Theorem parseSi5_finish_past_seed :
  SiMessage.check Frames.untimed_last_card5 SiMessage.GET_SI_CARD_5 = true /\
  exists card,
    parseSi5 1 Frames.untimed_last_card5 0 = Ret card /\
    si5_timed_loop 1 (si5_data Frames.untimed_last_card5)
      (Z.to_nat (si5_nbTimed (si5_data Frames.untimed_last_card5))) 0 []
      (newRefTime 0 (startTime card))
    = Ret ([mkSiPunch 31 40000000; mkSiPunch 32 NO_TIME], 40000000) /\
    finishTime card = 1000000 /\
    advanceTimePast 1 (si5_rawFinish (si5_data Frames.untimed_last_card5))
      40000000 TWELVE_HOURS = Ret 44200000.
Proof.
  split; [vm_compute; reflexivity|].
  eexists. split; [vm_compute; reflexivity|].
  cbn [startTime finishTime]. repeat split.
Qed.

End Si5Claims.

(* ================================================================== *)
(** * The Card-6+ decoder: the finish time *)
(* ================================================================== *)

Module Si6Facts.
Import SiDataFrame Fuel FuelFacts AdvanceFacts Si5Facts.



(** The Card-6 twin of the Card-5 card with an untimed last punch: here the
    finish (1000 s) is advanced past the first punch (40000 s), by one day. *)
Example parseSi6_finish_past_running_reference :
  exists card,
    parseSi6 1 Frames.untimed_last_card6 0 = Ret card /\
    punches card = [mkSiPunch 31 40000000; mkSiPunch 32 NO_TIME] /\
    startTime card = NO_TIME /\
    finishTime card = 1000000 + ONE_DAY.
Proof.
  eexists. split; [vm_compute; reflexivity|].
  cbn [punches startTime finishTime]. repeat split.
Qed.

End Si6Facts.

(* ================================================================== *)
(** * The course validator: shape of the result *)
(* ================================================================== *)

Module ValidatorFacts.
Import Validator.

Lemma indices_succ (k : Z) : 0 <= k -> indices (k + 1) = indices k ++ [k].
Proof.
  intros Hk. unfold indices.
  replace (Z.to_nat (k + 1)) with (S (Z.to_nat k)) by lia.
  rewrite seq_S, map_app. simpl. rewrite Z2Nat.id by lia. reflexivity.
Qed.

Lemma indices_nonpos (k : Z) : k <= 0 -> indices k = [].
Proof.
  intros Hk. unfold indices. replace (Z.to_nat k) with O by lia. reflexivity.
Qed.

(** A loop [for (k = 0; k < n; k++)] keeps an invariant that each turn keeps. *)
Lemma for_loop_invariant {S : Type} (f : S -> Z -> S) (P : Z -> S -> Prop)
  (n : Z) (s0 : S) :
  0 <= n -> P 0 s0 ->
  (forall k s, 0 <= k < n -> P k s -> P (k + 1) (f s k)) ->
  P n (fold_left f (indices n) s0).
Proof.
  intros Hn H0 Hstep.
  assert (H : forall k, 0 <= k -> k <= n -> P k (fold_left f (indices k) s0)).
  { intros k Hk. pattern k. apply natlike_ind; [| |exact Hk].
    - intros _. exact H0.
    - intros x Hx IH Hle. unfold Z.succ. rewrite indices_succ by lia.
      rewrite fold_left_app. simpl. apply Hstep; [lia|]. apply IH. lia. }
  apply H; lia.
Qed.

Lemma push_loop_length {A B : Type} (g : B -> A) (l : list B) (acc : list A) :
  List.length (fold_left (fun acc x => acc ++ [g x]) l acc)
  = (List.length acc + List.length l)%nat.
Proof.
  revert acc. induction l as [|x l IH]; intros acc; simpl; [lia|].
  rewrite IH, length_app. simpl. lia.
Qed.

(** A loop that pushes the elements that pass a test is a filter. *)
Lemma filter_loop {A : Type} (test : A -> bool) (l : list A) (acc : list A) :
  fold_left (fun acc x => if test x then acc ++ [x] else acc) l acc
  = acc ++ filter test l.
Proof.
  revert acc. induction l as [|x l IH]; intros acc; simpl.
  - rewrite app_nil_r. reflexivity.
  - rewrite IH. destruct (test x); [rewrite <- app_assoc|]; reflexivity.
Qed.

Lemma relevant_filter (expected : list Z) (punches : list SiDataFrame.SiPunch) :
  relevant expected punches
  = filter (fun p => includes expected (SiDataFrame.code p)) punches.
Proof. unfold relevant. rewrite filter_loop. reflexivity. Qed.

Lemma findExtraControls_filter (expected : list Z)
  (punches : list SiDataFrame.SiPunch) :
  findExtraControls expected punches
  = map SiDataFrame.code
      (filter (fun p => negb (includes expected (SiDataFrame.code p))) punches).
Proof.
  unfold findExtraControls.
  assert (H : forall acc,
             fold_left
               (fun extras p =>
                  if negb (includes expected (SiDataFrame.code p))
                  then extras ++ [SiDataFrame.code p] else extras) punches acc
             = acc ++ map SiDataFrame.code
                        (filter (fun p => negb (includes expected (SiDataFrame.code p)))
                                punches)).
  { induction punches as [|p punches IH]; intros acc; simpl.
    - rewrite app_nil_r. reflexivity.
    - rewrite IH.
      destruct (negb (includes expected (SiDataFrame.code p)));
        [simpl; rewrite <- app_assoc|]; reflexivity. }
  apply H.
Qed.

(** The trace pushes one result for every expected control it passes. *)
Lemma trace_loop_length (expected : list Z)
  (relevantPunches : list SiDataFrame.SiPunch) (matrix : Matrix) (totalCost : Z)
  (i j : Z) (controlResults : list ControlResult) :
  0 <= i <= Z.of_nat (List.length expected) ->
  Z.of_nat (List.length controlResults) = i ->
  let '(i', controlResults') :=
    trace_loop expected relevantPunches matrix totalCost i j controlResults in
  i <= i' <= Z.of_nat (List.length expected) /\
  Z.of_nat (List.length controlResults') = i'.
Proof.
  funelim (trace_loop expected relevantPunches matrix totalCost i j controlResults);
    intros Hi Hlen.
  - destruct (matrix (i + 1) (j + 1) =? matrix i j).
    { match goal with
      | IH : context [trace_loop _ _ _ _ (i + 1) (j + 1) _] |- _ =>
          specialize (IH ltac:(lia)); rewrite length_app in IH; simpl in IH;
          specialize (IH ltac:(lia))
      end.
      destruct (trace_loop _ _ _ _ (i + 1) (j + 1) _). lia. }
    destruct (negb (existsCodeFrom (code_at expected i) relevantPunches (j + 1))).
    { match goal with
      | IH : context [trace_loop _ _ _ _ (i + 1) j _] |- _ =>
          specialize (IH ltac:(lia)); rewrite length_app in IH; simpl in IH;
          specialize (IH ltac:(lia))
      end.
      destruct (trace_loop _ _ _ _ (i + 1) j _). lia. }
    destruct (matrix i (j + 1) >? totalCost).
    { match goal with
      | IH : context [trace_loop _ _ _ _ (i + 1) (j - 1 + 1) _] |- _ =>
          specialize (IH ltac:(lia)); rewrite length_app in IH; simpl in IH;
          specialize (IH ltac:(lia))
      end.
      destruct (trace_loop _ _ _ _ (i + 1) (j - 1 + 1) _). lia. }
    match goal with
    | IH : context [trace_loop _ _ _ _ i (j + 1) _] |- _ =>
        specialize (IH ltac:(lia) ltac:(lia))
    end.
    destruct (trace_loop _ _ _ _ i (j + 1) _). lia.
  - lia.
  - lia.
Qed.

Lemma remaining_length (expected : list Z) (i : Z)
  (controlResults : list ControlResult) :
  List.length (remaining expected i controlResults)
  = (List.length controlResults
     + Z.to_nat (Z.of_nat (List.length expected) - i))%nat.
Proof.
  unfold remaining. rewrite push_loop_length.
  unfold indices. rewrite length_map, length_seq. reflexivity.
Qed.

Lemma score_map_length (expected : list Z) (punches : list SiDataFrame.SiPunch) :
  forall used,
    List.length (score_map expected punches used) = List.length expected.
Proof.
  induction expected as [|e expected IH]; intros used; simpl; [reflexivity|].
  destruct (score_scan e punches used) as [[t used']|]; simpl; rewrite IH;
    reflexivity.
Qed.

Lemma validateInline_controlResults_length (course : Course)
  (punches : list SiDataFrame.SiPunch) :
  List.length (controlResults (validateInline course punches))
  = List.length (controls course).
Proof.
  unfold validateInline.
  pose proof (trace_loop_length (controls course)
                (relevant (controls course) punches)
                (build_matrix (controls course) (relevant (controls course) punches))
                (build_matrix (controls course) (relevant (controls course) punches)
                   (Z.of_nat (List.length (controls course)))
                   (Z.of_nat (List.length (relevant (controls course) punches))))
                0 0 []) as H.
  destruct (trace_loop _ _ _ _ 0 0 []) as [i controlResults'].
  cbn [controlResults]. rewrite remaining_length.
  specialize (H ltac:(lia) eq_refl). lia.
Qed.

Lemma validateInline_well_shaped (course : Course)
  (punches : list SiDataFrame.SiPunch) :
  well_shaped course punches (validateInline course punches).
Proof.
  unfold well_shaped.
  split; [apply validateInline_controlResults_length|].
  unfold validateInline.
  destruct (trace_loop _ _ _ _ 0 0 []) as [i controlResults'].
  cbn [missingCount allCorrect extraControls controlResults].
  split; [reflexivity|]. split; [apply Z.eqb_eq|].
  apply findExtraControls_filter.
Qed.

Lemma validateScoreO_well_shaped (course : Course)
  (punches : list SiDataFrame.SiPunch) :
  well_shaped course punches (validateScoreO course punches).
Proof.
  unfold well_shaped, validateScoreO.
  cbn [missingCount allCorrect extraControls controlResults].
  split; [apply score_map_length|].
  split; [reflexivity|]. split; [apply Z.eqb_eq|].
  apply findExtraControls_filter.
Qed.

(** C1: for every course and punch list, the results of [validateInline] and
    of [validateScoreO] have one control result per control of the course, a
    [missingCount] that counts the results that are not found, [allCorrect]
    exactly when nothing is missing, and as [extraControls] the codes of the
    punches that are not in the course, in punch order. *)
Theorem validation_result_well_shaped (course : Course)
  (punches : list SiDataFrame.SiPunch) :
  well_shaped course punches (validateInline course punches) /\
  well_shaped course punches (validateScoreO course punches).
Proof.
  split; [apply validateInline_well_shaped | apply validateScoreO_well_shaped].
Qed.

Example validateInline_missing_middle :
  let course := mkCourse "Test Course" [31; 32; 33; 34; 35] true true None in
  let punches := [SiDataFrame.mkSiPunch 31 1000; SiDataFrame.mkSiPunch 32 2000;
                  SiDataFrame.mkSiPunch 99 2500;
                  SiDataFrame.mkSiPunch 34 4000; SiDataFrame.mkSiPunch 35 5000] in
  let r := validateInline course punches in
  map found (controlResults r) = [true; true; false; true; true] /\
  missingCount r = 1 /\ extraControls r = [99] /\ allCorrect r = false.
Proof. vm_compute. repeat split. Qed.

Example validateScoreO_duplicates :
  let course := mkCourse "Score" [31; 31; 32] false true None in
  let punches := [SiDataFrame.mkSiPunch 32 1000; SiDataFrame.mkSiPunch 31 2000;
                  SiDataFrame.mkSiPunch 40 3000] in
  let r := validateScoreO course punches in
  map found (controlResults r) = [true; false; true] /\
  map timestampMs (controlResults r) = [2000; SiDataFrame.NO_TIME; 1000] /\
  missingCount r = 1 /\ extraControls r = [40] /\ allCorrect r = false.
Proof. vm_compute. repeat split. Qed.

End ValidatorFacts.

(* ================================================================== *)
(** * The course validator: the distance matrix and the trace *)
(* ================================================================== *)

Module MatrixFacts.
Import Validator ValidatorFacts.

Section Levenshtein.

Variable expected : list Z.
Variable relevantPunches : list SiDataFrame.SiPunch.

Let m : Z := Z.of_nat (List.length expected).
Let n : Z := Z.of_nat (List.length relevantPunches).

Ltac mset_cases :=
  unfold mset;
  repeat match goal with
         | |- context [?a =? ?b] => destruct (Z.eqb_spec a b)
         end;
  cbn [andb]; try reflexivity; try lia.

Lemma mset_same (matrix : Matrix) (i j v : Z) : mset matrix i j v i j = v.
Proof. unfold mset. rewrite !Z.eqb_refl. reflexivity. Qed.

Lemma mset_other (matrix : Matrix) (i j v i' j' : Z) :
  i' <> i \/ j' <> j -> mset matrix i j v i' j' = matrix i' j'.
Proof. intros H. mset_cases. Qed.

Lemma first_column_written :
  forall i, 0 <= i <= m ->
    fold_left (fun matrix i => mset matrix i 0 i) (indices (m + 1)) empty_matrix i 0
    = i.
Proof.
  pose (P := fun (k : Z) (matrix : Matrix) => forall i, 0 <= i < k -> matrix i 0 = i).
  assert (H : P (m + 1) (fold_left (fun matrix i => mset matrix i 0 i)
                           (indices (m + 1)) empty_matrix)).
  { apply for_loop_invariant; [unfold m; lia | intros i Hi; lia |].
    intros k matrix Hk IH i Hi.
    destruct (Z.eq_dec i k) as [->|Hne].
    - apply mset_same.
    - rewrite mset_other by lia. apply IH. lia. }
  intros i Hi. apply H. lia.
Qed.

Lemma borders_written :
  borders expected relevantPunches
    (fold_left (fun matrix j => mset matrix 0 j j) (indices (n + 1))
       (fold_left (fun matrix i => mset matrix i 0 i) (indices (m + 1)) empty_matrix)).
Proof.
  pose (P := fun (k : Z) (matrix : Matrix) =>
               (forall i, 0 <= i <= m -> matrix i 0 = i) /\
               (forall j, 0 <= j < k -> matrix 0 j = j)).
  assert (H : P (n + 1) (fold_left (fun matrix j => mset matrix 0 j j)
                           (indices (n + 1))
                           (fold_left (fun matrix i => mset matrix i 0 i)
                              (indices (m + 1)) empty_matrix))).
  { apply for_loop_invariant; [unfold n; lia | |].
    - split; [apply first_column_written | intros j Hj; lia].
    - intros k matrix Hk [Hcol Hrow]. split.
      + intros i Hi. destruct (Z.eq_dec i 0) as [->|Hi0].
        * destruct (Z.eq_dec k 0) as [->|Hk0]; [apply mset_same|].
          rewrite mset_other by lia. apply Hcol. lia.
        * rewrite mset_other by lia. apply Hcol. lia.
      + intros j Hj. destruct (Z.eq_dec j k) as [->|Hne].
        * apply mset_same.
        * rewrite mset_other by lia. apply Hrow. lia. }
  destruct H as [Hcol Hrow]. split; [exact Hcol|].
  intros j Hj. apply Hrow. lia.
Qed.

Lemma fill_cell_step (i j : Z) (matrix : Matrix) :
  0 <= i -> 0 <= j < n ->
  filled_before expected relevantPunches i j matrix ->
  filled_before expected relevantPunches i (j + 1) (fill_cell expected relevantPunches i matrix j).
Proof.
  intros Hi Hj [[Hcol Hrow] Hrec]. unfold fill_cell. fold (cost expected relevantPunches i j).
  split; [split|].
  - intros a Ha. rewrite mset_other by lia. apply Hcol. exact Ha.
  - intros b Hb. rewrite mset_other by lia. apply Hrow. exact Hb.
  - intros a b Ha Hb Hbefore. unfold recurrence.
    destruct (Z.eq_dec a i) as [->|Hai].
    + destruct (Z.eq_dec b j) as [->|Hbj].
      * rewrite mset_same. rewrite !mset_other by lia. reflexivity.
      * rewrite !mset_other by lia. apply Hrec; lia.
    + rewrite !mset_other by lia. apply Hrec; lia.
Qed.

Lemma fill_row_step (i : Z) (matrix : Matrix) :
  0 <= i ->
  filled_before expected relevantPunches i 0 matrix ->
  filled_before expected relevantPunches (i + 1) 0
    (fold_left (fill_cell expected relevantPunches i) (indices n) matrix).
Proof.
  intros Hi H0.
  assert (H : filled_before expected relevantPunches i n
                (fold_left (fill_cell expected relevantPunches i) (indices n) matrix)).
  { apply (for_loop_invariant (fill_cell expected relevantPunches i)
             (filled_before expected relevantPunches i)); [unfold n; lia | exact H0 |].
    intros k s Hk IH. apply fill_cell_step; [lia | lia | exact IH]. }
  destruct H as [Hb Hrec]. split; [exact Hb|].
  intros a b Ha Hb' Hbefore. apply Hrec; lia.
Qed.

(** [build_matrix] builds the matrix of the edit distance. *)
Lemma build_matrix_filled :
  borders expected relevantPunches (build_matrix expected relevantPunches) /\
  forall i j, 0 <= i < m -> 0 <= j < n ->
              recurrence expected relevantPunches (build_matrix expected relevantPunches) i j.
Proof.
  assert (H : filled_before expected relevantPunches m 0 (build_matrix expected relevantPunches)).
  { unfold build_matrix. fold m n.
    apply (for_loop_invariant
             (fun matrix i =>
                fold_left (fill_cell expected relevantPunches i) (indices n) matrix)
             (fun i matrix => filled_before expected relevantPunches i 0 matrix)); [unfold m; lia | |].
    - split; [apply borders_written|]. intros a b Ha Hb Hbefore. lia.
    - intros k s Hk IH. apply fill_row_step; [lia | exact IH]. }
  destruct H as [Hb Hrec]. split; [exact Hb|].
  intros i j Hi Hj. apply Hrec; lia.
Qed.

Lemma cost_nonneg (i j : Z) : 0 <= cost expected relevantPunches i j.
Proof. unfold cost. destruct (_ =? _); lia. Qed.

Lemma build_matrix_nonneg (i j : Z) :
  0 <= i <= m -> 0 <= j <= n -> 0 <= build_matrix expected relevantPunches i j.
Proof.
  destruct build_matrix_filled as [[Hcol Hrow] Hrec].
  intros [Hi Him]. revert Him j. pattern i. apply natlike_ind; [| |exact Hi].
  - intros _ j Hj. rewrite Hrow; lia.
  - intros a Ha IH Ham j [Hj Hjn]. revert Hjn. pattern j.
    apply natlike_ind; [| |exact Hj].
    + intros _. rewrite Hcol; lia.
    + intros b Hb IHb Hbn. unfold Z.succ. rewrite Hrec by lia.
      specialize (IHb ltac:(lia)). unfold Z.succ in IHb.
      pose proof (IH ltac:(lia) (b + 1) ltac:(lia)) as Hup.
      pose proof (IH ltac:(lia) b ltac:(lia)) as Hdiag.
      pose proof (cost_nonneg a b). unfold min3. lia.
Qed.

(** When the punches carry the expected codes in order, the diagonal of the
    matrix is zero. *)
Lemma build_matrix_diagonal (k : Z) :
  map SiDataFrame.code relevantPunches = expected ->
  0 <= k <= m -> build_matrix expected relevantPunches k k = 0.
Proof.
  intros Hcodes.
  assert (Hmn : m = n).
  { unfold m, n. rewrite <- Hcodes, length_map. reflexivity. }
  destruct build_matrix_filled as [[Hcol Hrow] Hrec].
  intros [Hk Hkm]. revert Hkm. pattern k. apply natlike_ind; [| |exact Hk].
  - intros _. apply Hcol. lia.
  - intros a Ha IH Ham. unfold Z.succ. rewrite Hrec by lia.
    rewrite IH by lia.
    assert (Hcost : cost expected relevantPunches a a = 0).
    { unfold cost, code_at, punch_at. rewrite <- Hcodes.
      erewrite nth_indep with (d' := SiDataFrame.code
                                      (SiDataFrame.mkSiPunch 0 SiDataFrame.NO_TIME))
        by (rewrite length_map; unfold n in *; lia).
      rewrite map_nth. rewrite Z.eqb_refl. reflexivity. }
    rewrite Hcost.
    pose proof (build_matrix_nonneg (a + 1) a ltac:(lia) ltac:(lia)).
    pose proof (build_matrix_nonneg a (a + 1) ltac:(lia) ltac:(lia)).
    unfold min3. lia.
Qed.

End Levenshtein.

End MatrixFacts.

(* ================================================================== *)
(** * The course validator: a runner who punched the course *)
(* ================================================================== *)

Module InlineFacts.
Import Validator ValidatorFacts MatrixFacts.

(** One turn of the trace loop. *)
Lemma trace_loop_step (expected : list Z)
  (relevantPunches : list SiDataFrame.SiPunch) (matrix : Matrix) (totalCost : Z)
  (i j : Z) (controlResults : list ControlResult) :
  trace_loop expected relevantPunches matrix totalCost i j controlResults
  = if (i <? Z.of_nat (List.length expected))
       && (j <? Z.of_nat (List.length relevantPunches))
    then
      if matrix (i + 1) (j + 1) =? matrix i j then
        trace_loop expected relevantPunches matrix totalCost (i + 1) (j + 1)
          (controlResults ++
             [mkControlResult (code_at expected i) true
                (SiDataFrame.timestampMs (punch_at relevantPunches j))])
      else if negb (existsCodeFrom (code_at expected i) relevantPunches (j + 1)) then
        trace_loop expected relevantPunches matrix totalCost (i + 1) j
          (controlResults ++ [PM (code_at expected i)])
      else if matrix i (j + 1) >? totalCost then
        trace_loop expected relevantPunches matrix totalCost (i + 1) (j - 1 + 1)
          (controlResults ++ [PM (code_at expected i)])
      else
        trace_loop expected relevantPunches matrix totalCost i (j + 1)
          controlResults
    else (i, controlResults).
Proof.
  rewrite trace_loop_unfold_eq. unfold trace_loop_unfold.
  destruct (Z_lt_dec i _) as [Hi|Hi]; simpl;
    [destruct (Z_lt_dec j _) as [Hj|Hj]; simpl|].
  all: destruct (Z.ltb_spec i (Z.of_nat (List.length expected))); try lia.
  all: destruct (Z.ltb_spec j (Z.of_nat (List.length relevantPunches))); try lia.
  all: reflexivity.
Qed.

Lemma skipn_cons_nth {A : Type} (l : list A) (k : nat) (d : A) :
  (k < List.length l)%nat -> skipn k l = nth k l d :: skipn (S k) l.
Proof.
  revert k. induction l as [|x l IH]; intros k Hk; simpl in Hk; [lia|].
  destruct k as [|k]; [reflexivity|]. simpl. apply IH. lia.
Qed.

(** On a zero diagonal the trace walks down the diagonal and matches every
    punch. *)
Lemma trace_loop_diagonal (punches : list SiDataFrame.SiPunch) (matrix : Matrix)
  (totalCost : Z) (todo : nat) :
  (forall k, 0 <= k <= Z.of_nat (List.length punches) -> matrix k k = 0) ->
  forall k controlResults,
    0 <= k -> Z.of_nat todo = Z.of_nat (List.length punches) - k ->
    trace_loop (map SiDataFrame.code punches) punches matrix totalCost k k
      controlResults
    = (Z.of_nat (List.length punches),
       controlResults ++ map matched (skipn (Z.to_nat k) punches)).
Proof.
  intros Hdiag. induction todo as [|todo IH]; intros k controlResults Hk Htodo;
    rewrite trace_loop_step; rewrite length_map.
  - destruct (Z.ltb_spec k (Z.of_nat (List.length punches))) as [Hlt|Hge]; [lia|].
    cbn [andb]. rewrite skipn_all2 by lia. simpl. rewrite app_nil_r.
    f_equal. lia.
  - destruct (Z.ltb_spec k (Z.of_nat (List.length punches))) as [Hlt|Hge]; [|lia].
    cbn [andb]. rewrite !Hdiag by lia. rewrite Z.eqb_refl.
    rewrite IH by lia.
    rewrite <- app_assoc. f_equal. f_equal.
    rewrite (skipn_cons_nth punches (Z.to_nat k)
               (SiDataFrame.mkSiPunch 0 SiDataFrame.NO_TIME)) by lia.
    replace (Z.to_nat (k + 1)) with (S (Z.to_nat k)) by lia.
    cbn [map app]. f_equal.
    unfold matched, code_at, punch_at. f_equal.
    erewrite nth_indep with (d' := SiDataFrame.code
                                    (SiDataFrame.mkSiPunch 0 SiDataFrame.NO_TIME))
      by (rewrite length_map; lia).
    rewrite map_nth. reflexivity.
Qed.

Lemma includes_In (expected : list Z) (code : Z) :
  In code expected -> includes expected code = true.
Proof.
  intros Hin. unfold includes. apply existsb_exists.
  exists code. split; [exact Hin | apply Z.eqb_refl].
Qed.

Lemma filter_all {A : Type} (test : A -> bool) (l : list A) :
  (forall x, In x l -> test x = true) -> filter test l = l.
Proof.
  induction l as [|x l IH]; intros H; simpl; [reflexivity|].
  rewrite (H x) by (left; reflexivity). f_equal. apply IH.
  intros y Hy. apply H. right. exact Hy.
Qed.

Lemma filter_none {A : Type} (test : A -> bool) (l : list A) :
  (forall x, In x l -> test x = false) -> filter test l = [].
Proof.
  induction l as [|x l IH]; intros H; simpl; [reflexivity|].
  rewrite (H x) by (left; reflexivity). apply IH.
  intros y Hy. apply H. right. exact Hy.
Qed.

Lemma own_codes_included (punches : list SiDataFrame.SiPunch) (p : SiDataFrame.SiPunch) :
  In p punches ->
  includes (map SiDataFrame.code punches) (SiDataFrame.code p) = true.
Proof. intros Hin. apply includes_In, in_map, Hin. Qed.

(** The result of validating the punches of a runner who punched exactly the
    controls of the course, in order. *)
Lemma validateInline_own_codes_results (course : Course)
  (punches : list SiDataFrame.SiPunch) :
  map SiDataFrame.code punches = controls course ->
  controlResults (validateInline course punches) = map matched punches.
Proof.
  intros Hcodes. unfold validateInline. rewrite <- Hcodes.
  rewrite relevant_filter.
  rewrite (filter_all _ punches) by (intros p Hp; apply own_codes_included, Hp).
  rewrite (trace_loop_diagonal punches _ _ (List.length punches)).
  - cbn [controlResults]. unfold remaining.
    rewrite length_map, indices_nonpos by lia. reflexivity.
  - intros k Hk. apply build_matrix_diagonal; [reflexivity|].
    rewrite length_map. exact Hk.
  - lia.
  - lia.
Qed.

(** C7: validating a course against punches whose codes are the expected
    codes of the course, in order, with any time stamps, finds everything:
    [allCorrect] holds, there is no extra control, and the i-th control result
    carries the time stamp of the i-th punch. *)
Theorem validateInline_own_codes (course : Course)
  (punches : list SiDataFrame.SiPunch) :
  map SiDataFrame.code punches = controls course ->
  allCorrect (validateInline course punches) = true /\
  extraControls (validateInline course punches) = [] /\
  map timestampMs (controlResults (validateInline course punches))
  = map SiDataFrame.timestampMs punches.
Proof.
  intros Hcodes.
  pose proof (validateInline_own_codes_results course punches Hcodes) as Hres.
  destruct (validateInline_well_shaped course punches)
    as (_ & Hmissing & Hall & Hextra).
  split; [|split].
  - apply Hall. rewrite Hmissing, Hres.
    rewrite filter_none; [reflexivity|].
    intros c Hc. apply in_map_iff in Hc. destruct Hc as [p [<- _]]. reflexivity.
  - rewrite Hextra, <- Hcodes.
    rewrite filter_none; [reflexivity|].
    intros p Hp. rewrite own_codes_included by exact Hp. reflexivity.
  - rewrite Hres, map_map. reflexivity.
Qed.

Lemma validateInline_own_codes_witness :
  let course := mkCourse "Loop" [31; 32; 33; 32; 34] true true None in
  let punches := [SiDataFrame.mkSiPunch 31 1000; SiDataFrame.mkSiPunch 32 2000;
                  SiDataFrame.mkSiPunch 33 3000; SiDataFrame.mkSiPunch 32 4000;
                  SiDataFrame.mkSiPunch 34 5000] in
  map SiDataFrame.code punches = controls course /\
  allCorrect (validateInline course punches) = true /\
  extraControls (validateInline course punches) = [] /\
  map timestampMs (controlResults (validateInline course punches))
  = map SiDataFrame.timestampMs punches.
Proof.
  intros course punches.
  split; [reflexivity | apply (validateInline_own_codes course punches); reflexivity].
Defined.

End InlineFacts.

(* ================================================================== *)
(** * The start-up handshake *)
(* ================================================================== *)

Module StartupFacts.
Import SiDriver.

Lemma land_low_bits (c mask : Z) :
  0 <= mask < 8 -> Z.land c mask = Z.land (c mod 8) mask.
Proof.
  intros Hmask. change 8 with (2 ^ 3). rewrite <- Z.land_ones by lia.
  rewrite <- Z.land_assoc. f_equal.
  assert (H : mask = 0 \/ mask = 1 \/ mask = 2 \/ mask = 3 \/ mask = 4 \/
              mask = 5 \/ mask = 6 \/ mask = 7) by lia.
  repeat (destruct H as [->|H]; [reflexivity|]). subst. reflexivity.
Qed.

(** The test of [startup] on the configuration byte, bit by bit. *)
Lemma config_check_bits (c : Z) :
  (Z.land c CONFIG_CHECK_MASK =? CONFIG_CHECK_MASK)
  = negb (Z.land c 0x01 =? 0) && negb (Z.land c 0x04 =? 0).
Proof.
  change CONFIG_CHECK_MASK with 5.
  rewrite (land_low_bits c 5), (land_low_bits c 1), (land_low_bits c 4) by lia.
  assert (H : c mod 8 = 0 \/ c mod 8 = 1 \/ c mod 8 = 2 \/ c mod 8 = 3 \/
              c mod 8 = 4 \/ c mod 8 = 5 \/ c mod 8 = 6 \/ c mod 8 = 7).
  { pose proof (Z.mod_pos_bound c 8 ltac:(lia)). lia. }
  repeat (destruct H as [->|H]; [reflexivity|]). rewrite H. reflexivity.
Qed.

Lemma andThen_Ok {A B : Type} (t : Task A) (k : A -> Task B) (d d' : SiDriver) (a : A) :
  t d = (Ok a, d') -> andThen t k d = k a d'.
Proof. intros H. unfold andThen. rewrite H. reflexivity. Qed.

Lemma andThen_Ok_inv {A B : Type} (t : Task A) (k : A -> Task B)
  (d d' : SiDriver) (b : B) :
  andThen t k d = (Ok b, d') ->
  exists a d1, t d = (Ok a, d1) /\ k a d1 = (Ok b, d').
Proof.
  unfold andThen. destruct (t d) as [[a|e] d1]; intros H; [eauto | discriminate].
Qed.

Lemma no_Error_andThen {A B : Type} (t : Task A) (k : A -> Task B) :
  no_Error t -> (forall a, no_Error (k a)) -> no_Error (andThen t k).
Proof.
  intros Ht Hk d msg. unfold andThen.
  specialize (Ht d msg). destruct (t d) as [[a|e] d1]; simpl in *.
  - apply Hk.
  - intros He. apply Ht. injection He as ->. reflexivity.
Qed.

Lemma no_Error_act (f : SiDriver -> SiDriver) : no_Error (act f).
Proof. intros d msg. simpl. discriminate. Qed.

Lemma no_Error_send (msg : SiMessage.SiMessage) : no_Error (send msg).
Proof.
  unfold send. apply no_Error_andThen; [apply no_Error_act|].
  intros _ d e. unfold port_write.
  destruct (write (port d) (SiMessage.sequence msg)); simpl; discriminate.
Qed.

Lemma no_Error_take (timeoutMs : Z) : no_Error (take timeoutMs).
Proof.
  intros d e. unfold take.
  destruct (queue (messageQueue d)); [|simpl; discriminate].
  destruct (incoming d) as [|[m|] later]; simpl; discriminate.
Qed.

Lemma no_Error_pollAnswer (command : Z) : no_Error (pollAnswer command).
Proof.
  unfold pollAnswer. apply no_Error_andThen; [apply no_Error_take|].
  intros m d e. destruct (negb (SiMessage.check m command)); simpl; discriminate.
Qed.

(** [startup] runs the four steps of [startup_until_config] first. *)
Lemma startup_after_config (d d1 : SiDriver) (configMsg : SiMessage.SiMessage) :
  startup_until_config d = (Ok configMsg, d1) ->
  startup d
  = (let cpcByte := Buf.int32 (SiMessage.byteAt configMsg 6) in
     if negb (Z.land cpcByte CONFIG_CHECK_MASK =? CONFIG_CHECK_MASK) then
       if Z.land cpcByte EXTENDED_PROTOCOL_MASK =? 0
       then throw (Error EXTENDED_PROTOCOL_ERROR)
       else throw (Error HANDSHAKE_MODE_ERROR)
     else
       andThen (send SiMessage.GET_CARDBLOCKS_CONFIGURATION) (fun _ =>
       andThen (pollAnswer SiMessage.GET_SYSTEM_VALUE) (fun blockMsg =>
       let mode := Z.land (Buf.int32 (SiMessage.byteAt blockMsg 6)) 0xff =? 0xff in
       andThen (act (fun d => set_si6_192PunchesMode d mode)) (fun _ =>
       andThen (act (fun d =>
                  log d INFO
                    (if mode then "SiCard6 192 Punches Mode Enabled"
                     else "SiCard6 192 Punches Mode Disabled"))) (fun _ =>
       andThen (send SiMessage.BEEP_TWICE) (fun _ =>
       act (fun d => emit d (EvStatus ON None)))))))) d1.
Proof.
  unfold startup_until_config, startup. intros H.
  apply andThen_Ok_inv in H. destruct H as (u1 & s1 & H1 & H).
  apply andThen_Ok_inv in H. destruct H as (m1 & s2 & H2 & H).
  apply andThen_Ok_inv in H. destruct H as (u2 & s3 & H3 & H4).
  rewrite (andThen_Ok _ _ _ _ _ H1), (andThen_Ok _ _ _ _ _ H2),
    (andThen_Ok _ _ _ _ _ H3), (andThen_Ok _ _ _ _ _ H4).
  reflexivity.
Qed.

(** C8: once the answer to "get protocol configuration" is in, [startup]
    fails with "Master station should be configured with extended protocol"
    when bit [0x01] of its byte 6 is clear, else with "Master station should
    be configured in handshake mode (no autosend)" when bit [0x04] is clear,
    and with both bits set it raises no configuration error (no [Error] at
    all: only the port and the later answers can still fail). *)
Theorem startup_configuration_check (d d1 : SiDriver)
  (configMsg : SiMessage.SiMessage) :
  startup_until_config d = (Ok configMsg, d1) ->
  let cpcByte := Buf.int32 (SiMessage.byteAt configMsg 6) in
  (Z.land cpcByte 0x01 = 0 ->
   startup d
   = (Throw (Error "Master station should be configured with extended protocol"),
      d1)) /\
  (Z.land cpcByte 0x01 <> 0 -> Z.land cpcByte 0x04 = 0 ->
   startup d
   = (Throw (Error "Master station should be configured in handshake mode (no autosend)"),
      d1)) /\
  (Z.land cpcByte 0x01 <> 0 -> Z.land cpcByte 0x04 <> 0 ->
   forall msg, fst (startup d) <> Throw (Error msg)).
Proof.
  intros Hconfig cpcByte.
  rewrite (startup_after_config d d1 configMsg Hconfig). fold cpcByte. cbv zeta.
  rewrite config_check_bits. change EXTENDED_PROTOCOL_MASK with 0x01.
  split; [|split].
  - intros Hext. rewrite Hext. reflexivity.
  - intros Hext Hhs. rewrite Hhs.
    destruct (Z.eqb_spec (Z.land cpcByte 1) 0) as [He|_]; [contradiction|].
    reflexivity.
  - intros Hext Hhs msg.
    destruct (Z.eqb_spec (Z.land cpcByte 1) 0) as [He|_]; [contradiction|].
    destruct (Z.eqb_spec (Z.land cpcByte 4) 0) as [He|_]; [contradiction|].
    cbn [negb andb].
    clear Hconfig. revert d1 msg.
    change (no_Error
      (andThen (send SiMessage.GET_CARDBLOCKS_CONFIGURATION) (fun _ =>
       andThen (pollAnswer SiMessage.GET_SYSTEM_VALUE) (fun blockMsg =>
       let mode := Z.land (Buf.int32 (SiMessage.byteAt blockMsg 6)) 0xff =? 0xff in
       andThen (act (fun d => set_si6_192PunchesMode d mode)) (fun _ =>
       andThen (act (fun d =>
                  log d INFO
                    (if mode then "SiCard6 192 Punches Mode Enabled"
                     else "SiCard6 192 Punches Mode Disabled"))) (fun _ =>
       andThen (send SiMessage.BEEP_TWICE) (fun _ =>
       act (fun d => emit d (EvStatus ON None))))))))).
    repeat (apply no_Error_andThen;
            [first [apply no_Error_send | apply no_Error_pollAnswer | apply no_Error_act]
            | intros ?]).
    apply no_Error_act.
Qed.

End StartupFacts.

(* ================================================================== *)
(** * The byte accumulator *)
(* ================================================================== *)

Module AccumulatorFacts.
Import SiDriver.

Lemma get_Some_range (buffer : Buf.Buffer) (i v : Z) :
  Buf.get buffer i = Some v ->
  0 <= v < 256 /\ 0 <= i < Buf.length buffer.
Proof.
  unfold Buf.get, Buf.length.
  destruct (Z.ltb_spec i 0) as [Hneg|Hpos]; [discriminate|].
  destruct (nth_error buffer (Z.to_nat i)) as [b|] eqn:Hnth; [|discriminate].
  simpl. intros H. injection H as <-.
  split; [apply BufFacts.byte_val_range|].
  assert (Hlt : (Z.to_nat i < List.length buffer)%nat)
    by (apply nth_error_Some; congruence).
  lia.
Qed.

Lemma get_app_firstn (chunk rest : Buf.Buffer) (k : nat) (i : Z) :
  0 <= i < Z.of_nat k -> (k <= List.length chunk)%nat ->
  Buf.get (firstn k chunk ++ rest) i = Buf.get chunk i.
Proof.
  intros Hi Hk. unfold Buf.get.
  destruct (Z.ltb_spec i 0) as [Hneg|_]; [lia|].
  rewrite nth_error_app1 by (rewrite length_firstn; lia).
  rewrite nth_error_firstn.
  destruct (Nat.ltb_spec (Z.to_nat i) k); [reflexivity | lia].
Qed.

Lemma get_app_l (frame1 frame2 : Buf.Buffer) (i : Z) :
  0 <= i < Buf.length frame1 ->
  Buf.get (frame1 ++ frame2) i = Buf.get frame1 i.
Proof.
  intros Hi. unfold Buf.get, Buf.length in *.
  destruct (Z.ltb_spec i 0) as [Hneg|_]; [lia|].
  rewrite nth_error_app1 by lia. reflexivity.
Qed.

(** Copying the head of a chunk to the start of the accumulator. *)
Lemma copy_to_start (chunk target : Buf.Buffer) (nb : Z) :
  0 <= nb <= Buf.length target -> nb <= Buf.length chunk ->
  Buf.copy_bytes chunk target 0 0 nb
  = firstn (Z.to_nat nb) chunk ++ skipn (Z.to_nat nb) target.
Proof.
  intros Hnb Hchunk. unfold Buf.copy_bytes.
  destruct (Z.leb_spec (Buf.length target) 0) as [Hempty|Hfull];
    destruct (Z.leb_spec nb 0) as [Hzero|Hpos]; cbn [orb].
  - replace (Z.to_nat nb) with O by lia. reflexivity.
  - lia.
  - replace (Z.to_nat nb) with O by lia. reflexivity.
  - rewrite !Z.sub_0_r, Z.add_0_l.
    rewrite (Z.min_l nb) by lia. rewrite Z.min_l by lia. reflexivity.
Qed.

Lemma subarray_prefix (head rest : Buf.Buffer) (size : Z) :
  size = Buf.length head ->
  Buf.subarray (head ++ rest) 0 size = head.
Proof.
  intros ->. unfold Buf.subarray, Buf.clamp_index, Buf.length.
  rewrite length_app.
  destruct (Z.ltb_spec 0 0) as [H|_]; [lia|].
  destruct (Z.ltb_spec (Z.of_nat (List.length head)) 0) as [H|_]; [lia|].
  rewrite Z.min_l by lia. rewrite Z.min_l by lia.
  rewrite Z.sub_0_r, Nat2Z.id. simpl.
  rewrite firstn_app, firstn_all, Nat.sub_diag. simpl. apply app_nil_r.
Qed.

(** On an empty accumulator, a chunk whose length byte announces no more
    than what has been received is dispatched whole, as one message. *)
Lemma handleSerialData_dispatches_chunk (d : SiDriver) (now : Z)
  (chunk : Buf.Buffer) (len : Z) :
  List.length (accBuffer d) = 139%nat -> accSize d = 0 ->
  Buf.get chunk 2 = Some len ->
  len + 6 <= Z.min (Buf.length chunk) 139 ->
  let msg := SiMessage.mkSiMessage (firstn 139 chunk) in
  let d' := handleSerialData d now chunk in
  messageQueue d' = fst (push (messageQueue d) msg) /\
  resolved d' = match snd (push (messageQueue d) msg) with
                | Some w => resolved d ++ [w]
                | None => resolved d
                end /\
  emitted d' = emitted d ++ [EvLog READ (SiMessage.toString msg)] /\
  accSize d' = 0.
Proof.
  intros Hacc Hsize Hlen Htotal msg d'.
  destruct (get_Some_range _ _ _ Hlen) as [Hbyte Hin].
  set (nb := Z.min (Buf.length chunk) 139) in *.
  assert (Hhead : firstn (Z.to_nat nb) chunk = firstn 139 chunk).
  { unfold nb, Buf.length.
    destruct (Z.le_ge_cases (Z.of_nat (List.length chunk)) 139) as [Hle|Hge].
    - rewrite Z.min_l by lia. rewrite Nat2Z.id.
      rewrite firstn_all, firstn_all2 by lia. reflexivity.
    - rewrite Z.min_r by lia. reflexivity. }
  assert (Hheadlen : Buf.length (firstn 139 chunk) = nb).
  { unfold Buf.length in *. rewrite length_firstn. lia. }
  subst d'. unfold handleSerialData.
  destruct d as [port0 q0 running0 zerohour0 mode0 acc0 size0 last0 emitted0
                   resolved0 written0 incoming0].
  cbn [accBuffer accSize messageQueue resolved emitted] in *. subst size0.
  assert (Hreset :
            (if now >? lastDataTime
                         (mkSiDriver port0 q0 running0 zerohour0 mode0 acc0 0 last0
                            emitted0 resolved0 written0 incoming0) + TIMEOUT_DELAY
             then set_accSize
                    (mkSiDriver port0 q0 running0 zerohour0 mode0 acc0 0 last0
                       emitted0 resolved0 written0 incoming0) 0
             else mkSiDriver port0 q0 running0 zerohour0 mode0 acc0 0 last0
                    emitted0 resolved0 written0 incoming0)
            = mkSiDriver port0 q0 running0 zerohour0 mode0 acc0 0 last0
                emitted0 resolved0 written0 incoming0).
  { destruct (_ >? _); reflexivity. }
  rewrite Hreset.
  cbn [set_lastDataTime set_acc set_accSize accBuffer accSize port messageQueue
       running zerohour si6_192PunchesMode lastDataTime emitted resolved written
       incoming].
  rewrite Z.sub_0_r, Z.add_0_l. fold nb.
  rewrite copy_to_start by (unfold nb, Buf.length; lia).
  assert (Hget : Buf.get (firstn (Z.to_nat nb) chunk ++ skipn (Z.to_nat nb) acc0) 2
                 = Some len).
  { rewrite get_app_firstn by (unfold nb, Buf.length in *; lia). exact Hlen. }
  rewrite Hget, Hhead. cbn [Buf.int32].
  replace (Z.land len 0xff) with len
    by (change 0xff with (Z.ones 8); rewrite Z.land_ones by lia;
        symmetry; apply Z.mod_small; change (2 ^ 8) with 256; lia).
  destruct (Z.eqb_spec nb 1) as [H1|_]; [lia|]. cbn [andb].
  destruct (Z.geb_spec nb 3) as [_|H3]; [|lia].
  destruct (Z.geb_spec nb (len + 6)) as [_|Ht]; [|lia].
  unfold dispatchMessage, log, emit.
  cbn [set_lastDataTime set_acc set_accSize accBuffer accSize port messageQueue
       running zerohour si6_192PunchesMode lastDataTime emitted resolved written
       incoming].
  rewrite subarray_prefix by (symmetry; exact Hheadlen).
  fold msg. destruct (push q0 msg) as [q r].
  cbn [set_messageQueue set_acc set_accSize accBuffer accSize port messageQueue
       running zerohour si6_192PunchesMode lastDataTime emitted resolved written
       incoming fst snd].
  repeat split.
Qed.

(** C4, as the code has it: on an empty accumulator, one chunk that holds
    two frames back to back is dispatched as a single message, made of the
    bytes of both frames (cut at the 139 bytes of the accumulator); it is
    logged once and pushed once. *)
Theorem handleSerialData_two_frames (d : SiDriver) (now : Z)
  (frame1 frame2 : Buf.Buffer) :
  List.length (accBuffer d) = 139%nat -> accSize d = 0 ->
  framed frame1 -> framed frame2 ->
  Buf.length frame1 <= SiMessage.MAX_MESSAGE_SIZE ->
  let msg := SiMessage.mkSiMessage (firstn 139 (frame1 ++ frame2)) in
  let d' := handleSerialData d now (frame1 ++ frame2) in
  messageQueue d' = fst (push (messageQueue d) msg) /\
  (waiters (messageQueue d) = [] ->
   queue (messageQueue d') = queue (messageQueue d) ++ [msg]) /\
  emitted d' = emitted d ++ [EvLog READ (SiMessage.toString msg)] /\
  accSize d' = 0.
Proof.
  intros Hacc Hsize [len1 [Hlen1 Htotal1]] [len2 [Hlen2 Htotal2]] Hmax msg d'.
  destruct (get_Some_range _ _ _ Hlen1) as [Hbyte1 Hin1].
  destruct (get_Some_range _ _ _ Hlen2) as [Hbyte2 Hin2].
  destruct (handleSerialData_dispatches_chunk d now (frame1 ++ frame2) len1
              Hacc Hsize) as (Hq & _ & He & Hs).
  - rewrite get_app_l by lia. exact Hlen1.
  - unfold Buf.length in *. rewrite length_app.
    unfold SiMessage.MAX_MESSAGE_SIZE in Hmax. lia.
  - fold msg in Hq, He. fold d' in Hq, He, Hs.
    split; [exact Hq|]. split; [|split; assumption].
    intros Hw. rewrite Hq. unfold push. rewrite Hw. reflexivity.
Qed.

End AccumulatorFacts.

(* ================================================================== *)
(** * The driver on concrete frames *)
(* ================================================================== *)

Module DriverExamples.
Import SiDriver StartupFacts AccumulatorFacts.

Lemma startup_answer_framed : framed (SiMessage.sequence Frames.startup_answer).
Proof. exists 3. split; reflexivity. Qed.

Lemma config_answer_framed : framed (SiMessage.sequence (Frames.config_answer 0x05)).
Proof. exists 4. split; reflexivity. Qed.

Lemma handleSerialData_two_frames_witness :
  let d := new_SiDriver reliable_port 0 [] in
  let frame1 := SiMessage.sequence Frames.startup_answer in
  let frame2 := SiMessage.sequence (Frames.config_answer 0x05) in
  let msg := SiMessage.mkSiMessage (firstn 139 (frame1 ++ frame2)) in
  let d' := handleSerialData d 1000 (frame1 ++ frame2) in
  (List.length (accBuffer d) = 139%nat /\ accSize d = 0 /\
   framed frame1 /\ framed frame2 /\
   Buf.length frame1 <= SiMessage.MAX_MESSAGE_SIZE) /\
  messageQueue d' = fst (push (messageQueue d) msg) /\
  (waiters (messageQueue d) = [] ->
   queue (messageQueue d') = queue (messageQueue d) ++ [msg]) /\
  emitted d' = emitted d ++ [EvLog READ (SiMessage.toString msg)] /\
  accSize d' = 0.
Proof.
  intros d frame1 frame2 msg d'.
  assert (H : List.length (accBuffer d) = 139%nat /\ accSize d = 0 /\
              framed frame1 /\ framed frame2 /\
              Buf.length frame1 <= SiMessage.MAX_MESSAGE_SIZE).
  { split; [reflexivity|]. split; [reflexivity|].
    split; [exists 3; split; reflexivity|].
    split; [exists 4; split; reflexivity|].
    vm_compute. discriminate. }
  split; [exact H|].
  destruct H as (H1 & H2 & H3 & H4 & H5).
  exact (handleSerialData_two_frames d 1000 frame1 frame2 H1 H2 H3 H4 H5).
Defined.

(** C4, as the claim states it, fails on the start-up answer followed by a
    configuration answer in one chunk: both frames are valid, and the queue
    then holds one message, the two frames glued together, not the two
    frames. *)
Lemma handleSerialData_glues_frames :
  let frame1 := Frames.startup_answer in
  let frame2 := Frames.config_answer 0x05 in
  let d' := handleSerialData (new_SiDriver reliable_port 0 []) 1000
              (SiMessage.sequence frame1 ++ SiMessage.sequence frame2) in
  SiMessage.valid frame1 = true /\ SiMessage.valid frame2 = true /\
  queue (messageQueue d')
  = [SiMessage.mkSiMessage (SiMessage.sequence frame1 ++ SiMessage.sequence frame2)] /\
  List.length (queue (messageQueue d')) = 1%nat /\
  queue (messageQueue d') <> [frame1; frame2].
Proof.
  cbv zeta. split; [vm_compute; reflexivity|]. split; [vm_compute; reflexivity|].
  split; [vm_compute; reflexivity|]. split; [vm_compute; reflexivity|].
  vm_compute. discriminate.
Qed.

(** The same two frames in two chunks are dispatched one by one. *)
Example handleSerialData_two_chunks :
  let d1 := handleSerialData (new_SiDriver reliable_port 0 []) 1000
              (SiMessage.sequence Frames.startup_answer) in
  let d2 := handleSerialData d1 1001
              (SiMessage.sequence (Frames.config_answer 0x05)) in
  queue (messageQueue d2) = [Frames.startup_answer; Frames.config_answer 0x05].
Proof. vm_compute. reflexivity. Qed.

(** A lone [ACK] is dispatched at once. *)
Example handleSerialData_ack :
  queue (messageQueue (handleSerialData (new_SiDriver reliable_port 0 []) 1000
                         (SiMessage.sequence SiMessage.ACK_SEQUENCE)))
  = [SiMessage.ACK_SEQUENCE].
Proof. vm_compute. reflexivity. Qed.

Lemma startup_configuration_check_witness :
  let d := new_SiDriver reliable_port 0
             [Some Frames.startup_answer; Some (Frames.config_answer 0x04)] in
  let configMsg := Frames.config_answer 0x04 in
  let d1 := snd (startup_until_config d) in
  let cpcByte := Buf.int32 (SiMessage.byteAt configMsg 6) in
  startup_until_config d = (Ok configMsg, d1) /\
  (Z.land cpcByte 0x01 = 0 ->
   startup d
   = (Throw (Error "Master station should be configured with extended protocol"),
      d1)) /\
  (Z.land cpcByte 0x01 <> 0 -> Z.land cpcByte 0x04 = 0 ->
   startup d
   = (Throw (Error "Master station should be configured in handshake mode (no autosend)"),
      d1)) /\
  (Z.land cpcByte 0x01 <> 0 -> Z.land cpcByte 0x04 <> 0 ->
   forall msg, fst (startup d) <> Throw (Error msg)).
Proof.
  intros d configMsg d1 cpcByte.
  assert (H : startup_until_config d = (Ok configMsg, d1))
    by (vm_compute; reflexivity).
  split; [exact H|].
  exact (startup_configuration_check d d1 configMsg H).
Defined.

(** The three configurations of the station: extended protocol off,
    handshake off, both on (the next answer then times out). *)
Example startup_configurations :
  let run cpc :=
    fst (startup (new_SiDriver reliable_port 0
                    [Some Frames.startup_answer; Some (Frames.config_answer cpc)])) in
  run 0x04 = Throw (Error "Master station should be configured with extended protocol") /\
  run 0x01
  = Throw (Error "Master station should be configured in handshake mode (no autosend)") /\
  run 0x00 = Throw (Error "Master station should be configured with extended protocol") /\
  run 0x05 = Throw (TimeoutError "Message timeout").
Proof. vm_compute. repeat split. Qed.

Example startup_succeeds :
  let d := new_SiDriver reliable_port 0
             [Some Frames.startup_answer; Some (Frames.config_answer 0x05);
              Some (Frames.build SiMessage.GET_SYSTEM_VALUE [0x00; 0x01; 0x33; 0xc1])] in
  fst (startup d) = Ok tt /\
  emitted (snd (startup d))
  = [EvLog SEND "FF 02 02 F0 01 4D 6D 0A 03";
     EvLog SEND "02 83 02 74 01 04 14 03";
     EvLog SEND "02 83 02 33 01 16 11 03";
     EvLog INFO "SiCard6 192 Punches Mode Disabled";
     EvLog SEND "02 F9 01 02 14 0A 03";
     EvStatus ON None].
Proof. vm_compute. split; reflexivity. Qed.

End DriverExamples.

(* ================================================================== *)
(** * The course validator: what every result tells *)
(* ================================================================== *)

Module ValidatorMore.
Import Validator ValidatorFacts InlineFacts.

Section Trace.

Variable expected : list Z.
Variable relevantPunches : list SiDataFrame.SiPunch.
Variable matrix : Matrix.
Variable totalCost : Z.

(** A property of the loop variables that each of the three moves of the
    trace keeps holds when the trace stops. *)
Variable P : Z -> Z -> list ControlResult -> Prop.

Hypothesis P_match :
  forall i j controlResults,
    0 <= i < Z.of_nat (List.length expected) ->
    0 <= j < Z.of_nat (List.length relevantPunches) ->
    P i j controlResults ->
    P (i + 1) (j + 1)
      (controlResults ++
         [mkControlResult (code_at expected i) true
            (SiDataFrame.timestampMs (punch_at relevantPunches j))]).

Hypothesis P_miss :
  forall i j controlResults,
    0 <= i < Z.of_nat (List.length expected) ->
    0 <= j < Z.of_nat (List.length relevantPunches) ->
    P i j controlResults ->
    P (i + 1) j (controlResults ++ [PM (code_at expected i)]).

Hypothesis P_skip :
  forall i j controlResults,
    0 <= i < Z.of_nat (List.length expected) ->
    0 <= j < Z.of_nat (List.length relevantPunches) ->
    P i j controlResults ->
    P i (j + 1) controlResults.

Lemma trace_loop_invariant (i j : Z) (controlResults : list ControlResult) :
  0 <= i <= Z.of_nat (List.length expected) ->
  0 <= j <= Z.of_nat (List.length relevantPunches) ->
  P i j controlResults ->
  exists j',
    j <= j' <= Z.of_nat (List.length relevantPunches) /\
    i <= fst (trace_loop expected relevantPunches matrix totalCost i j controlResults)
      <= Z.of_nat (List.length expected) /\
    P (fst (trace_loop expected relevantPunches matrix totalCost i j controlResults))
      j'
      (snd (trace_loop expected relevantPunches matrix totalCost i j controlResults)).
Proof.
  funelim (trace_loop expected relevantPunches matrix totalCost i j controlResults);
    intros Hi Hj HP.
  - destruct (matrix (i + 1) (j + 1) =? matrix i j).
    { match goal with
      | IH : _ -> _ -> P (i + 1) (j + 1) _ -> _ |- _ =>
          destruct IH as [j' [Hj' [Hi' HP']]];
            [lia | lia
            | apply P_match; [lia | lia | exact HP] |]
      end.
      exists j'. split; [lia|]. split; [lia | exact HP']. }
    destruct (negb (existsCodeFrom (code_at expected i) relevantPunches (j + 1))).
    { match goal with
      | IH : _ -> _ -> P (i + 1) j _ -> _ |- _ =>
          destruct IH as [j' [Hj' [Hi' HP']]];
            [lia | lia
            | apply P_miss; [lia | lia | exact HP] |]
      end.
      exists j'. split; [lia|]. split; [lia | exact HP']. }
    destruct (matrix i (j + 1) >? totalCost).
    { match goal with
      | IH : _ -> _ -> P (i + 1) (j - 1 + 1) _ -> _ |- _ =>
          destruct IH as [j' [Hj' [Hi' HP']]];
            [lia | lia
            | replace (j - 1 + 1) with j by lia;
              apply P_miss; [lia | lia | exact HP] |]
      end.
      exists j'. split; [lia|]. split; [lia | exact HP']. }
    match goal with
    | IH : _ -> _ -> P i (j + 1) _ -> _ |- _ =>
        destruct IH as [j' [Hj' [Hi' HP']]];
          [lia | lia
          | apply P_skip; [lia | lia | exact HP] |]
    end.
    exists j'. split; [lia|]. split; [lia | exact HP'].
  - exists j. simpl. split; [lia|]. split; [lia | exact HP].
  - exists j. simpl. split; [lia|]. split; [lia | exact HP].
Qed.

End Trace.

Lemma firstn_succ_nth {A : Type} (l : list A) (k : nat) (d : A) :
  (k < List.length l)%nat -> firstn (S k) l = firstn k l ++ [nth k l d].
Proof.
  revert k. induction l as [|x l IH]; intros k Hk; simpl in Hk; [lia|].
  destruct k as [|k]; [reflexivity|].
  simpl. f_equal. apply IH. lia.
Qed.

Lemma nth_after_skipn {A : Type} (l : list A) (i k : nat) (d : A) :
  nth k (skipn i l) d = nth (i + k) l d.
Proof.
  revert l. induction i as [|i IH]; intros l; [reflexivity|].
  destruct l as [|x l]; simpl; [destruct k; reflexivity | apply IH].
Qed.

(** The closing loop marks the expected controls from [i] on as missing. *)
Lemma remaining_missing (expected : list Z) (i : Z)
  (controlResults : list ControlResult) :
  0 <= i <= Z.of_nat (List.length expected) ->
  remaining expected i controlResults
  = controlResults ++ map PM (skipn (Z.to_nat i) expected).
Proof.
  intros Hi. unfold remaining.
  pose (Q := fun (k : Z) (s : list ControlResult) =>
               s = controlResults
                     ++ map PM (firstn (Z.to_nat k) (skipn (Z.to_nat i) expected))).
  assert (H : Q (Z.of_nat (List.length expected) - i)
                (fold_left
                   (fun controlResults0 k =>
                      controlResults0 ++ [PM (code_at expected (i + k))])
                   (indices (Z.of_nat (List.length expected) - i)) controlResults)).
  { apply for_loop_invariant; [lia | |].
    - unfold Q. simpl. rewrite app_nil_r. reflexivity.
    - intros k s Hk HQ. unfold Q in *. subst s.
      replace (Z.to_nat (k + 1)) with (S (Z.to_nat k)) by lia.
      rewrite (firstn_succ_nth _ _ 0) by (rewrite length_skipn; lia).
      rewrite map_app, app_assoc. simpl. repeat f_equal.
      unfold code_at. rewrite nth_after_skipn. f_equal. lia. }
  unfold Q in H. rewrite H. rewrite firstn_all2 by (rewrite length_skipn; lia).
  reflexivity.
Qed.

(** The control results of [validateInline]: what the trace pushed, then the
    rest of the course as missing. *)
Lemma validateInline_controlResults (course : Course)
  (punches : list SiDataFrame.SiPunch) :
  let expected := controls course in
  let relevantPunches := relevant expected punches in
  let matrix := build_matrix expected relevantPunches in
  let t := trace_loop expected relevantPunches matrix
             (matrix (Z.of_nat (List.length expected))
                     (Z.of_nat (List.length relevantPunches))) 0 0 [] in
  0 <= fst t <= Z.of_nat (List.length expected) ->
  controlResults (validateInline course punches)
  = snd t ++ map PM (skipn (Z.to_nat (fst t)) expected).
Proof.
  intros expected relevantPunches matrix t Ht. unfold validateInline.
  fold expected. fold relevantPunches. fold matrix. fold t.
  destruct t as [i cr] eqn:Et. cbn [controlResults fst snd] in *.
  apply remaining_missing. exact Ht.
Qed.

(** What the trace leaves, for a property that its three moves keep. *)
Lemma validateInline_by_invariant (course : Course)
  (punches : list SiDataFrame.SiPunch)
  (P : Z -> Z -> list ControlResult -> Prop) :
  let expected := controls course in
  let relevantPunches := relevant expected punches in
  (forall i j cr,
     0 <= i < Z.of_nat (List.length expected) ->
     0 <= j < Z.of_nat (List.length relevantPunches) ->
     P i j cr ->
     P (i + 1) (j + 1)
       (cr ++ [mkControlResult (code_at expected i) true
                 (SiDataFrame.timestampMs (punch_at relevantPunches j))])) ->
  (forall i j cr,
     0 <= i < Z.of_nat (List.length expected) ->
     0 <= j < Z.of_nat (List.length relevantPunches) ->
     P i j cr -> P (i + 1) j (cr ++ [PM (code_at expected i)])) ->
  (forall i j cr,
     0 <= i < Z.of_nat (List.length expected) ->
     0 <= j < Z.of_nat (List.length relevantPunches) ->
     P i j cr -> P i (j + 1) cr) ->
  P 0 0 [] ->
  exists i j cr,
    0 <= i <= Z.of_nat (List.length expected) /\
    0 <= j <= Z.of_nat (List.length relevantPunches) /\
    P i j cr /\
    controlResults (validateInline course punches)
    = cr ++ map PM (skipn (Z.to_nat i) expected).
Proof.
  intros expected relevantPunches Hmatch Hmiss Hskip H0.
  set (matrix := build_matrix expected relevantPunches).
  set (totalCost := matrix (Z.of_nat (List.length expected))
                           (Z.of_nat (List.length relevantPunches))).
  destruct (trace_loop_invariant expected relevantPunches matrix totalCost P
              Hmatch Hmiss Hskip 0 0 [] ltac:(lia) ltac:(lia) H0)
    as [j' [Hj' [Hi' HP']]].
  exists (fst (trace_loop expected relevantPunches matrix totalCost 0 0 [])), j',
    (snd (trace_loop expected relevantPunches matrix totalCost 0 0 [])).
  split; [lia|]. split; [lia|]. split; [exact HP'|].
  apply validateInline_controlResults.
  subst totalCost matrix relevantPunches expected. lia.
Qed.

Lemma map_expectedCode_PM (l : list Z) : map expectedCode (map PM l) = l.
Proof. rewrite map_map. simpl. apply map_id. Qed.

Lemma validateInline_expected_codes (course : Course)
  (punches : list SiDataFrame.SiPunch) :
  map expectedCode (controlResults (validateInline course punches))
  = controls course.
Proof.
  destruct (validateInline_by_invariant course punches
              (fun i _ cr =>
                 map expectedCode cr = firstn (Z.to_nat i) (controls course)))
    as (i & j & cr & Hi & Hj & HP & Heq).
  - intros i j cr Hi Hj HP.
    replace (Z.to_nat (i + 1)) with (S (Z.to_nat i)) by lia.
    rewrite (firstn_succ_nth _ _ 0) by lia.
    rewrite map_app, HP. reflexivity.
  - intros i j cr Hi Hj HP.
    replace (Z.to_nat (i + 1)) with (S (Z.to_nat i)) by lia.
    rewrite (firstn_succ_nth _ _ 0) by lia.
    rewrite map_app, HP. reflexivity.
  - intros i j cr Hi Hj HP. exact HP.
  - reflexivity.
  - rewrite Heq, map_app, HP, map_expectedCode_PM. apply firstn_skipn.
Qed.

Lemma score_map_expected_codes (expected : list Z)
  (punches : list SiDataFrame.SiPunch) :
  forall used, map expectedCode (score_map expected punches used) = expected.
Proof.
  induction expected as [|e expected IH]; intros used; simpl; [reflexivity|].
  destruct (score_scan e punches used) as [[t used']|]; simpl; rewrite IH;
    reflexivity.
Qed.

(** X1: the control results of both validators list the controls of the
    course, in course order: the i-th result is about the i-th control. *)
Theorem results_follow_the_course (course : Course)
  (punches : list SiDataFrame.SiPunch) :
  map expectedCode (controlResults (validateInline course punches))
  = controls course /\
  map expectedCode (controlResults (validateScoreO course punches))
  = controls course.
Proof.
  split; [apply validateInline_expected_codes|].
  unfold validateScoreO. cbn [controlResults]. apply score_map_expected_codes.
Qed.

Lemma stamped_by_PM (ok : ControlResult -> SiDataFrame.SiPunch -> Prop) (l : list Z) :
  Forall (stamped_by ok) (map PM l).
Proof.
  apply Forall_forall. intros r Hr. apply in_map_iff in Hr.
  destruct Hr as [c [<- _]]. left. split; reflexivity.
Qed.

Lemma validateInline_stamped (course : Course)
  (punches : list SiDataFrame.SiPunch) :
  Forall
    (stamped_by (fun _ p =>
                   In p punches /\
                   includes (controls course) (SiDataFrame.code p) = true))
    (controlResults (validateInline course punches)).
Proof.
  set (ok := fun (_ : ControlResult) p =>
               In p punches /\
               includes (controls course) (SiDataFrame.code p) = true).
  destruct (validateInline_by_invariant course punches
              (fun _ _ cr => Forall (stamped_by ok) cr))
    as (i & j & cr & Hi & Hj & HP & Heq).
  - intros i j cr Hi Hj HP. apply Forall_app. split; [exact HP|].
    constructor; [|constructor]. right. split; [reflexivity|].
    exists (punch_at (relevant (controls course) punches) j).
    split; [|reflexivity].
    assert (Hin : In (punch_at (relevant (controls course) punches) j)
                     (relevant (controls course) punches))
      by (unfold punch_at; apply nth_In; lia).
    remember (punch_at (relevant (controls course) punches) j) as q.
    rewrite relevant_filter in Hin. apply filter_In in Hin. exact Hin.
  - intros i j cr Hi Hj HP. apply Forall_app. split; [exact HP|].
    constructor; [|constructor]. left. split; reflexivity.
  - intros i j cr Hi Hj HP. exact HP.
  - constructor.
  - rewrite Heq. apply Forall_app. split; [exact HP | apply stamped_by_PM].
Qed.

Lemma score_scan_Some (e : Z) (punches : list SiDataFrame.SiPunch) :
  forall used t used',
    score_scan e punches used = Some (t, used') ->
    exists p, In p punches /\ SiDataFrame.code p = e /\
              SiDataFrame.timestampMs p = t.
Proof.
  induction punches as [|p punches IH]; intros used t used' H; simpl in H;
    [discriminate|].
  destruct used as [|u used]; [discriminate|].
  destruct (negb u && (SiDataFrame.code p =? e)) eqn:Hhit.
  - injection H as <- <-. apply andb_prop in Hhit. destruct Hhit as [_ Hc].
    apply Z.eqb_eq in Hc. exists p. split; [left; reflexivity | split; auto].
  - destruct (score_scan e punches used) as [[t0 used0]|] eqn:Hscan;
      [|discriminate].
    injection H as <- <-.
    destruct (IH _ _ _ Hscan) as [q [Hin Hq]].
    exists q. split; [right; exact Hin | exact Hq].
Qed.

Lemma score_map_stamped (expected : list Z) (punches : list SiDataFrame.SiPunch) :
  forall used,
    Forall
      (stamped_by (fun r p => In p punches /\ SiDataFrame.code p = expectedCode r))
      (score_map expected punches used).
Proof.
  induction expected as [|e expected IH]; intros used; simpl; [constructor|].
  destruct (score_scan e punches used) as [[t used']|] eqn:Hscan.
  - constructor; [|apply IH]. right. split; [reflexivity|].
    destruct (score_scan_Some _ _ _ _ _ Hscan) as [p [Hin [Hc Ht]]].
    exists p. simpl. repeat split; auto.
  - constructor; [|apply IH]. left. split; reflexivity.
Qed.

(** X2: in the result of either validator a control that is not found has
    the time stamp [NO_TIME], and a control that is found carries the time
    stamp of one of the punches: for a score course a punch of that very
    control, for an inline course a punch of some control of the course. *)
Theorem found_controls_carry_punch_times (course : Course)
  (punches : list SiDataFrame.SiPunch) :
  Forall
    (stamped_by (fun _ p =>
                   In p punches /\
                   includes (controls course) (SiDataFrame.code p) = true))
    (controlResults (validateInline course punches)) /\
  Forall
    (stamped_by (fun r p => In p punches /\ SiDataFrame.code p = expectedCode r))
    (controlResults (validateScoreO course punches)).
Proof.
  split; [apply validateInline_stamped|].
  unfold validateScoreO. cbn [controlResults]. apply score_map_stamped.
Qed.

(** An inline match may take the time of a punch of another control: on the
    course 2, 1, 1 with the punches 1, 1, 1, 2 the last control 1 is found
    with the time of the punch of control 2. *)
Example validateInline_foreign_punch :
  let course := mkCourse "Loop" [2; 1; 1] true true None in
  let punches := [SiDataFrame.mkSiPunch 1 1000; SiDataFrame.mkSiPunch 1 2000;
                  SiDataFrame.mkSiPunch 1 3000; SiDataFrame.mkSiPunch 2 4000] in
  map (fun r => (expectedCode r, found r, timestampMs r))
      (controlResults (validateInline course punches))
  = [(2, false, SiDataFrame.NO_TIME); (1, true, 3000); (1, true, 4000)].
Proof. vm_compute. reflexivity. Qed.

Lemma count_found_app (l l' : list ControlResult) :
  count_found (l ++ l') = (count_found l + count_found l')%nat.
Proof. unfold count_found. rewrite filter_app, length_app. reflexivity. Qed.

Lemma count_found_PM (l : list Z) : count_found (map PM l) = O.
Proof.
  unfold count_found. induction l as [|c l IH]; [reflexivity | exact IH].
Qed.

Lemma count_missing_found (l : list ControlResult) :
  count_missing l = Z.of_nat (List.length l) - Z.of_nat (count_found l).
Proof.
  unfold count_missing, count_found.
  induction l as [|r l IH]; [reflexivity|].
  cbn [filter]. destruct (found r); cbn [negb List.length];
    rewrite ?Nat2Z.inj_succ; lia.
Qed.

Lemma validateInline_count_found (course : Course)
  (punches : list SiDataFrame.SiPunch) :
  (count_found (controlResults (validateInline course punches))
   <= List.length (relevant (controls course) punches))%nat.
Proof.
  destruct (validateInline_by_invariant course punches
              (fun _ j cr => Z.of_nat (count_found cr) <= j))
    as (i & j & cr & Hi & Hj & HP & Heq).
  - intros i j cr Hi Hj HP. rewrite count_found_app.
    unfold count_found at 2. simpl. lia.
  - intros i j cr Hi Hj HP. rewrite count_found_app.
    unfold count_found at 2. simpl. lia.
  - intros i j cr Hi Hj HP. lia.
  - simpl. lia.
  - rewrite Heq, count_found_app, count_found_PM. lia.
Qed.

(** X3: an inline validation finds at most as many controls as there are
    punches of controls of the course, so it cannot be all correct when these
    punches are fewer than the controls. *)
Theorem validateInline_needs_enough_punches (course : Course)
  (punches : list SiDataFrame.SiPunch) :
  let onCourse :=
    filter (fun p => includes (controls course) (SiDataFrame.code p)) punches in
  (count_found (controlResults (validateInline course punches))
   <= List.length onCourse)%nat /\
  ((List.length onCourse < List.length (controls course))%nat ->
   allCorrect (validateInline course punches) = false).
Proof.
  intros onCourse.
  pose proof (validateInline_count_found course punches) as Hfound.
  rewrite relevant_filter in Hfound. fold onCourse in Hfound.
  split; [exact Hfound|]. intros Hfew.
  destruct (validateInline_well_shaped course punches)
    as (Hlen & _ & Hall & _).
  destruct (allCorrect (validateInline course punches)) eqn:Hc; [|reflexivity].
  exfalso.
  assert (Hmiss : missingCount (validateInline course punches) = 0)
    by (apply Hall; reflexivity).
  assert (Hmiss' : missingCount (validateInline course punches)
                   = count_missing (controlResults (validateInline course punches))).
  { unfold validateInline.
    destruct (trace_loop _ _ _ _ 0 0 []) as [i cr]. reflexivity. }
  rewrite Hmiss', count_missing_found in Hmiss. lia.
Qed.

Lemma trace_loop_no_punch (expected : list Z) (matrix : Matrix) (totalCost : Z) :
  trace_loop expected [] matrix totalCost 0 0 [] = (0, []).
Proof.
  rewrite trace_loop_step. simpl.
  destruct (0 <? Z.of_nat (List.length expected)); reflexivity.
Qed.

(** X4: when no punch belongs to a control of the course (in particular when
    there is no punch at all), an inline validation reports every control as
    missing, with [NO_TIME], and every punch as extra; so [missingCount] is
    the length of the course. *)
Theorem validateInline_nothing_relevant (course : Course)
  (punches : list SiDataFrame.SiPunch) :
  (forall p, In p punches ->
             includes (controls course) (SiDataFrame.code p) = false) ->
  controlResults (validateInline course punches) = map PM (controls course) /\
  missingCount (validateInline course punches)
  = Z.of_nat (List.length (controls course)) /\
  extraControls (validateInline course punches) = map SiDataFrame.code punches.
Proof.
  intros Hnone.
  assert (Hrel : relevant (controls course) punches = []).
  { rewrite relevant_filter. apply filter_none. exact Hnone. }
  assert (Hres : controlResults (validateInline course punches)
                 = map PM (controls course)).
  { unfold validateInline. rewrite Hrel, trace_loop_no_punch.
    cbn [controlResults]. rewrite remaining_missing by lia. reflexivity. }
  destruct (validateInline_well_shaped course punches)
    as (_ & Hmiss & _ & Hextra).
  split; [exact Hres|]. split.
  - rewrite Hmiss, Hres. f_equal.
    rewrite filter_all by (intros r Hr; apply in_map_iff in Hr;
                           destruct Hr as [c [<- _]]; reflexivity).
    apply length_map.
  - rewrite Hextra. f_equal. apply filter_all.
    intros p Hp. rewrite (Hnone p Hp). reflexivity.
Qed.

Lemma validateInline_nothing_relevant_witness :
  let course := mkCourse "Test Course" [31; 32; 33] true true None in
  let punches := [SiDataFrame.mkSiPunch 99 1000; SiDataFrame.mkSiPunch 98 2000] in
  (forall p, In p punches ->
             includes (controls course) (SiDataFrame.code p) = false) /\
  controlResults (validateInline course punches) = map PM (controls course) /\
  missingCount (validateInline course punches)
  = Z.of_nat (List.length (controls course)) /\
  extraControls (validateInline course punches) = map SiDataFrame.code punches.
Proof.
  intros course punches.
  assert (H : forall p, In p punches ->
                        includes (controls course) (SiDataFrame.code p) = false).
  { intros p [<-|[<-|[]]]; reflexivity. }
  split; [exact H | exact (validateInline_nothing_relevant course punches H)].
Defined.

Lemma score_scan_None (e : Z) (punches : list SiDataFrame.SiPunch) :
  forall used,
    List.length used = List.length punches ->
    score_scan e punches used = None ->
    unused_with_code e punches used = O.
Proof.
  induction punches as [|p punches IH]; intros used Hlen H; [reflexivity|].
  destruct used as [|u used]; [reflexivity|]. simpl in *.
  destruct (negb u && (SiDataFrame.code p =? e)); [discriminate|].
  destruct (score_scan e punches used) as [[t used']|] eqn:Hscan;
    [discriminate|].
  rewrite (IH used) by (auto; lia). reflexivity.
Qed.

(** A successful scan uses up one unused punch of the code and no other. *)
Lemma score_scan_uses_one (e : Z) (punches : list SiDataFrame.SiPunch) :
  forall used t used',
    score_scan e punches used = Some (t, used') ->
    List.length used' = List.length used /\
    S (unused_with_code e punches used') = unused_with_code e punches used /\
    forall c, c <> e ->
              unused_with_code c punches used' = unused_with_code c punches used.
Proof.
  induction punches as [|p punches IH]; intros used t used' H; simpl in H;
    [discriminate|].
  destruct used as [|u used]; [discriminate|].
  destruct (negb u && (SiDataFrame.code p =? e)) eqn:Hhit.
  - injection H as <- <-. apply andb_prop in Hhit. destruct Hhit as [Hu Hc].
    apply Z.eqb_eq in Hc. split; [reflexivity|]. cbn [unused_with_code].
    rewrite Hu. cbn [negb andb]. rewrite Hc, Z.eqb_refl. split; [reflexivity|].
    intros c Hne. destruct (Z.eqb_spec e c); [congruence|].
    cbn [negb andb]. reflexivity.
  - destruct (score_scan e punches used) as [[t0 used0]|] eqn:Hscan;
      [|discriminate].
    injection H as <- <-.
    destruct (IH _ _ _ Hscan) as [Hlen [Hone Hother]].
    split; [simpl; congruence|]. cbn [unused_with_code]. rewrite Hhit.
    split; [simpl; exact Hone|].
    intros c Hne. rewrite (Hother c Hne). reflexivity.
Qed.

Lemma score_map_all_found (expected : list Z)
  (punches : list SiDataFrame.SiPunch) :
  forall used,
    List.length used = List.length punches ->
    (count_found (score_map expected punches used) = List.length expected <->
     forall c, (count_occ Z.eq_dec expected c
                <= unused_with_code c punches used)%nat).
Proof.
  induction expected as [|e expected IH]; intros used Hlen.
  - simpl. split; [intros _ c; lia | reflexivity].
  - cbn [score_map].
    destruct (score_scan e punches used) as [[t used']|] eqn:Hscan.
    + destruct (score_scan_uses_one _ _ _ _ _ Hscan) as [Hlen' [Hone Hother]].
      specialize (IH used' ltac:(congruence)).
      unfold count_found in *. cbn [filter found List.length].
      split.
      * intros Hall c. injection Hall as Hall. apply IH with (c := c) in Hall.
        cbn [count_occ]. destruct (Z.eq_dec e c) as [->|Hne].
        -- lia.
        -- rewrite <- (Hother c) by congruence. exact Hall.
      * intros Hcount. f_equal. apply IH. intros c.
        specialize (Hcount c). cbn [count_occ] in Hcount.
        destruct (Z.eq_dec e c) as [->|Hne].
        -- lia.
        -- rewrite (Hother c) by congruence. exact Hcount.
    + pose proof (score_scan_None _ _ _ Hlen Hscan) as Hzero.
      unfold count_found in *. cbn [filter found PM List.length].
      split.
      * intros Hall. exfalso.
        pose proof (filter_length_le found (score_map expected punches used)) as Hle.
        rewrite Hall in Hle.
        pose proof (score_map_length expected punches used). simpl in Hle. lia.
      * intros Hcount. exfalso. specialize (Hcount e).
        cbn [count_occ] in Hcount.
        destruct (Z.eq_dec e e) as [_|Hne]; [lia | congruence].
Qed.

Lemma unused_with_code_fresh (c : Z) (punches : list SiDataFrame.SiPunch) :
  unused_with_code c punches (repeat false (List.length punches))
  = count_occ Z.eq_dec (map SiDataFrame.code punches) c.
Proof.
  induction punches as [|p punches IH]; [reflexivity|].
  cbn [List.length repeat unused_with_code map count_occ negb andb].
  rewrite IH.
  destruct (Z.eq_dec (SiDataFrame.code p) c) as [->|Hne].
  - rewrite Z.eqb_refl. reflexivity.
  - destruct (Z.eqb_spec (SiDataFrame.code p) c); [congruence | reflexivity].
Qed.

(** X5: a score validation is all correct exactly when every control code
    is punched at least as often as the course lists it (each punch serves
    one control only; the order of the punches does not matter). *)
Theorem validateScoreO_all_correct_iff (course : Course)
  (punches : list SiDataFrame.SiPunch) :
  allCorrect (validateScoreO course punches) = true <->
  forall c, (count_occ Z.eq_dec (controls course) c
             <= count_occ Z.eq_dec (map SiDataFrame.code punches) c)%nat.
Proof.
  unfold validateScoreO. cbn [allCorrect].
  rewrite Z.eqb_eq, count_missing_found, score_map_length.
  pose proof (score_map_all_found (controls course) punches
                (repeat false (List.length punches))
                (repeat_length false (List.length punches))) as Hiff.
  pose proof (filter_length_le found
                (score_map (controls course) punches
                   (repeat false (List.length punches)))) as Hle.
  rewrite score_map_length in Hle. fold (count_found
    (score_map (controls course) punches (repeat false (List.length punches))))
    in Hle.
  split.
  - intros Hzero c. rewrite <- unused_with_code_fresh. apply Hiff. lia.
  - intros Hcount.
    assert (Hall : count_found
                     (score_map (controls course) punches
                        (repeat false (List.length punches)))
                   = List.length (controls course)).
    { apply Hiff. intros c. rewrite unused_with_code_fresh. apply Hcount. }
    lia.
Qed.

(** The best result so far after the loop of [autoDetectCourse] went through
    [courses], starting from [bestResult]. *)
Lemma autoDetect_loop (punches : list SiDataFrame.SiPunch) (courses : list Course) :
  forall best,
    exists r,
      fold_left
        (fun bestResult course =>
           let result := validate course punches in
           if replaces bestResult result then Some result else bestResult)
        courses (Some best) = Some r /\
      (r = best \/ exists c, In c courses /\ r = validate c punches) /\
      at_least_as_good r best /\
      forall c, In c courses -> at_least_as_good r (validate c punches).
Proof.
  assert (Hrefl : forall r, at_least_as_good r r)
    by (intros r; right; split; [reflexivity | lia]).
  assert (Htrans : forall a b c, at_least_as_good a b -> at_least_as_good b c ->
                                 at_least_as_good a c).
  { intros a b c [Hab|[Hab Hab']] [Hbc|[Hbc Hbc']]; unfold at_least_as_good;
      try (left; lia). right. split; lia. }
  induction courses as [|course courses IH]; intros best.
  - exists best. simpl. split; [reflexivity|]. split; [left; reflexivity|].
    split; [apply Hrefl | intros c []].
  - cbn [fold_left]. cbv zeta.
    destruct (replaces (Some best) (validate course punches)) eqn:Hrep.
    + destruct (IH (validate course punches)) as (r & Hfold & Hfrom & Hbest & Hall).
      exists r. split; [exact Hfold|].
      assert (Hnew : at_least_as_good (validate course punches) best).
      { unfold replaces in Hrep. apply orb_prop in Hrep.
        destruct Hrep as [Hlt|Heq].
        - left. apply Z.ltb_lt. exact Hlt.
        - apply andb_prop in Heq. destruct Heq as [Heq Hgt].
          apply Z.eqb_eq in Heq. apply Z.gtb_lt in Hgt.
          right. split; [exact Heq | lia]. }
      split.
      { right. destruct Hfrom as [->|[c [Hin ->]]].
        - exists course. split; [left; reflexivity | reflexivity].
        - exists c. split; [right; exact Hin | reflexivity]. }
      split; [eapply Htrans; eauto|].
      intros c [<-|Hin]; [exact Hbest | apply Hall, Hin].
    + destruct (IH best) as (r & Hfold & Hfrom & Hbest & Hall).
      exists r. split; [exact Hfold|].
      assert (Hold : at_least_as_good best (validate course punches)).
      { unfold replaces in Hrep. apply orb_false_elim in Hrep.
        destruct Hrep as [Hlt Heq]. apply Z.ltb_ge in Hlt.
        apply andb_false_elim in Heq.
        destruct (Z.eq_dec (missingCount (validate course punches))
                           (missingCount best)) as [He|Hne].
        - right. split; [symmetry; exact He|].
          destruct Heq as [Heq|Hgt]; [apply Z.eqb_neq in Heq; contradiction|].
          rewrite Z.gtb_ltb in Hgt. apply Z.ltb_ge in Hgt. lia.
        - left. lia. }
      split.
      { destruct Hfrom as [->|[c [Hin ->]]]; [left; reflexivity|].
        right. exists c. split; [right; exact Hin | reflexivity]. }
      split; [exact Hbest|].
      intros c [<-|Hin]; [eapply Htrans; eauto | apply Hall, Hin].
Qed.

Lemma validate_course (course : Course) (punches : list SiDataFrame.SiPunch) :
  Validator.course (validate course punches) = course.
Proof.
  unfold validate, validateInline, validateScoreO.
  destruct (isInline course); [|reflexivity].
  destruct (trace_loop _ _ _ _ 0 0 []). reflexivity.
Qed.

(** X6: [autoDetectCourse] throws "No courses defined" on an empty course
    list; otherwise it returns the validation of one of the courses, and no
    other course does better: none has fewer missing controls, and none with
    as many missing controls is longer. *)
Theorem autoDetectCourse_picks_best (courses : list Course)
  (punches : list SiDataFrame.SiPunch) :
  (courses = [] ->
   autoDetectCourse courses punches = Thrown "No courses defined") /\
  (courses <> [] ->
   exists c,
     In c courses /\
     autoDetectCourse courses punches = Detected (validate c punches) /\
     forall c', In c' courses ->
       missingCount (validate c punches) < missingCount (validate c' punches) \/
       (missingCount (validate c punches) = missingCount (validate c' punches) /\
        (List.length (controls c') <= List.length (controls c))%nat)).
Proof.
  split; [intros ->; reflexivity|].
  intros Hne. destruct courses as [|first rest]; [congruence|].
  unfold autoDetectCourse.
  replace (Z.of_nat (List.length (first :: rest)) =? 0) with false
    by (symmetry; apply Z.eqb_neq; simpl; lia).
  match goal with
  | |- context [fold_left ?f (first :: rest) None] =>
      change (fold_left f (first :: rest) None)
        with (fold_left f rest (Some (validate first punches)))
  end.
  destruct (autoDetect_loop punches rest (validate first punches))
    as (r & Hfold & Hfrom & Hbest & Hall).
  cbv zeta in Hfold. rewrite Hfold.
  assert (Hc : exists c, In c (first :: rest) /\ r = validate c punches).
  { destruct Hfrom as [->|[c [Hin ->]]].
    - exists first. split; [left; reflexivity | reflexivity].
    - exists c. split; [right; exact Hin | reflexivity]. }
  destruct Hc as [c [Hin ->]]. exists c. split; [exact Hin|].
  split; [reflexivity|].
  intros c' [<-|Hin'].
  - unfold at_least_as_good in Hbest. rewrite !validate_course in Hbest.
    exact Hbest.
  - specialize (Hall c' Hin'). unfold at_least_as_good in Hall.
    rewrite !validate_course in Hall. exact Hall.
Qed.

Example autoDetectCourse_example :
  let courseA := mkCourse "Course A" [31; 32; 33] true true None in
  let courseB := mkCourse "Course B" [31; 34; 35] true true None in
  let punches := [SiDataFrame.mkSiPunch 31 1000; SiDataFrame.mkSiPunch 34 2000;
                  SiDataFrame.mkSiPunch 35 3000] in
  autoDetectCourse [courseA; courseB] punches = Detected (validate courseB punches) /\
  allCorrect (validate courseB punches) = true.
Proof. vm_compute. split; reflexivity. Qed.

End ValidatorMore.

(* ================================================================== *)
(** * The card decoders: values read from the card memory *)
(* ================================================================== *)

Module DataFrameMore.
Import SiDataFrame Fuel FuelFacts AdvanceFacts Si5Facts Si6Facts.

Lemma byteAt_range (data : Buf.Buffer) (i : Z) : 0 <= byteAt data i < 256.
Proof.
  unfold byteAt. change 0xff with (Z.ones 8). rewrite Z.land_ones by lia.
  apply Z.mod_pos_bound. reflexivity.
Qed.

Lemma lor_shiftl_add (hi lo k : Z) :
  0 <= k -> 0 <= lo < 2 ^ k -> 0 <= hi ->
  Z.lor (Z.shiftl hi k) lo = hi * 2 ^ k + lo.
Proof.
  intros Hk Hlo Hhi.
  assert (Hdisjoint : Z.land (Z.shiftl hi k) lo = 0).
  { apply Z.bits_inj'. intros n Hn. rewrite Z.land_spec, Z.bits_0.
    destruct (Z.lt_ge_cases n k) as [Hlt|Hge].
    - rewrite Z.shiftl_spec_low by exact Hlt. reflexivity.
    - destruct (Z.eq_dec lo 0) as [->|Hne];
        [rewrite Z.bits_0; apply andb_false_r|].
      assert (Hlog : Z.log2 lo < n).
      { apply Z.lt_le_trans with k; [|exact Hge]. apply Z.log2_lt_pow2; lia. }
      rewrite (Z.bits_above_log2 lo n) by lia. apply andb_false_r. }
  rewrite <- Z.lxor_lor by exact Hdisjoint.
  rewrite <- Z.add_nocarry_lxor by exact Hdisjoint.
  rewrite Z.shiftl_mul_pow2 by exact Hk. reflexivity.
Qed.

Lemma wordAt_value (data : Buf.Buffer) (i : Z) :
  wordAt data i = byteAt data i * 256 + byteAt data (i + 1).
Proof.
  unfold wordAt.
  pose proof (byteAt_range data i). pose proof (byteAt_range data (i + 1)).
  rewrite lor_shiftl_add; [reflexivity | lia | change (2 ^ 8) with 256; lia | lia].
Qed.

Lemma wordAt_range (data : Buf.Buffer) (i : Z) : 0 <= wordAt data i < 65536.
Proof.
  rewrite wordAt_value.
  pose proof (byteAt_range data i). pose proof (byteAt_range data (i + 1)). lia.
Qed.

















End DataFrameMore.

(* ================================================================== *)
(** * The Card-6+ decoder *)
(* ================================================================== *)

Module Si6More.
Import SiDataFrame Fuel FuelFacts AdvanceFacts Si5Facts Si6Facts DataFrameMore.




Lemma pmFlag_range (data : Buf.Buffer) (pageStart : Z) :
  Z.land (byteAt data pageStart) 1 = 0 \/ Z.land (byteAt data pageStart) 1 = 1.
Proof.
  pose proof (Z.land_ones (byteAt data pageStart) 1 ltac:(lia)) as Hland.
  change (Z.ones 1) with 1 in Hland. change (2 ^ 1) with 2 in Hland.
  pose proof (Z.mod_pos_bound (byteAt data pageStart) 2 ltac:(lia)).
  lia.
Qed.


(** X11: [extractFullTime] takes a page for "no time written" in two
    cases: when its seconds word is [0xEEEE], and when it is the afternoon
    time 17966 s (4:59:26 pm), whose value with the 12 hours added is the
    number that marks "no time".  Every other page gives the seconds, plus
    12 hours when the afternoon flag is set. *)
Theorem extractFullTime_no_time_iff (data : Buf.Buffer) (pageStart : Z) :
  (extractFullTime data pageStart = NO_SI_TIME <->
   wordAt data (pageStart + 2) = 0xeeee \/
   (Z.land (byteAt data pageStart) 1 = 1 /\ wordAt data (pageStart + 2) = 17966)) /\
  (extractFullTime data pageStart <> NO_SI_TIME ->
   extractFullTime data pageStart
   = Z.land (byteAt data pageStart) 1 * TWELVE_HOURS
     + 1000 * wordAt data (pageStart + 2)).
Proof.
  unfold extractFullTime, timestampAt, NO_SI_TIME, TWELVE_HOURS.
  pose proof (wordAt_range data (pageStart + 2)) as Hw.
  destruct (Z.eqb_spec (1000 * wordAt data (pageStart + 2)) (1000 * 0xeeee))
    as [He|Hne].
  - split; [|intros H; congruence].
    split; [intros _; left; lia | reflexivity].
  - split; [|reflexivity].
    destruct (pmFlag_range data pageStart) as [-> | ->]; split; intros H; lia.
Qed.

Lemma copy_bytes_length (source target : Buf.Buffer)
  (targetStart sourceStart sourceEnd : Z) :
  0 <= targetStart -> 0 <= sourceStart <= Buf.length source ->
  List.length (Buf.copy_bytes source target targetStart sourceStart sourceEnd)
  = List.length target.
Proof.
  intros Ht Hs. unfold Buf.copy_bytes, Buf.length in *.
  destruct (Z.leb_spec (Z.of_nat (List.length target)) targetStart) as [Hpast|Hin];
    [reflexivity|].
  destruct (Z.leb_spec sourceEnd sourceStart) as [Hempty|Hrange]; [reflexivity|].
  cbn [orb]. rewrite !length_app, !length_firstn, !length_skipn. lia.
Qed.

(** The bytes of the target after a copy: the copied range comes from the
    source, the rest is as before. *)
Lemma copy_bytes_get (source target : Buf.Buffer)
  (targetStart sourceStart sourceEnd i : Z) :
  0 <= targetStart < Buf.length target ->
  0 <= sourceStart <= Buf.length source -> sourceStart < sourceEnd ->
  let nb := Z.min (Z.min (sourceEnd - sourceStart) (Buf.length target - targetStart))
                  (Buf.length source - sourceStart) in
  Buf.get (Buf.copy_bytes source target targetStart sourceStart sourceEnd) i
  = if (targetStart <=? i) && (i <? targetStart + nb)
    then Buf.get source (sourceStart + (i - targetStart))
    else Buf.get target i.
Proof.
  intros Ht Hs Hrange nb. unfold Buf.copy_bytes.
  destruct (Z.leb_spec (Buf.length target) targetStart) as [Hpast|_]; [lia|].
  destruct (Z.leb_spec sourceEnd sourceStart) as [Hempty|_]; [lia|].
  cbn [orb]. fold nb. unfold Buf.get, Buf.length in *.
  destruct (Z.ltb_spec i 0) as [Hneg|Hpos].
  { destruct (Z.leb_spec targetStart i); [lia | reflexivity]. }
  destruct (Z.leb_spec targetStart i) as [Hge|Hlt]; cbn [andb].
  - destruct (Z.ltb_spec i (targetStart + nb)) as [Hin|Hout].
    + destruct (Z.ltb_spec (sourceStart + (i - targetStart)) 0); [lia|].
      rewrite nth_error_app2 by (rewrite length_firstn; lia).
      rewrite length_firstn.
      rewrite nth_error_app1 by (rewrite length_firstn, length_skipn; lia).
      rewrite nth_error_firstn, nth_error_skipn.
      replace (Nat.min (Z.to_nat targetStart) (List.length target))
        with (Z.to_nat targetStart) by lia.
      destruct (Nat.ltb_spec (Z.to_nat i - Z.to_nat targetStart) (Z.to_nat nb));
        [|lia].
      do 2 f_equal. lia.
    + rewrite nth_error_app2 by (rewrite length_firstn; lia).
      rewrite length_firstn.
      rewrite nth_error_app2 by (rewrite length_firstn, length_skipn; lia).
      rewrite length_firstn, length_skipn, nth_error_skipn.
      do 2 f_equal. lia.
  - rewrite nth_error_app1 by (rewrite length_firstn; lia).
    rewrite nth_error_firstn.
    destruct (Nat.ltb_spec (Z.to_nat i) (Z.to_nat targetStart)); [reflexivity | lia].
Qed.

(** ** The merged data frame *)

Lemma get_repeat_zero (n : nat) (pos : Z) :
  0 <= pos < Z.of_nat n -> Buf.get (repeat x00 n) pos = Some 0.
Proof.
  intros Hpos. unfold Buf.get.
  destruct (Z.ltb_spec pos 0); [lia|].
  rewrite nth_error_repeat by lia. reflexivity.
Qed.

Lemma byteAt_get (data data' : Buf.Buffer) (i i' : Z) :
  Buf.get data i = Buf.get data' i' -> byteAt data i = byteAt data' i'.
Proof. unfold byteAt. intros ->. reflexivity. Qed.

Lemma get_past_end (data : Buf.Buffer) (i : Z) :
  Buf.length data <= i -> Buf.get data i = None.
Proof.
  intros Hi. unfold Buf.get, Buf.length in *.
  destruct (Z.ltb_spec i 0); [reflexivity|].
  replace (nth_error data (Z.to_nat i)) with (@None byte); [reflexivity|].
  symmetry. apply nth_error_None. lia.
Qed.

(** The copy loop, started at block [i] with the blocks of [done] in place
    and zeros behind them. *)
Lemma copy_blocks_spec (later : list SiMessage.SiMessage) :
  forall (i : Z) (dataFrame : Buf.Buffer) (done : list SiMessage.SiMessage),
    Forall (fun m => 6 <= Buf.length (SiMessage.sequence m)) later ->
    i = Z.of_nat (List.length done) ->
    Buf.length dataFrame = 128 * (i + Z.of_nat (List.length later)) ->
    (forall k m j, nth_error done k = Some m -> 0 <= j < 128 ->
       byteAt dataFrame (128 * Z.of_nat k + j) = byteAt (SiMessage.sequence m) (6 + j)) ->
    (forall pos, 128 * i <= pos < Buf.length dataFrame ->
       Buf.get dataFrame pos = Some 0) ->
    exists data,
      copy_blocks later i dataFrame = Ret data /\
      Buf.length data = Buf.length dataFrame /\
      forall k m j, nth_error (done ++ later) k = Some m -> 0 <= j < 128 ->
        byteAt data (128 * Z.of_nat k + j) = byteAt (SiMessage.sequence m) (6 + j).
Proof.
  induction later as [|message later IH];
    intros i dataFrame done Hok Hi Hlen Hdone Hzero.
  - exists dataFrame. rewrite app_nil_r. repeat split; assumption.
  - inversion Hok as [|? ? Hmsg Hok']; subst.
    cbn [copy_blocks]. unfold copy.
    destruct (Z.ltb_spec (Buf.length (SiMessage.sequence message)) 6) as [Hshort|_];
      [lia|].
    cbn [bind]. cbn [List.length] in Hlen.
    set (source := SiMessage.sequence message) in *.
    set (i := Z.of_nat (List.length done)) in *.
    set (dataFrame' := Buf.copy_bytes source dataFrame (i * 128) 6 (6 + 128)).
    assert (Hlen' : Buf.length dataFrame' = Buf.length dataFrame).
    { unfold Buf.length, dataFrame'. f_equal.
      apply copy_bytes_length; unfold Buf.length in *; lia. }
    assert (Hget : forall pos,
               Buf.get dataFrame' pos
               = if (i * 128 <=? pos)
                    && (pos <? i * 128 + Z.min 128 (Buf.length source - 6))
                 then Buf.get source (6 + (pos - i * 128))
                 else Buf.get dataFrame pos).
    { intros pos. unfold dataFrame'.
      rewrite copy_bytes_get by lia. cbv zeta.
      replace (Z.min (Z.min (6 + 128 - 6) (Buf.length dataFrame - i * 128))
                 (Buf.length source - 6))
        with (Z.min 128 (Buf.length source - 6)) by lia.
      reflexivity. }
    destruct (IH (i + 1) dataFrame' (done ++ [message])) as [data [Hrun [Hlend Hall]]].
    + exact Hok'.
    + rewrite length_app. simpl. lia.
    + rewrite Hlen'. lia.
    + intros k m j Hk Hj.
      destruct (Nat.lt_ge_cases k (List.length done)) as [Hold|Hnew].
      * rewrite nth_error_app1 in Hk by exact Hold.
        rewrite <- (Hdone k m j Hk Hj). apply byteAt_get. rewrite Hget.
        destruct (Z.leb_spec (i * 128) (128 * Z.of_nat k + j)); [lia | reflexivity].
      * assert (Hk' : k = List.length done).
        { assert (k < List.length (done ++ [message]))%nat
            by (apply nth_error_Some; congruence).
          rewrite length_app in H. simpl in H. lia. }
        subst k. rewrite nth_error_app2 in Hk by lia.
        rewrite Nat.sub_diag in Hk. simpl in Hk. injection Hk as <-.
        fold i. fold source. unfold byteAt. rewrite Hget.
        destruct (Z.leb_spec (i * 128) (128 * i + j)); [|lia]. cbn [andb].
        destruct (Z.ltb_spec (128 * i + j)
                    (i * 128 + Z.min 128 (Buf.length source - 6))) as [Hin|Hout].
        -- do 3 f_equal. lia.
        -- rewrite Hzero by lia.
           rewrite (get_past_end source) by lia. reflexivity.
    + intros pos Hpos. rewrite Hlen' in Hpos. rewrite Hget.
      destruct (Z.leb_spec (i * 128) pos); [|lia]. cbn [andb].
      destruct (Z.ltb_spec pos (i * 128 + Z.min 128 (Buf.length source - 6)));
        [lia|].
      apply Hzero. lia.
    + exists data. split; [exact Hrun|]. split; [congruence|].
      intros k m j Hk Hj. apply Hall; [|exact Hj].
      rewrite <- app_assoc. exact Hk.
Qed.

Lemma extractSi6PlusDataFrame_spec (dataMessages : list SiMessage.SiMessage) :
  dataMessages <> [] ->
  Forall (fun m => 6 <= Buf.length (SiMessage.sequence m)) dataMessages ->
  exists data,
    extractSi6PlusDataFrame dataMessages = Ret data /\
    Buf.length data = 128 * Z.of_nat (List.length dataMessages) /\
    forall k m j, nth_error dataMessages k = Some m -> 0 <= j < 128 ->
      byteAt data (128 * Z.of_nat k + j) = byteAt (SiMessage.sequence m) (6 + j).
Proof.
  intros Hsome Hok.
  destruct dataMessages as [|first later]; [contradiction|].
  set (dataFrame := repeat x00 (Z.to_nat (Z.of_nat (List.length (first :: later)) * 128))).
  assert (Hlen : Buf.length dataFrame = 128 * Z.of_nat (List.length (first :: later))).
  { unfold Buf.length, dataFrame. rewrite repeat_length. lia. }
  destruct (copy_blocks_spec (first :: later) 0 dataFrame [] Hok eq_refl)
    as [data [Hrun [Hlend Hall]]].
  - rewrite Hlen. lia.
  - intros k m j Hk. destruct k; discriminate Hk.
  - intros pos Hpos. unfold dataFrame. apply get_repeat_zero.
    unfold Buf.length, dataFrame in Hpos. rewrite repeat_length in Hpos. lia.
  - exists data. split; [exact Hrun|]. split; [congruence|]. exact Hall.
Qed.

(** X12: [extractSi6PlusDataFrame] lays the blocks out one after the
    other: from messages that each hold at least the six bytes in front of
    the block, it returns a buffer of 128 bytes per message, in which byte [j]
    of block [k] is byte [6 + j] of message [k], and zero where the message
    ends earlier. *)
Theorem extractSi6PlusDataFrame_blocks (dataMessages : list SiMessage.SiMessage) :
  dataMessages <> [] ->
  Forall (fun m => 6 <= Buf.length (SiMessage.sequence m)) dataMessages ->
  exists data,
    extractSi6PlusDataFrame dataMessages = Ret data /\
    Buf.length data = 128 * Z.of_nat (List.length dataMessages) /\
    forall k m j, nth_error dataMessages k = Some m -> 0 <= j < 128 ->
      byteAt data (128 * Z.of_nat k + j) = byteAt (SiMessage.sequence m) (6 + j).
Proof. exact (extractSi6PlusDataFrame_spec dataMessages). Qed.

Lemma untimed_last_card6_long_enough :
  Forall (fun m => 6 <= Buf.length (SiMessage.sequence m)) Frames.untimed_last_card6.
Proof. repeat constructor; vm_compute; discriminate. Qed.

Lemma extractSi6PlusDataFrame_blocks_witness :
  Frames.untimed_last_card6 <> [] /\
  Forall (fun m => 6 <= Buf.length (SiMessage.sequence m)) Frames.untimed_last_card6 /\
  exists data,
    extractSi6PlusDataFrame Frames.untimed_last_card6 = Ret data /\
    Buf.length data = 128 * Z.of_nat (List.length Frames.untimed_last_card6) /\
    forall k m j, nth_error Frames.untimed_last_card6 k = Some m -> 0 <= j < 128 ->
      byteAt data (128 * Z.of_nat k + j) = byteAt (SiMessage.sequence m) (6 + j).
Proof.
  assert (H1 : Frames.untimed_last_card6 <> []) by discriminate.
  split; [exact H1|]. split; [exact untimed_last_card6_long_enough|].
  exact (extractSi6PlusDataFrame_blocks Frames.untimed_last_card6 H1
           untimed_last_card6_long_enough).
Defined.

(** A message that ends before its block starts stops the merge. *)
Lemma copy_blocks_short (later : list SiMessage.SiMessage) :
  Exists (fun m => Buf.length (SiMessage.sequence m) < 6) later ->
  forall i dataFrame, copy_blocks later i dataFrame = RangeError.
Proof.
  induction later as [|message later IH]; intros Hshort i dataFrame.
  - inversion Hshort.
  - cbn [copy_blocks]. unfold copy.
    destruct (Z.ltb_spec (Buf.length (SiMessage.sequence message)) 6) as [Hlt|Hge];
      [reflexivity|].
    cbn [bind]. apply IH.
    inversion Hshort as [? ? Hhere|? ? Hthere]; subst; [lia | exact Hthere].
Qed.

(** ** The decoder *)






(** X14: one message that ends before its block starts (fewer than six
    bytes) makes the Card-6+ decoders throw a [RangeError], wherever it is in
    the list and whatever the other messages hold. *)
Theorem parseSi6Plus_short_message (dataMessages : list SiMessage.SiMessage)
  (zerohour : Z) :
  Exists (fun m => Buf.length (SiMessage.sequence m) < 6) dataMessages ->
  forall fuel,
    (forall layout, parseSi6Plus fuel dataMessages layout zerohour = RangeError) /\
    parseSi6 fuel dataMessages zerohour = RangeError /\
    parseSi8Plus fuel dataMessages zerohour = RangeError.
Proof.
  intros Hshort fuel.
  assert (Hdata : extractSi6PlusDataFrame dataMessages = RangeError).
  { destruct dataMessages as [|first later]; [inversion Hshort|].
    change (extractSi6PlusDataFrame (first :: later))
      with (copy_blocks (first :: later) 0
              (repeat x00 (Z.to_nat (Z.of_nat (List.length (first :: later)) * 128)))).
    apply copy_blocks_short. exact Hshort. }
  unfold parseSi8Plus, parseSi6, parseSi6Plus. rewrite Hdata.
  repeat split.
Qed.

Lemma parseSi6Plus_short_message_witness :
  Exists (fun m => Buf.length (SiMessage.sequence m) < 6)
    [Frames.startup_answer; SiMessage.of_list [0x02; 0xe1; 0x00]] /\
  forall fuel,
    (forall layout,
       parseSi6Plus fuel [Frames.startup_answer; SiMessage.of_list [0x02; 0xe1; 0x00]]
         layout 0 = RangeError) /\
    parseSi6 fuel [Frames.startup_answer; SiMessage.of_list [0x02; 0xe1; 0x00]] 0
    = RangeError /\
    parseSi8Plus fuel [Frames.startup_answer; SiMessage.of_list [0x02; 0xe1; 0x00]] 0
    = RangeError.
Proof.
  assert (H : Exists (fun m => Buf.length (SiMessage.sequence m) < 6)
                [Frames.startup_answer; SiMessage.of_list [0x02; 0xe1; 0x00]]).
  { apply Exists_cons_tl. apply Exists_cons_hd. reflexivity. }
  split; [exact H|].
  exact (parseSi6Plus_short_message
           [Frames.startup_answer; SiMessage.of_list [0x02; 0xe1; 0x00]] 0 H).
Defined.





End Si6More.

(* ================================================================== *)
(** * The course validator: a course run in order *)
(* ================================================================== *)

Module InlineOrder.
Import Validator ValidatorFacts MatrixFacts InlineFacts ValidatorMore.

(** ** Lists read in order *)

Lemma in_order_app_r (a l l' : list Z) : in_order a l -> in_order a (l ++ l').
Proof.
  intros H. induction H; simpl; constructor; assumption.
Qed.

Lemma in_order_snoc (a l : list Z) (x : Z) :
  in_order a l -> in_order (a ++ [x]) (l ++ [x]).
Proof.
  intros H. induction H as [codes| | ]; simpl.
  - induction codes as [|c codes IH]; simpl.
    + apply in_order_take. apply in_order_nil.
    + apply in_order_skip. exact IH.
  - apply in_order_skip. assumption.
  - apply in_order_take. assumption.
Qed.

Lemma in_order_tail (x : Z) (a l : list Z) : in_order (x :: a) l -> in_order a l.
Proof.
  intros H. remember (x :: a) as xa eqn:E. revert x a E.
  induction H as [codes|controls c codes H IH|c controls codes H IH];
    intros x a E.
  - discriminate.
  - apply in_order_skip. eapply IH. exact E.
  - injection E as -> ->. apply in_order_skip. exact H.
Qed.

Lemma in_order_length (a l : list Z) :
  in_order a l -> (List.length a <= List.length l)%nat.
Proof. intros H. induction H; simpl; lia. Qed.

Lemma in_order_In (x : Z) (a l : list Z) : in_order (x :: a) l -> In x l.
Proof.
  intros H. remember (x :: a) as xa eqn:E. revert x a E.
  induction H as [codes|controls c codes H IH|c controls codes H IH];
    intros x a E.
  - discriminate.
  - right. eapply IH. exact E.
  - injection E as -> ->. left. reflexivity.
Qed.

Lemma in_order_filter (f : Z -> bool) (a l : list Z) :
  in_order a l -> Forall (fun x => f x = true) a -> in_order a (filter f l).
Proof.
  intros H. induction H as [codes|controls c codes H IH|c controls codes H IH];
    intros Hall; simpl.
  - apply in_order_nil.
  - destruct (f c); [apply in_order_skip|]; apply IH; exact Hall.
  - inversion Hall as [|? ? Hc Hrest]; subst. rewrite Hc.
    apply in_order_take. apply IH. exact Hrest.
Qed.

Lemma in_order_of_filter (f : Z -> bool) (a l : list Z) :
  in_order a (filter f l) -> in_order a l.
Proof.
  revert a. induction l as [|c l IH]; intros a H; simpl in H; [exact H|].
  destruct (f c).
  - inversion H as [codes|controls c' codes H'|c' controls codes H']; subst.
    + apply in_order_nil.
    + apply in_order_skip. apply IH. exact H'.
    + apply in_order_take. apply IH. exact H'.
  - apply in_order_skip. apply IH. exact H.
Qed.

Lemma relevant_codes (expected : list Z) (punches : list SiDataFrame.SiPunch) :
  map SiDataFrame.code (relevant expected punches)
  = filter (includes expected) (map SiDataFrame.code punches).
Proof.
  rewrite relevant_filter.
  induction punches as [|p punches IH]; [reflexivity|].
  simpl. destruct (includes expected (SiDataFrame.code p)); simpl; rewrite IH;
    reflexivity.
Qed.

(** ** The distance matrix *)

Section Distance.

Variable expected : list Z.
Variable relevantPunches : list SiDataFrame.SiPunch.

Let M : nat := List.length expected.
Let N : nat := List.length relevantPunches.

(** The cell of the matrix at row [a] and column [b]. *)
Let d (a b : nat) : Z :=
  build_matrix expected relevantPunches (Z.of_nat a) (Z.of_nat b).

Let c (a b : nat) : Z := cost expected relevantPunches (Z.of_nat a) (Z.of_nat b).

Lemma d_col (a : nat) : (a <= M)%nat -> d a 0 = Z.of_nat a.
Proof.
  intros Ha. destruct (build_matrix_filled expected relevantPunches) as [[Hcol _] _].
  apply Hcol. unfold M in Ha. lia.
Qed.

Lemma d_row (b : nat) : (b <= N)%nat -> d 0 b = Z.of_nat b.
Proof.
  intros Hb. destruct (build_matrix_filled expected relevantPunches) as [[_ Hrow] _].
  apply Hrow. unfold N in Hb. lia.
Qed.

Lemma d_rec (a b : nat) :
  (a < M)%nat -> (b < N)%nat ->
  d (S a) (S b) = min3 (1 + d (S a) b) (1 + d a (S b)) (c a b + d a b).
Proof.
  intros Ha Hb. destruct (build_matrix_filled expected relevantPunches) as [_ Hrec].
  unfold d, c.
  replace (Z.of_nat (S a)) with (Z.of_nat a + 1) by lia.
  replace (Z.of_nat (S b)) with (Z.of_nat b + 1) by lia.
  apply Hrec; unfold M, N in *; lia.
Qed.

Lemma c_range (a b : nat) : c a b = 0 \/ c a b = 1.
Proof. unfold c, cost. destruct (_ =? _); auto. Qed.

Lemma c_zero (a b : nat) :
  c a b = 0 <->
  nth a expected 0
  = SiDataFrame.code
      (nth b relevantPunches (SiDataFrame.mkSiPunch 0 SiDataFrame.NO_TIME)).
Proof.
  unfold c, cost, code_at, punch_at. rewrite !Nat2Z.id.
  destruct (Z.eqb_spec (nth a expected 0)
              (SiDataFrame.code
                 (nth b relevantPunches
                    (SiDataFrame.mkSiPunch 0 SiDataFrame.NO_TIME)))); split;
    intros H; try reflexivity; try assumption; try discriminate; contradiction.
Qed.

(** Neighbouring cells differ by at most one. *)
Lemma d_down_le (a b : nat) :
  (a < M)%nat -> (b <= N)%nat -> d (S a) b <= d a b + 1.
Proof.
  intros Ha Hb. destruct b as [|b].
  - rewrite !d_col by lia. lia.
  - rewrite d_rec by lia. unfold min3. lia.
Qed.

Lemma d_right_le (a b : nat) :
  (a <= M)%nat -> (b < N)%nat -> d a (S b) <= d a b + 1.
Proof.
  intros Ha Hb. destruct a as [|a].
  - rewrite !d_row by lia. lia.
  - rewrite d_rec by lia. unfold min3. lia.
Qed.

Lemma d_down_ge (a : nat) :
  (a < M)%nat -> forall b, (b <= N)%nat -> d a b <= d (S a) b + 1.
Proof.
  intros Ha. induction b as [|b IH]; intros Hb.
  - rewrite !d_col by lia. lia.
  - rewrite (d_rec a b) by lia.
    pose proof (d_right_le a b ltac:(lia) ltac:(lia)).
    specialize (IH ltac:(lia)).
    destruct (c_range a b); unfold min3; lia.
Qed.

Lemma d_right_ge (b : nat) :
  (b < N)%nat -> forall a, (a <= M)%nat -> d a b <= d a (S b) + 1.
Proof.
  intros Hb. induction a as [|a IH]; intros Ha.
  - rewrite !d_row by lia. lia.
  - rewrite (d_rec a b) by lia.
    pose proof (d_down_le a b ltac:(lia) ltac:(lia)).
    specialize (IH ltac:(lia)).
    destruct (c_range a b); unfold min3; lia.
Qed.

(** The distance is at least the difference of the lengths. *)
Lemma d_at_least (a : nat) :
  (a <= M)%nat -> forall b, (b <= N)%nat -> Z.of_nat b - Z.of_nat a <= d a b.
Proof.
  induction a as [|a IHa]; intros Ha b Hb.
  - rewrite d_row by lia. lia.
  - induction b as [|b IHb].
    + rewrite d_col by lia. lia.
    + rewrite d_rec by lia.
      specialize (IHb ltac:(lia)).
      pose proof (IHa ltac:(lia) (S b) ltac:(lia)).
      pose proof (IHa ltac:(lia) b ltac:(lia)).
      destruct (c_range a b); unfold min3; lia.
Qed.

(** Where the codes agree the distance goes down the diagonal unchanged. *)
Lemma d_diagonal (a b : nat) :
  (a < M)%nat -> (b < N)%nat -> c a b = 0 -> d (S a) (S b) = d a b.
Proof.
  intros Ha Hb Hc. rewrite d_rec by lia. rewrite Hc.
  pose proof (d_down_ge a Ha b ltac:(lia)).
  pose proof (d_right_ge b Hb a ltac:(lia)).
  unfold min3. lia.
Qed.

(** A cell that holds the difference of the lengths, and the cell on its
    right. *)
Lemma d_right_exact (a b : nat) :
  (a <= M)%nat -> (b < N)%nat ->
  d a b = Z.of_nat b - Z.of_nat a ->
  d a (S b) = Z.of_nat (S b) - Z.of_nat a.
Proof.
  intros Ha Hb H.
  pose proof (d_right_le a b Ha Hb).
  pose proof (d_at_least a Ha (S b) ltac:(lia)).
  lia.
Qed.

(** A distance that is the difference of the lengths is reached by
    insertions alone: the expected codes are among the punched ones, in
    order. *)
Lemma d_exact_in_order (a : nat) :
  (a <= M)%nat -> forall b, (b <= N)%nat ->
  d a b = Z.of_nat b - Z.of_nat a ->
  in_order (firstn a expected)
    (map SiDataFrame.code (firstn b relevantPunches)).
Proof.
  induction a as [|a IHa]; intros Ha b Hb H.
  - apply in_order_nil.
  - induction b as [|b IHb].
    + rewrite d_col in H by lia. lia.
    + rewrite (firstn_succ_nth relevantPunches b
                 (SiDataFrame.mkSiPunch 0 SiDataFrame.NO_TIME)) by (unfold N in *; lia).
      rewrite map_app. cbn [map].
      pose proof (d_at_least a ltac:(lia) (S b) ltac:(lia)) as Hup.
      pose proof (d_at_least a ltac:(lia) b ltac:(lia)) as Hdiag.
      pose proof (d_at_least (S a) ltac:(lia) b ltac:(lia)) as Hleft.
      rewrite d_rec in H by lia.
      destruct (Z.eq_dec (d (S a) b) (Z.of_nat b - Z.of_nat (S a))) as [He|Hne].
      * apply in_order_app_r. apply IHb; [lia | exact He].
      * assert (Hc : c a b = 0 /\ d a b = Z.of_nat b - Z.of_nat a)
          by (destruct (c_range a b); unfold min3 in H; lia).
        destruct Hc as [Hc Hd].
        rewrite (firstn_succ_nth expected a 0) by (unfold M in *; lia).
        apply c_zero in Hc. rewrite Hc.
        apply in_order_snoc. apply IHa; [lia | lia | exact Hd].
Qed.

End Distance.

(** The same facts with the indices of the code. *)

Lemma D_at_least (expected : list Z) (relevantPunches : list SiDataFrame.SiPunch)
  (i j : Z) :
  0 <= i <= Z.of_nat (List.length expected) ->
  0 <= j <= Z.of_nat (List.length relevantPunches) ->
  j - i <= build_matrix expected relevantPunches i j.
Proof.
  intros Hi Hj.
  pose proof (d_at_least expected relevantPunches (Z.to_nat i) ltac:(lia)
                (Z.to_nat j) ltac:(lia)) as H.
  cbv beta zeta in H.
  rewrite !Z2Nat.id in H by lia. exact H.
Qed.

Lemma D_right_exact (expected : list Z) (relevantPunches : list SiDataFrame.SiPunch)
  (i j : Z) :
  0 <= i <= Z.of_nat (List.length expected) ->
  0 <= j < Z.of_nat (List.length relevantPunches) ->
  build_matrix expected relevantPunches i j = j - i ->
  build_matrix expected relevantPunches i (j + 1) = j + 1 - i.
Proof.
  intros Hi Hj H.
  pose proof (d_right_exact expected relevantPunches (Z.to_nat i) (Z.to_nat j)
                ltac:(lia) ltac:(lia)) as H'.
  cbv beta zeta in H'.
  replace (Z.of_nat (S (Z.to_nat j))) with (j + 1) in H' by lia.
  rewrite !Z2Nat.id in H' by lia. apply H'. exact H.
Qed.

Lemma D_diagonal (expected : list Z) (relevantPunches : list SiDataFrame.SiPunch)
  (i j : Z) :
  0 <= i < Z.of_nat (List.length expected) ->
  0 <= j < Z.of_nat (List.length relevantPunches) ->
  code_at expected i = SiDataFrame.code (punch_at relevantPunches j) ->
  build_matrix expected relevantPunches (i + 1) (j + 1)
  = build_matrix expected relevantPunches i j.
Proof.
  intros Hi Hj H.
  pose proof (d_diagonal expected relevantPunches (Z.to_nat i) (Z.to_nat j)
                ltac:(lia) ltac:(lia)) as H'.
  cbv beta zeta in H'.
  replace (Z.of_nat (S (Z.to_nat i))) with (i + 1) in H' by lia.
  replace (Z.of_nat (S (Z.to_nat j))) with (j + 1) in H' by lia.
  rewrite !Z2Nat.id in H' by lia. apply H'.
  unfold cost. rewrite H, Z.eqb_refl. reflexivity.
Qed.

Lemma D_exact_in_order (expected : list Z)
  (relevantPunches : list SiDataFrame.SiPunch) (i j : Z) :
  0 <= i <= Z.of_nat (List.length expected) ->
  0 <= j <= Z.of_nat (List.length relevantPunches) ->
  build_matrix expected relevantPunches i j = j - i ->
  in_order (firstn (Z.to_nat i) expected)
    (map SiDataFrame.code (firstn (Z.to_nat j) relevantPunches)).
Proof.
  intros Hi Hj H.
  apply d_exact_in_order; [lia | lia|].
  rewrite !Z2Nat.id by lia. exact H.
Qed.

(** ** The trace, move by move *)

Section GuardedTrace.

Variable expected : list Z.
Variable relevantPunches : list SiDataFrame.SiPunch.
Variable matrix : Matrix.
Variable totalCost : Z.

(** A property of the loop variables that each move of the trace keeps,
    where the move is taken. *)
Variable P : Z -> Z -> list ControlResult -> Prop.

Hypothesis P_match :
  forall i j controlResults,
    0 <= i < Z.of_nat (List.length expected) ->
    0 <= j < Z.of_nat (List.length relevantPunches) ->
    matrix (i + 1) (j + 1) = matrix i j ->
    P i j controlResults ->
    P (i + 1) (j + 1)
      (controlResults ++
         [mkControlResult (code_at expected i) true
            (SiDataFrame.timestampMs (punch_at relevantPunches j))]).

Hypothesis P_miss :
  forall i j controlResults,
    0 <= i < Z.of_nat (List.length expected) ->
    0 <= j < Z.of_nat (List.length relevantPunches) ->
    matrix (i + 1) (j + 1) <> matrix i j ->
    existsCodeFrom (code_at expected i) relevantPunches (j + 1) = false \/
    totalCost < matrix i (j + 1) ->
    P i j controlResults ->
    P (i + 1) j (controlResults ++ [PM (code_at expected i)]).

Hypothesis P_skip :
  forall i j controlResults,
    0 <= i < Z.of_nat (List.length expected) ->
    0 <= j < Z.of_nat (List.length relevantPunches) ->
    matrix (i + 1) (j + 1) <> matrix i j ->
    existsCodeFrom (code_at expected i) relevantPunches (j + 1) = true ->
    matrix i (j + 1) <= totalCost ->
    P i j controlResults ->
    P i (j + 1) controlResults.

Lemma trace_loop_guarded (i j : Z) (controlResults : list ControlResult) :
  0 <= i <= Z.of_nat (List.length expected) ->
  0 <= j <= Z.of_nat (List.length relevantPunches) ->
  P i j controlResults ->
  exists j',
    j <= j' <= Z.of_nat (List.length relevantPunches) /\
    i <= fst (trace_loop expected relevantPunches matrix totalCost i j controlResults)
      <= Z.of_nat (List.length expected) /\
    (fst (trace_loop expected relevantPunches matrix totalCost i j controlResults)
     = Z.of_nat (List.length expected) \/
     j' = Z.of_nat (List.length relevantPunches)) /\
    P (fst (trace_loop expected relevantPunches matrix totalCost i j controlResults))
      j'
      (snd (trace_loop expected relevantPunches matrix totalCost i j controlResults)).
Proof.
  funelim (trace_loop expected relevantPunches matrix totalCost i j controlResults);
    intros Hi Hj HP.
  - destruct (Z.eqb_spec (matrix (i + 1) (j + 1)) (matrix i j)) as [Hsame|Hne].
    { match goal with
      | IH : _ -> _ -> P (i + 1) (j + 1) _ -> _ |- _ =>
          destruct IH as [j' [Hj' [Hi' [Hexit HP']]]];
            [lia | lia
            | apply P_match; [lia | lia | exact Hsame | exact HP] |]
      end.
      exists j'. split; [lia|]. split; [lia|]. split; [exact Hexit | exact HP']. }
    destruct (existsCodeFrom (code_at expected i) relevantPunches (j + 1)) eqn:Hex;
      cbn [negb].
    2:{ match goal with
        | IH : _ -> _ -> P (i + 1) j _ -> _ |- _ =>
            destruct IH as [j' [Hj' [Hi' [Hexit HP']]]];
              [lia | lia
              | apply P_miss; [lia | lia | exact Hne | left; exact Hex | exact HP] |]
        end.
        exists j'. split; [lia|]. split; [lia|]. split; [exact Hexit | exact HP']. }
    destruct (matrix i (j + 1) >? totalCost) eqn:Hgt.
    { assert (Hlt : totalCost < matrix i (j + 1)) by (apply Z.gtb_lt; exact Hgt).
      match goal with
      | IH : _ -> _ -> P (i + 1) (j - 1 + 1) _ -> _ |- _ =>
          destruct IH as [j' [Hj' [Hi' [Hexit HP']]]];
            [lia | lia
            | replace (j - 1 + 1) with j by lia;
              apply P_miss; [lia | lia | exact Hne | right; exact Hlt | exact HP] |]
      end.
      exists j'. split; [lia|]. split; [lia|]. split; [exact Hexit | exact HP']. }
    assert (Hle : matrix i (j + 1) <= totalCost).
    { rewrite Z.gtb_ltb in Hgt. apply Z.ltb_ge in Hgt. exact Hgt. }
    match goal with
    | IH : _ -> _ -> P i (j + 1) _ -> _ |- _ =>
        destruct IH as [j' [Hj' [Hi' [Hexit HP']]]];
          [lia | lia
          | apply P_skip; [lia | lia | exact Hne | exact Hex | exact Hle | exact HP] |]
    end.
    exists j'. split; [lia|]. split; [lia|]. split; [exact Hexit | exact HP'].
  - exists j. simpl. split; [lia|]. split; [lia|]. split; [lia | exact HP].
  - exists j. simpl. split; [lia|]. split; [lia|]. split; [lia | exact HP].
Qed.

End GuardedTrace.

(** ** All controls found *)

Lemma no_missing_iff (l : list ControlResult) :
  Z.of_nat (List.length (filter (fun r => negb (found r)) l)) = 0 <->
  Forall (fun r => found r = true) l.
Proof.
  induction l as [|r l IH]; simpl.
  - split; [constructor | reflexivity].
  - destruct (found r) eqn:Hr; cbn [negb].
    + rewrite IH. split; intros H.
      * constructor; assumption.
      * inversion H; assumption.
    + split; intros H.
      * simpl in H. lia.
      * inversion H; congruence.
Qed.

Lemma validateInline_allCorrect_found (course : Course)
  (punches : list SiDataFrame.SiPunch) :
  allCorrect (validateInline course punches) = true <->
  Forall (fun r => found r = true) (controlResults (validateInline course punches)).
Proof.
  destruct (validateInline_well_shaped course punches) as [_ [Hcount [Hall _]]].
  rewrite Hall, Hcount. apply no_missing_iff.
Qed.

Lemma Forall_found_PM (l : list Z) :
  Forall (fun r => found r = true) (map PM l) -> l = [].
Proof.
  destruct l as [|c l]; [reflexivity|]. intros H. inversion H; discriminate.
Qed.

(** The trace of [validateInline] from the start, with its matrix. *)
Lemma validateInline_trace (course : Course) (punches : list SiDataFrame.SiPunch)
  (P : Z -> Z -> list ControlResult -> Prop) :
  let expected := controls course in
  let relevantPunches := relevant expected punches in
  let matrix := build_matrix expected relevantPunches in
  let totalCost := matrix (Z.of_nat (List.length expected))
                          (Z.of_nat (List.length relevantPunches)) in
  (forall i j cr,
     0 <= i < Z.of_nat (List.length expected) ->
     0 <= j < Z.of_nat (List.length relevantPunches) ->
     matrix (i + 1) (j + 1) = matrix i j ->
     P i j cr ->
     P (i + 1) (j + 1)
       (cr ++ [mkControlResult (code_at expected i) true
                 (SiDataFrame.timestampMs (punch_at relevantPunches j))])) ->
  (forall i j cr,
     0 <= i < Z.of_nat (List.length expected) ->
     0 <= j < Z.of_nat (List.length relevantPunches) ->
     matrix (i + 1) (j + 1) <> matrix i j ->
     existsCodeFrom (code_at expected i) relevantPunches (j + 1) = false \/
     totalCost < matrix i (j + 1) ->
     P i j cr -> P (i + 1) j (cr ++ [PM (code_at expected i)])) ->
  (forall i j cr,
     0 <= i < Z.of_nat (List.length expected) ->
     0 <= j < Z.of_nat (List.length relevantPunches) ->
     matrix (i + 1) (j + 1) <> matrix i j ->
     existsCodeFrom (code_at expected i) relevantPunches (j + 1) = true ->
     matrix i (j + 1) <= totalCost ->
     P i j cr -> P i (j + 1) cr) ->
  P 0 0 [] ->
  exists i j cr,
    0 <= i <= Z.of_nat (List.length expected) /\
    0 <= j <= Z.of_nat (List.length relevantPunches) /\
    (i = Z.of_nat (List.length expected) \/
     j = Z.of_nat (List.length relevantPunches)) /\
    P i j cr /\
    controlResults (validateInline course punches)
    = cr ++ map PM (skipn (Z.to_nat i) expected).
Proof.
  intros expected relevantPunches matrix totalCost Hmatch Hmiss Hskip H0.
  destruct (trace_loop_guarded expected relevantPunches matrix totalCost P
              Hmatch Hmiss Hskip 0 0 [] ltac:(lia) ltac:(lia) H0)
    as [j' [Hj' [Hi' [Hexit HP']]]].
  exists (fst (trace_loop expected relevantPunches matrix totalCost 0 0 [])), j',
    (snd (trace_loop expected relevantPunches matrix totalCost 0 0 [])).
  split; [lia|]. split; [lia|]. split; [exact Hexit|]. split; [exact HP'|].
  apply validateInline_controlResults.
  subst totalCost matrix relevantPunches expected. lia.
Qed.

(** When every control is found, the course is among the punches, in order. *)
Lemma all_found_in_order (course : Course) (punches : list SiDataFrame.SiPunch) :
  Forall (fun r => found r = true) (controlResults (validateInline course punches)) ->
  in_order (controls course) (map SiDataFrame.code punches).
Proof.
  intros Hall.
  destruct (validateInline_trace course punches
              (fun i j cr =>
                 Forall (fun r => found r = true) cr ->
                 build_matrix (controls course) (relevant (controls course) punches) i j
                 = j - i))
    as (i & j & cr & Hi & Hj & _ & HP & Heq).
  - intros i j cr Hi Hj Hsame HP Hfound.
    apply Forall_app in Hfound. destruct Hfound as [Hfound _].
    rewrite Hsame, (HP Hfound). lia.
  - intros i j cr Hi Hj _ _ _ Hfound.
    apply Forall_app in Hfound. destruct Hfound as [_ Hfound].
    inversion Hfound; discriminate.
  - intros i j cr Hi Hj _ _ _ HP Hfound.
    apply D_right_exact; [lia | lia | apply HP; exact Hfound].
  - intros _.
    destruct (build_matrix_filled (controls course)
                (relevant (controls course) punches)) as [[Hcol _] _].
    rewrite Hcol; lia.
  - rewrite Heq in Hall.
    apply Forall_app in Hall. destruct Hall as [Hcr Hrest].
    apply Forall_found_PM in Hrest.
    assert (Him : i = Z.of_nat (List.length (controls course))).
    { apply (f_equal (@List.length Z)) in Hrest. rewrite length_skipn in Hrest.
      simpl in Hrest. lia. }
    pose proof (D_exact_in_order (controls course)
                  (relevant (controls course) punches) i j Hi Hj (HP Hcr)) as Hord.
    rewrite firstn_all2 in Hord by lia.
    apply (in_order_app_r _ _
             (map SiDataFrame.code
                (skipn (Z.to_nat j) (relevant (controls course) punches)))) in Hord.
    rewrite <- map_app, firstn_skipn in Hord.
    rewrite relevant_codes in Hord.
    eapply in_order_of_filter. exact Hord.
Qed.

(** What is left of the course from control [i] on is among what is left of
    the punches from punch [j] on. *)
Lemma rest_in_order_step (expected : list Z)
  (relevantPunches : list SiDataFrame.SiPunch) (i j : Z) :
  0 <= i < Z.of_nat (List.length expected) ->
  0 <= j < Z.of_nat (List.length relevantPunches) ->
  in_order (skipn (Z.to_nat i) expected)
    (map SiDataFrame.code (skipn (Z.to_nat j) relevantPunches)) ->
  in_order (skipn (Z.to_nat (i + 1)) expected)
    (map SiDataFrame.code (skipn (Z.to_nat (j + 1)) relevantPunches)) /\
  (code_at expected i <> SiDataFrame.code (punch_at relevantPunches j) ->
   in_order (skipn (Z.to_nat i) expected)
     (map SiDataFrame.code (skipn (Z.to_nat (j + 1)) relevantPunches))).
Proof.
  intros Hi Hj Hrest.
  rewrite (skipn_cons_nth expected (Z.to_nat i) 0) in Hrest |- * by lia.
  rewrite (skipn_cons_nth relevantPunches (Z.to_nat j)
             (SiDataFrame.mkSiPunch 0 SiDataFrame.NO_TIME)) in Hrest by lia.
  cbn [map] in Hrest.
  replace (Z.to_nat (i + 1)) with (S (Z.to_nat i)) by lia.
  replace (Z.to_nat (j + 1)) with (S (Z.to_nat j)) by lia.
  fold (code_at expected i) in Hrest |- *.
  fold (punch_at relevantPunches j) in Hrest |- *.
  inversion Hrest as [|controls c codes Hskip|c controls codes Htake]; subst.
  - split; [eapply in_order_tail; exact Hskip | intros _; exact Hskip].
  - split; [exact Htake | intros Hne; congruence].
Qed.

(** When the course is among the punches, in order, every control is found. *)
Lemma in_order_all_found (course : Course) (punches : list SiDataFrame.SiPunch) :
  in_order (controls course) (map SiDataFrame.code punches) ->
  Forall (fun r => found r = true) (controlResults (validateInline course punches)).
Proof.
  intros Hord.
  assert (Hrel : in_order (controls course)
                   (map SiDataFrame.code (relevant (controls course) punches))).
  { rewrite relevant_codes.
    apply in_order_filter; [exact Hord|].
    apply Forall_forall. intros x Hx. apply includes_In. exact Hx. }
  destruct (validateInline_trace course punches
              (fun i j cr =>
                 Forall (fun r => found r = true) cr /\
                 in_order (skipn (Z.to_nat i) (controls course))
                   (map SiDataFrame.code
                      (skipn (Z.to_nat j) (relevant (controls course) punches))) /\
                 build_matrix (controls course) (relevant (controls course) punches) i j
                 = j - i))
    as (i & j & cr & Hi & Hj & Hexit & (Hfound & Hrest & _) & Heq).
  - intros i j cr Hi Hj Hsame (Hfound & Hrest & Hd).
    split; [apply Forall_app; split; [exact Hfound | repeat constructor]|].
    split; [apply (rest_in_order_step _ _ i j Hi Hj Hrest)|].
    rewrite Hsame, Hd. lia.
  - intros i j cr Hi Hj Hne Hwhy (Hfound & Hrest & Hd). exfalso.
    assert (Hcodes : code_at (controls course) i
                     <> SiDataFrame.code
                          (punch_at (relevant (controls course) punches) j)).
    { intros He. apply Hne. apply D_diagonal; assumption. }
    destruct (rest_in_order_step _ _ i j Hi Hj Hrest) as [_ Hlater].
    specialize (Hlater Hcodes).
    destruct Hwhy as [Hnone|Hcost].
    + rewrite (skipn_cons_nth (controls course) (Z.to_nat i) 0) in Hlater by lia.
      apply in_order_In in Hlater. apply in_map_iff in Hlater.
      destruct Hlater as [p [Hp Hin]].
      unfold existsCodeFrom in Hnone.
      assert (Hex : existsb (fun p0 => SiDataFrame.code p0
                                       =? code_at (controls course) i)
                      (skipn (Z.to_nat (j + 1)) (relevant (controls course) punches))
                    = true).
      { apply existsb_exists. exists p. split; [exact Hin|].
        unfold code_at. rewrite Hp. apply Z.eqb_refl. }
      congruence.
    + apply in_order_length in Hlater.
      rewrite length_map, !length_skipn in Hlater.
      pose proof (D_right_exact (controls course)
                    (relevant (controls course) punches) i j ltac:(lia)
                    ltac:(lia) Hd).
      pose proof (D_at_least (controls course)
                    (relevant (controls course) punches)
                    (Z.of_nat (List.length (controls course)))
                    (Z.of_nat (List.length (relevant (controls course) punches)))
                    ltac:(lia) ltac:(lia)).
      lia.
  - intros i j cr Hi Hj Hne _ _ (Hfound & Hrest & Hd).
    assert (Hcodes : code_at (controls course) i
                     <> SiDataFrame.code
                          (punch_at (relevant (controls course) punches) j)).
    { intros He. apply Hne. apply D_diagonal; assumption. }
    destruct (rest_in_order_step _ _ i j Hi Hj Hrest) as [_ Hlater].
    specialize (Hlater Hcodes).
    split; [exact Hfound|]. split; [exact Hlater|].
    apply D_right_exact; [lia | lia | exact Hd].
  - split; [constructor|]. split; [exact Hrel|].
    destruct (build_matrix_filled (controls course)
                (relevant (controls course) punches)) as [[Hcol _] _].
    rewrite Hcol; lia.
  - assert (Him : i = Z.of_nat (List.length (controls course))).
    { destruct Hexit as [Him|Hjn]; [exact Him|]. subst j.
      apply in_order_length in Hrest.
      rewrite length_map, !length_skipn in Hrest. lia. }
    rewrite Heq, Him. rewrite Nat2Z.id, skipn_all. simpl.
    rewrite app_nil_r. exact Hfound.
Qed.

(** X17: an inline validation is all correct exactly when the controls of
    the course are among the punches in course order: the punch codes hold
    the controls one after the other, with any other punches before, between
    and after them. *)
Theorem validateInline_all_correct_iff (course : Course)
  (punches : list SiDataFrame.SiPunch) :
  allCorrect (validateInline course punches) = true <->
  in_order (controls course) (map SiDataFrame.code punches).
Proof.
  rewrite validateInline_allCorrect_found. split.
  - apply all_found_in_order.
  - apply in_order_all_found.
Qed.

End InlineOrder.

(* ================================================================== *)
(** * The byte accumulator, chunk by chunk *)
(* ================================================================== *)

Module AccumulatorMore.
Import SiDriver AccumulatorFacts.

Lemma firstn_139_app (head chunk : Buf.Buffer) :
  (List.length head <= 139)%nat ->
  firstn 139 (head ++ chunk) = head ++ firstn (139 - List.length head) chunk.
Proof.
  intros H. rewrite firstn_app. rewrite firstn_all2 by lia. reflexivity.
Qed.

(** The accumulator after [chunk.copy(accBuffer, accSize, 0, nb)]: it keeps
    its length, and its first [accSize + nb] bytes are the bytes it held
    followed by the chunk, cut at 139 bytes. *)
Lemma accumulate_pending (acc chunk : Buf.Buffer) (s : Z) :
  List.length acc = 139%nat -> 0 <= s <= 139 ->
  let nb := Z.min (Buf.length chunk) (139 - s) in
  List.length (Buf.copy_bytes chunk acc s 0 nb) = 139%nat /\
  firstn (Z.to_nat (s + nb)) (Buf.copy_bytes chunk acc s 0 nb)
  = firstn 139 (firstn (Z.to_nat s) acc ++ chunk).
Proof.
  intros Hacc Hs nb.
  assert (Hhead : List.length (firstn (Z.to_nat s) acc) = Z.to_nat s)
    by (rewrite length_firstn; lia).
  rewrite firstn_139_app by lia. rewrite Hhead.
  assert (Htail : firstn (139 - Z.to_nat s) chunk = firstn (Z.to_nat nb) chunk).
  { unfold nb, Buf.length.
    destruct (Z.le_ge_cases (Z.of_nat (List.length chunk)) (139 - s)) as [Hle|Hge].
    - rewrite Z.min_l by lia. rewrite Nat2Z.id.
      rewrite firstn_all, firstn_all2 by lia. reflexivity.
    - rewrite Z.min_r by lia. f_equal. lia. }
  rewrite Htail.
  assert (Hnbl : List.length (firstn (Z.to_nat nb) chunk) = Z.to_nat nb)
    by (rewrite length_firstn; unfold nb, Buf.length in *; lia).
  assert (Hcopy : Buf.copy_bytes chunk acc s 0 nb
                  = if (139 <=? s) || (nb <=? 0) then acc
                    else firstn (Z.to_nat s) acc ++ firstn (Z.to_nat nb) chunk
                           ++ skipn (Z.to_nat (s + nb)) acc).
  { unfold Buf.copy_bytes.
    replace (Buf.length acc) with 139 by (unfold Buf.length; lia).
    destruct ((139 <=? s) || (nb <=? 0)) eqn:Hskip; [reflexivity|].
    apply orb_false_iff in Hskip. destruct Hskip as [Hroom Hpos].
    apply Z.leb_gt in Hroom, Hpos.
    replace (Z.min (Z.min (nb - 0) (139 - s)) (Buf.length chunk - 0))
      with nb by (unfold nb, Buf.length in *; lia).
    reflexivity. }
  rewrite Hcopy.
  destruct ((139 <=? s) || (nb <=? 0)) eqn:Hskip.
  - split; [exact Hacc|].
    assert (Hnb : nb = 0).
    { apply orb_true_iff in Hskip. destruct Hskip as [H|H]; apply Z.leb_le in H;
        unfold nb, Buf.length in *; lia. }
    rewrite Hnb. cbn [Z.to_nat firstn]. rewrite app_nil_r, Z.add_0_r. reflexivity.
  - apply orb_false_iff in Hskip. destruct Hskip as [Hroom Hpos].
    apply Z.leb_gt in Hroom, Hpos.
    split.
    + rewrite !length_app, Hhead, Hnbl, length_skipn.
      unfold nb, Buf.length in *. lia.
    + rewrite app_assoc.
      replace (Z.to_nat (s + nb))
        with (List.length (firstn (Z.to_nat s) acc ++ firstn (Z.to_nat nb) chunk))
        by (rewrite length_app, Hhead, Hnbl; lia).
      rewrite firstn_app, firstn_all, Nat.sub_diag. cbn [firstn].
      apply app_nil_r.
Qed.

Lemma get_firstn (buffer : Buf.Buffer) (k : nat) (i : Z) :
  0 <= i < Z.of_nat k -> Buf.get (firstn k buffer) i = Buf.get buffer i.
Proof.
  intros Hi. unfold Buf.get.
  destruct (Z.ltb_spec i 0) as [Hneg|_]; [lia|].
  rewrite nth_error_firstn.
  destruct (Nat.ltb_spec (Z.to_nat i) k); [reflexivity | lia].
Qed.

Lemma subarray_firstn (buffer : Buf.Buffer) (size : Z) :
  0 <= size <= Buf.length buffer ->
  Buf.subarray buffer 0 size = firstn (Z.to_nat size) buffer.
Proof.
  intros Hsize. unfold Buf.subarray, Buf.clamp_index.
  destruct (Z.ltb_spec 0 0) as [H|_]; [lia|].
  destruct (Z.ltb_spec size 0) as [H|_]; [lia|].
  rewrite (Z.min_l 0) by (unfold Buf.length; lia). rewrite Z.min_l by lia.
  rewrite Z.sub_0_r. reflexivity.
Qed.

(** One chunk: the bytes kept (none when the last chunk is more than 500 ms
    old) and the chunk, cut at 139 bytes, are dispatched as one message when
    they pass the test, and else kept. *)
Lemma handleSerialData_step (d : SiDriver) (now : Z) (chunk : Buf.Buffer) :
  acc_ok d ->
  let old := if now >? lastDataTime d + TIMEOUT_DELAY then [] else pending d in
  let bytes := firstn 139 (old ++ chunk) in
  let msg := SiMessage.mkSiMessage bytes in
  let d' := handleSerialData d now chunk in
  acc_ok d' /\ lastDataTime d' = now /\
  (if dispatchable bytes
   then messageQueue d' = fst (push (messageQueue d) msg) /\
        resolved d' = match snd (push (messageQueue d) msg) with
                      | Some w => resolved d ++ [w]
                      | None => resolved d
                      end /\
        emitted d' = emitted d ++ [EvLog READ (SiMessage.toString msg)] /\
        pending d' = []
   else messageQueue d' = messageQueue d /\ resolved d' = resolved d /\
        emitted d' = emitted d /\ pending d' = bytes) /\
  port d' = port d /\ written d' = written d /\ incoming d' = incoming d /\
  running d' = running d /\ zerohour d' = zerohour d /\
  si6_192PunchesMode d' = si6_192PunchesMode d.
Proof.
  intros [Hacc Hsize] old bytes msg d'.
  destruct d as [port0 q0 running0 zerohour0 mode0 acc0 size0 last0 emitted0
                   resolved0 written0 incoming0].
  unfold pending in old.
  cbn [accBuffer accSize messageQueue resolved emitted lastDataTime port written
       incoming running zerohour si6_192PunchesMode] in *.
  set (s := if now >? last0 + TIMEOUT_DELAY then 0 else size0).
  assert (Hs : 0 <= s <= 139) by (unfold s; destruct (_ >? _); lia).
  assert (Hold : old = firstn (Z.to_nat s) acc0).
  { unfold old, s. destruct (_ >? _); reflexivity. }
  assert (Hreset :
            (if now >? lastDataTime
                         (mkSiDriver port0 q0 running0 zerohour0 mode0 acc0 size0 last0
                            emitted0 resolved0 written0 incoming0) + TIMEOUT_DELAY
             then set_accSize
                    (mkSiDriver port0 q0 running0 zerohour0 mode0 acc0 size0 last0
                       emitted0 resolved0 written0 incoming0) 0
             else mkSiDriver port0 q0 running0 zerohour0 mode0 acc0 size0 last0
                    emitted0 resolved0 written0 incoming0)
            = mkSiDriver port0 q0 running0 zerohour0 mode0 acc0 s last0
                emitted0 resolved0 written0 incoming0).
  { cbn [lastDataTime]. unfold s. destruct (_ >? _); reflexivity. }
  subst d'. unfold handleSerialData. rewrite Hreset.
  cbn [set_lastDataTime set_acc set_accSize accBuffer accSize port messageQueue
       running zerohour si6_192PunchesMode lastDataTime emitted resolved written
       incoming].
  destruct (accumulate_pending acc0 chunk s Hacc Hs) as [Hlen1 Hbytes].
  cbv zeta in Hlen1, Hbytes.
  set (nb := Z.min (Buf.length chunk) (139 - s)) in *.
  set (acc1 := Buf.copy_bytes chunk acc0 s 0 nb) in *.
  set (size1 := s + nb) in *.
  assert (Hsize1 : 0 <= size1 <= 139) by (unfold size1, nb, Buf.length; lia).
  assert (Hb : bytes = firstn (Z.to_nat size1) acc1).
  { unfold bytes. rewrite Hold. symmetry. exact Hbytes. }
  assert (Hblen : Buf.length bytes = size1).
  { rewrite Hb. unfold Buf.length. rewrite length_firstn. lia. }
  assert (Hget0 : 1 <= size1 -> Buf.get acc1 0 = Buf.get bytes 0).
  { intros H. rewrite Hb. symmetry. apply get_firstn. lia. }
  assert (Hget2 : 3 <= size1 -> Buf.get acc1 2 = Buf.get bytes 2).
  { intros H. rewrite Hb. symmetry. apply get_firstn. lia. }
  assert (Hsub : Buf.subarray acc1 0 size1 = bytes).
  { rewrite Hb. apply subarray_firstn. unfold Buf.length. lia. }
  assert (Hdispatch :
            let dm := dispatchMessage
                        (mkSiDriver port0 q0 running0 zerohour0 mode0 acc1 size1 now
                           emitted0 resolved0 written0 incoming0) in
            acc_ok dm /\ lastDataTime dm = now /\
            (messageQueue dm = fst (push q0 msg) /\
             resolved dm = match snd (push q0 msg) with
                           | Some w => resolved0 ++ [w]
                           | None => resolved0
                           end /\
             emitted dm = emitted0 ++ [EvLog READ (SiMessage.toString msg)] /\
             pending dm = []) /\
            port dm = port0 /\ written dm = written0 /\ incoming dm = incoming0 /\
            running dm = running0 /\ zerohour dm = zerohour0 /\
            si6_192PunchesMode dm = mode0).
  { unfold dispatchMessage, log, emit, pending, acc_ok.
    cbn [set_lastDataTime set_acc set_accSize accBuffer accSize port messageQueue
         running zerohour si6_192PunchesMode lastDataTime emitted resolved written
         incoming].
    rewrite Hsub. fold msg. destruct (push q0 msg) as [q r].
    cbn [set_messageQueue set_acc set_accSize accBuffer accSize port messageQueue
         running zerohour si6_192PunchesMode lastDataTime emitted resolved written
         incoming fst snd].
    repeat split; try assumption; try lia. }
  assert (Hkeep :
            let dk := mkSiDriver port0 q0 running0 zerohour0 mode0 acc1 size1 now
                        emitted0 resolved0 written0 incoming0 in
            acc_ok dk /\ lastDataTime dk = now /\
            (messageQueue dk = q0 /\ resolved dk = resolved0 /\
             emitted dk = emitted0 /\ pending dk = bytes) /\
            port dk = port0 /\ written dk = written0 /\ incoming dk = incoming0 /\
            running dk = running0 /\ zerohour dk = zerohour0 /\
            si6_192PunchesMode dk = mode0).
  { unfold pending, acc_ok.
    cbn [accBuffer accSize port messageQueue running zerohour si6_192PunchesMode
         lastDataTime emitted resolved written incoming].
    rewrite Hb. repeat split; try assumption; try lia. }
  cbv zeta in Hdispatch, Hkeep.
  unfold dispatchable. rewrite Hblen.
  destruct (Z.eqb_spec size1 1) as [Hone|Hmore]; cbn [andb orb].
  - rewrite (Hget0 ltac:(lia)).
    destruct (Z.geb_spec size1 3) as [H3|_]; [lia|].
    destruct (negb (SiMessage.strict_eq (Buf.get bytes 0) 2)); cbn [andb orb].
    + exact Hdispatch.
    + exact Hkeep.
  - destruct (Z.geb_spec size1 3) as [H3|H3]; cbn [andb].
    + rewrite (Hget2 ltac:(lia)).
      destruct (size1 >=? Z.land (Buf.int32 (Buf.get bytes 2)) 255 + 6).
      * exact Hdispatch.
      * exact Hkeep.
    + exact Hkeep.
Qed.

(** X18: what [handleSerialData] does with a chunk, in terms of the bytes
    received and not yet dispatched: the bytes kept (none if the chunk before
    is more than 500 ms old) followed by the chunk, cut at 139 bytes, are
    pushed as one message and logged when they pass the test (a lone byte
    that is not [STX], or three bytes or more of which the third announces
    no more than what is there), and else they are kept; nothing else of the
    driver changes but the time of the last chunk. *)
Theorem handleSerialData_gathers (d : SiDriver) (now : Z) (chunk : Buf.Buffer) :
  acc_ok d ->
  let old := if now >? lastDataTime d + TIMEOUT_DELAY then [] else pending d in
  let bytes := firstn 139 (old ++ chunk) in
  let msg := SiMessage.mkSiMessage bytes in
  let d' := handleSerialData d now chunk in
  acc_ok d' /\ lastDataTime d' = now /\
  (if dispatchable bytes
   then messageQueue d' = fst (push (messageQueue d) msg) /\
        resolved d' = match snd (push (messageQueue d) msg) with
                      | Some w => resolved d ++ [w]
                      | None => resolved d
                      end /\
        emitted d' = emitted d ++ [EvLog READ (SiMessage.toString msg)] /\
        pending d' = []
   else messageQueue d' = messageQueue d /\ resolved d' = resolved d /\
        emitted d' = emitted d /\ pending d' = bytes) /\
  port d' = port d /\ written d' = written d /\ incoming d' = incoming d /\
  running d' = running d /\ zerohour d' = zerohour d /\
  si6_192PunchesMode d' = si6_192PunchesMode d.
Proof. exact (handleSerialData_step d now chunk). Qed.

Lemma new_SiDriver_acc_ok (port : SiPortAdapter) (zerohour : Z)
  (incoming : list (option SiMessage.SiMessage)) :
  acc_ok (new_SiDriver port zerohour incoming).
Proof. split; [reflexivity | simpl; lia]. Qed.

Lemma handleSerialData_gathers_witness :
  let d := new_SiDriver reliable_port 0 [] in
  let now := 1000 in
  let chunk := firstn 4 (SiMessage.sequence Frames.startup_answer) in
  acc_ok d /\
  let old := if now >? lastDataTime d + TIMEOUT_DELAY then [] else pending d in
  let bytes := firstn 139 (old ++ chunk) in
  let msg := SiMessage.mkSiMessage bytes in
  let d' := handleSerialData d now chunk in
  acc_ok d' /\ lastDataTime d' = now /\
  (if dispatchable bytes
   then messageQueue d' = fst (push (messageQueue d) msg) /\
        resolved d' = match snd (push (messageQueue d) msg) with
                      | Some w => resolved d ++ [w]
                      | None => resolved d
                      end /\
        emitted d' = emitted d ++ [EvLog READ (SiMessage.toString msg)] /\
        pending d' = []
   else messageQueue d' = messageQueue d /\ resolved d' = resolved d /\
        emitted d' = emitted d /\ pending d' = bytes) /\
  port d' = port d /\ written d' = written d /\ incoming d' = incoming d /\
  running d' = running d /\ zerohour d' = zerohour d /\
  si6_192PunchesMode d' = si6_192PunchesMode d.
Proof.
  intros d now chunk.
  split; [apply new_SiDriver_acc_ok|].
  exact (handleSerialData_gathers d now chunk (new_SiDriver_acc_ok reliable_port 0 [])).
Defined.

Lemma feed_acc_ok (inputs : list (Z * Buf.Buffer)) :
  forall d, acc_ok d -> acc_ok (feed d inputs).
Proof.
  induction inputs as [|[now chunk] inputs IH]; intros d Hd; [exact Hd|].
  apply IH. apply (handleSerialData_step d now chunk Hd).
Qed.

(** X19: whatever chunks arrive, and whenever, the accumulator of a driver
    keeps its 139 bytes and its fill index stays between 0 and 139: the copy
    of a chunk never leaves the accumulator. *)
Theorem accumulator_stays_in_bounds (port : SiPortAdapter) (zerohour : Z)
  (incoming : list (option SiMessage.SiMessage)) (inputs : list (Z * Buf.Buffer)) :
  acc_ok (feed (new_SiDriver port zerohour incoming) inputs).
Proof. apply feed_acc_ok. apply new_SiDriver_acc_ok. Qed.

(** ** A frame in pieces *)

Lemma land_byte (v : Z) : 0 <= v < 256 -> Z.land v 0xff = v.
Proof.
  intros Hv. change 0xff with (Z.ones 8). rewrite Z.land_ones by lia.
  apply Z.mod_small. change (2 ^ 8) with 256. lia.
Qed.

Lemma framed_dispatchable (frame : Buf.Buffer) :
  framed frame -> dispatchable frame = true.
Proof.
  intros [len [Hlen Htotal]].
  destruct (get_Some_range _ _ _ Hlen) as [Hbyte Hin].
  unfold dispatchable. rewrite Hlen. cbn [Buf.int32]. rewrite land_byte by lia.
  destruct (Z.geb_spec (Buf.length frame) 3) as [_|H]; [|lia].
  destruct (Z.geb_spec (Buf.length frame) (len + 6)) as [_|H]; [|lia].
  cbn [andb]. apply orb_true_r.
Qed.

(** A proper head of a frame that starts with [STX] is kept. *)
Lemma head_not_dispatchable (head rest : Buf.Buffer) :
  framed (head ++ rest) -> Buf.get (head ++ rest) 0 = Some SiMessage.STX ->
  rest <> [] -> dispatchable head = false.
Proof.
  intros [len [Hlen Htotal]] Hstx Hrest.
  destruct (get_Some_range _ _ _ Hlen) as [Hbyte Hin].
  assert (Hshort : Buf.length head < Buf.length (head ++ rest)).
  { unfold Buf.length. rewrite length_app.
    destruct rest; [contradiction | simpl; lia]. }
  unfold dispatchable.
  destruct (Z.eqb_spec (Buf.length head) 1) as [Hone|Hmore]; cbn [andb orb].
  - rewrite get_app_l in Hstx by lia. rewrite Hstx. cbn.
    destruct (Z.geb_spec (Buf.length head) 3); [lia | reflexivity].
  - destruct (Z.geb_spec (Buf.length head) 3) as [H3|H3]; [|reflexivity].
    rewrite get_app_l in Hlen by lia. rewrite Hlen. cbn [Buf.int32 andb].
    rewrite land_byte by lia.
    destruct (Z.geb_spec (Buf.length head) (len + 6)); [lia | reflexivity].
Qed.

(** Empty chunks on an empty accumulator change neither the queue nor the
    events. *)
Lemma feed_empty_chunks (inputs : list (Z * Buf.Buffer)) :
  forall d,
    acc_ok d -> pending d = [] -> List.concat (map snd inputs) = [] ->
    messageQueue (feed d inputs) = messageQueue d /\
    emitted (feed d inputs) = emitted d /\
    pending (feed d inputs) = [].
Proof.
  induction inputs as [|[now chunk] inputs IH]; intros d Hd Hp Hnil.
  - repeat split. exact Hp.
  - cbn [map snd List.concat] in Hnil. apply app_eq_nil in Hnil.
    destruct Hnil as [-> Hnil].
    pose proof (handleSerialData_step d now [] Hd) as Hstep. cbv zeta in Hstep.
    rewrite Hp in Hstep.
    assert (Hold : (if now >? lastDataTime d + TIMEOUT_DELAY then [] else [])
                   = @nil byte) by (destruct (_ >? _); reflexivity).
    rewrite Hold in Hstep. cbn in Hstep.
    destruct Hstep as (Hok & _ & (Hq & _ & He & Hp') & _).
    cbn [feed fold_left fst snd].
    destruct (IH (handleSerialData d now []) Hok Hp' Hnil) as (Hq2 & He2 & Hp2).
    unfold feed in *. rewrite Hq2, He2. repeat split; assumption.
Qed.

(** The pieces of a frame, each at most 500 ms after the one before, on an
    accumulator that holds a proper head of the frame. *)
Lemma feed_frame_pieces (inputs : list (Z * Buf.Buffer)) :
  forall d,
    acc_ok d ->
    framed (pending d ++ List.concat (map snd inputs)) ->
    Buf.get (pending d ++ List.concat (map snd inputs)) 0 = Some SiMessage.STX ->
    Buf.length (pending d ++ List.concat (map snd inputs)) <= 139 ->
    List.concat (map snd inputs) <> [] ->
    within (lastDataTime d) inputs ->
    let msg := SiMessage.mkSiMessage (pending d ++ List.concat (map snd inputs)) in
    messageQueue (feed d inputs) = fst (push (messageQueue d) msg) /\
    emitted (feed d inputs) = emitted d ++ [EvLog READ (SiMessage.toString msg)] /\
    pending (feed d inputs) = [].
Proof.
  induction inputs as [|[now chunk] inputs IH];
    intros d Hd Hframed Hstx Hmax Hsome Hwithin msg.
  - contradiction.
  - cbn [map snd List.concat] in *. cbn [within fst] in Hwithin.
    destruct Hwithin as [Hnow Hlater].
    pose proof (handleSerialData_step d now chunk Hd) as Hstep. cbv zeta in Hstep.
    destruct (Z.gtb_spec now (lastDataTime d + TIMEOUT_DELAY)) as [Hstale|_]; [lia|].
    assert (Hbytes : firstn 139 (pending d ++ chunk) = pending d ++ chunk).
    { apply firstn_all2. unfold Buf.length in Hmax.
      rewrite !length_app in *. lia. }
    rewrite Hbytes in Hstep.
    cbn [feed fold_left fst snd].
    change (fold_left
              (fun d0 input => handleSerialData d0 (fst input) (snd input))
              inputs (handleSerialData d now chunk))
      with (feed (handleSerialData d now chunk) inputs).
    destruct (list_eq_dec Byte.byte_eq_dec (List.concat (map snd inputs)) [])
      as [Hdone|Hmore].
    + (* the frame ends with this chunk *)
      subst msg. rewrite Hdone, app_nil_r in *.
      rewrite (framed_dispatchable _ Hframed) in Hstep.
      destruct Hstep as (Hok & _ & (Hq & _ & He & Hp') & _).
      destruct (feed_empty_chunks inputs _ Hok Hp' Hdone) as (Hq2 & He2 & Hp2).
      rewrite Hq2, He2. repeat split; assumption.
    + (* more of the frame is to come *)
      rewrite app_assoc in Hframed, Hstx, Hmax.
      rewrite (head_not_dispatchable _ _ Hframed Hstx Hmore) in Hstep.
      destruct Hstep as (Hok & Hlast & (Hq & _ & He & Hp') & _).
      destruct (IH (handleSerialData d now chunk) Hok) as (Hq2 & He2 & Hp2).
      * rewrite Hp'. exact Hframed.
      * rewrite Hp'. exact Hstx.
      * rewrite Hp'. exact Hmax.
      * exact Hmore.
      * rewrite Hlast. exact Hlater.
      * rewrite Hp' in Hq2, He2. subst msg. rewrite app_assoc.
        rewrite Hq2, He2, Hq, He. repeat split. exact Hp2.
Qed.

(** X20: a frame that arrives in pieces is put together: when the
    accumulator is empty and the pieces of a frame of at most 139 bytes
    (first byte [STX], third byte the number of bytes besides the six of
    the envelope) arrive in any number of chunks, each at most 500 ms after
    the one before, the driver pushes the frame once, as one message, logs
    it once and is left with an empty accumulator. *)
Theorem handleSerialData_reassembles (d : SiDriver)
  (inputs : list (Z * Buf.Buffer)) (now : Z) (chunk : Buf.Buffer) :
  acc_ok d -> accSize d = 0 ->
  framed (List.concat (map snd ((now, chunk) :: inputs))) ->
  Buf.get (List.concat (map snd ((now, chunk) :: inputs))) 0 = Some SiMessage.STX ->
  Buf.length (List.concat (map snd ((now, chunk) :: inputs))) <= 139 ->
  within now inputs ->
  let msg := SiMessage.mkSiMessage (List.concat (map snd ((now, chunk) :: inputs))) in
  let d' := feed d ((now, chunk) :: inputs) in
  messageQueue d' = fst (push (messageQueue d) msg) /\
  emitted d' = emitted d ++ [EvLog READ (SiMessage.toString msg)] /\
  pending d' = [].
Proof.
  intros Hd Hsize Hframed Hstx Hmax Hwithin msg d'.
  (* the time of the first chunk does not matter: nothing is kept *)
  set (d0 := set_lastDataTime d now).
  assert (Hsame : handleSerialData d now chunk = handleSerialData d0 now chunk).
  { unfold handleSerialData, d0.
    destruct d as [port0 q0 running0 zerohour0 mode0 acc0 size0 last0 emitted0
                     resolved0 written0 incoming0].
    cbn [accSize] in Hsize. subst size0.
    cbn [set_lastDataTime set_acc set_accSize accBuffer accSize port messageQueue
         running zerohour si6_192PunchesMode lastDataTime emitted resolved written
         incoming].
    destruct (now >? last0 + TIMEOUT_DELAY), (now >? now + TIMEOUT_DELAY);
      reflexivity. }
  assert (Hp0 : pending d0 = []).
  { unfold pending, d0. destruct d. cbn in *. subst. reflexivity. }
  assert (Hd0 : acc_ok d0) by (destruct d; exact Hd).
  assert (Hsome : List.concat (map snd ((now, chunk) :: inputs)) <> []).
  { intros Hnil. rewrite Hnil in Hstx. discriminate. }
  subst d'. cbn [feed fold_left fst snd]. rewrite Hsame.
  change (fold_left
            (fun d1 input => handleSerialData d1 (fst input) (snd input))
            inputs (handleSerialData d0 now chunk))
    with (feed d0 ((now, chunk) :: inputs)).
  destruct (feed_frame_pieces ((now, chunk) :: inputs) d0 Hd0) as (Hq & He & Hp).
  - rewrite Hp0. exact Hframed.
  - rewrite Hp0. exact Hstx.
  - rewrite Hp0. exact Hmax.
  - exact Hsome.
  - cbn [within fst]. split; [unfold d0; destruct d; cbn; unfold TIMEOUT_DELAY; lia|].
    exact Hwithin.
  - rewrite Hp0 in Hq, He. cbn [app] in Hq, He.
    fold msg in Hq, He. rewrite Hq, He.
    unfold d0. destruct d. repeat split. exact Hp.
Qed.

Lemma handleSerialData_reassembles_witness :
  let d := new_SiDriver reliable_port 0 [] in
  let frame := SiMessage.sequence Frames.startup_answer in
  let now := 1000 in
  let chunk := firstn 1 frame in
  let inputs := [(1100, firstn 3 (skipn 1 frame)); (1600, skipn 4 frame)] in
  (acc_ok d /\ accSize d = 0 /\
   framed (List.concat (map snd ((now, chunk) :: inputs))) /\
   Buf.get (List.concat (map snd ((now, chunk) :: inputs))) 0 = Some SiMessage.STX /\
   Buf.length (List.concat (map snd ((now, chunk) :: inputs))) <= 139 /\
   within now inputs) /\
  let msg := SiMessage.mkSiMessage (List.concat (map snd ((now, chunk) :: inputs))) in
  let d' := feed d ((now, chunk) :: inputs) in
  messageQueue d' = fst (push (messageQueue d) msg) /\
  emitted d' = emitted d ++ [EvLog READ (SiMessage.toString msg)] /\
  pending d' = [].
Proof.
  intros d frame now chunk inputs.
  assert (H : acc_ok d /\ accSize d = 0 /\
              framed (List.concat (map snd ((now, chunk) :: inputs))) /\
              Buf.get (List.concat (map snd ((now, chunk) :: inputs))) 0
              = Some SiMessage.STX /\
              Buf.length (List.concat (map snd ((now, chunk) :: inputs))) <= 139 /\
              within now inputs).
  { split; [apply new_SiDriver_acc_ok|]. split; [reflexivity|].
    split; [exists 3; split; reflexivity|]. split; [reflexivity|].
    split; [vm_compute; discriminate|].
    cbn [within inputs fst]. unfold now, TIMEOUT_DELAY. lia. }
  split; [exact H|].
  destruct H as (H1 & H2 & H3 & H4 & H5 & H6).
  exact (handleSerialData_reassembles d inputs now chunk H1 H2 H3 H4 H5 H6).
Defined.

(** ** A length that cannot be reached *)

Lemma feed_oversized (inputs : list (Z * Buf.Buffer)) :
  forall d len,
    acc_ok d -> Buf.get (pending d) 2 = Some len -> 139 < len + 6 ->
    within (lastDataTime d) inputs ->
    messageQueue (feed d inputs) = messageQueue d /\
    emitted (feed d inputs) = emitted d /\
    Buf.get (pending (feed d inputs)) 2 = Some len.
Proof.
  induction inputs as [|[now chunk] inputs IH]; intros d len Hd Hlen Hbig Hwithin.
  - repeat split. exact Hlen.
  - cbn [within fst] in Hwithin. destruct Hwithin as [Hnow Hlater].
    destruct (get_Some_range _ _ _ Hlen) as [Hbyte Hin].
    pose proof (handleSerialData_step d now chunk Hd) as Hstep. cbv zeta in Hstep.
    destruct (Z.gtb_spec now (lastDataTime d + TIMEOUT_DELAY)) as [Hstale|_]; [lia|].
    set (bytes := firstn 139 (pending d ++ chunk)) in *.
    assert (Hget : Buf.get bytes 2 = Some len).
    { unfold bytes. rewrite get_firstn by lia. rewrite get_app_l by lia. exact Hlen. }
    assert (Hblen : 3 <= Buf.length bytes <= 139).
    { destruct (get_Some_range _ _ _ Hget) as [_ H]. split; [lia|].
      unfold bytes, Buf.length. rewrite length_firstn. lia. }
    assert (Hkeep : dispatchable bytes = false).
    { unfold dispatchable. rewrite Hget. cbn [Buf.int32]. rewrite land_byte by lia.
      destruct (Z.eqb_spec (Buf.length bytes) 1) as [H|_]; [lia|]. cbn [andb orb].
      destruct (Z.geb_spec (Buf.length bytes) (len + 6)) as [H|_]; [lia|].
      apply andb_false_r. }
    rewrite Hkeep in Hstep.
    destruct Hstep as (Hok & Hlast & (Hq & _ & He & Hp') & _).
    cbn [feed fold_left fst snd].
    change (fold_left
              (fun d0 input => handleSerialData d0 (fst input) (snd input))
              inputs (handleSerialData d now chunk))
      with (feed (handleSerialData d now chunk) inputs).
    destruct (IH (handleSerialData d now chunk) len Hok) as (Hq2 & He2 & Hp2).
    + rewrite Hp'. exact Hget.
    + exact Hbig.
    + rewrite Hlast. exact Hlater.
    + rewrite Hq2, He2. repeat split; assumption.
Qed.

(** X21: a length byte over 133 announces a frame that does not fit the
    accumulator: once three bytes with such a third byte are gathered, no
    message is dispatched and nothing is logged, whatever arrives, as long as
    each chunk comes at most 500 ms after the one before; the bytes stay at
    the head of the accumulator. *)
Theorem handleSerialData_oversized_never_dispatched (d : SiDriver) (len : Z)
  (inputs : list (Z * Buf.Buffer)) :
  acc_ok d -> Buf.get (pending d) 2 = Some len -> 133 < len ->
  within (lastDataTime d) inputs ->
  messageQueue (feed d inputs) = messageQueue d /\
  emitted (feed d inputs) = emitted d /\
  Buf.get (pending (feed d inputs)) 2 = Some len.
Proof.
  intros Hd Hlen Hbig Hwithin.
  apply feed_oversized; [exact Hd | exact Hlen | lia | exact Hwithin].
Qed.

Lemma handleSerialData_oversized_never_dispatched_witness :
  let d := handleSerialData (new_SiDriver reliable_port 0 []) 1000
             (Buf.of_list [0x02; 0xe1; 0xff]) in
  let inputs := [(1200, SiMessage.sequence Frames.startup_answer);
                 (1700, SiMessage.sequence (Frames.config_answer 0x05))] in
  (acc_ok d /\ Buf.get (pending d) 2 = Some 255 /\ 133 < 255 /\
   within (lastDataTime d) inputs) /\
  messageQueue (feed d inputs) = messageQueue d /\
  emitted (feed d inputs) = emitted d /\
  Buf.get (pending (feed d inputs)) 2 = Some 255.
Proof.
  intros d inputs.
  assert (H : acc_ok d /\ Buf.get (pending d) 2 = Some 255 /\ 133 < 255 /\
              within (lastDataTime d) inputs).
  { split; [apply (handleSerialData_step _ _ _ (new_SiDriver_acc_ok _ _ _))|].
    split; [reflexivity|]. split; [lia|].
    cbn [within inputs fst]. unfold TIMEOUT_DELAY.
    change (lastDataTime d) with 1000. lia. }
  split; [exact H|].
  destruct H as (H1 & H2 & H3 & H4).
  exact (handleSerialData_oversized_never_dispatched d 255 inputs H1 H2 H3 H4).
Defined.

End AccumulatorMore.

(* ================================================================== *)
(** * The start-up sequence: what it leaves behind *)
(* ================================================================== *)

Module StartupMore.
Import SiDriver StartupFacts.

Lemma only_logs_nil : only_logs [].
Proof. constructor. Qed.

Lemma only_logs_one (direction : Direction) (msg : string) :
  only_logs [EvLog direction msg].
Proof. constructor; [eauto | constructor]. Qed.

Lemma only_logs_app (l l' : list Event) :
  only_logs l -> only_logs l' -> only_logs (l ++ l').
Proof. intros H H'. apply Forall_app. split; assumption. Qed.

Lemma leaves_throw {A : Type} (e : Exn) (writes : list Buf.Buffer)
  (final : list Event) :
  leaves (@throw A e) writes final.
Proof.
  intros d. exists []. split; [apply only_logs_nil|]. simpl.
  split; [rewrite app_nil_r; reflexivity|].
  exists [], writes. split; [reflexivity | rewrite app_nil_r; reflexivity].
Qed.

Lemma leaves_ret {A : Type} (a : A) : leaves (ret a) [] [].
Proof.
  intros d. exists []. split; [apply only_logs_nil|]. simpl.
  rewrite !app_nil_r. split; reflexivity.
Qed.

Lemma leaves_log (direction : Direction) (msg : string) :
  leaves (act (fun d => log d direction msg)) [] [].
Proof.
  intros d. exists [EvLog direction msg]. split; [apply only_logs_one|].
  destruct d. simpl. rewrite !app_nil_r. split; reflexivity.
Qed.

Lemma leaves_emit (e : Event) : leaves (act (fun d => emit d e)) [] [e].
Proof.
  intros d. exists []. split; [apply only_logs_nil|].
  destruct d. simpl. rewrite !app_nil_r. split; reflexivity.
Qed.

Lemma leaves_mode (mode : bool) :
  leaves (act (fun d => set_si6_192PunchesMode d mode)) [] [].
Proof.
  intros d. exists []. split; [apply only_logs_nil|].
  destruct d. simpl. rewrite !app_nil_r. split; reflexivity.
Qed.

Lemma leaves_send (msg : SiMessage.SiMessage) :
  leaves (send msg) [SiMessage.sequence msg] [].
Proof.
  intros d. exists [EvLog SEND (SiMessage.toString msg)].
  split; [apply only_logs_one|].
  unfold send, andThen, act, port_write, log, emit. destruct d as [port0 ? ? ? ? ? ? ? ? ? ? ?].
  cbn [port emitted written add_written].
  destruct (write port0 (SiMessage.sequence msg)) as [reason|];
    cbn [emitted written add_written port messageQueue running zerohour
         si6_192PunchesMode accBuffer accSize lastDataTime resolved incoming].
  - split; [reflexivity|].
    exists [], [SiMessage.sequence msg]. split; [reflexivity|].
    rewrite app_nil_r. reflexivity.
  - rewrite app_nil_r. split; reflexivity.
Qed.

Lemma leaves_take (timeoutMs : Z) : leaves (take timeoutMs) [] [].
Proof.
  intros d. exists []. split; [apply only_logs_nil|].
  unfold take. destruct d as [? q ? ? ? ? ? ? ? ? ? inc].
  cbn [messageQueue incoming].
  destruct (queue q) as [|m rest].
  - destruct inc as [|[m|] later]; simpl; rewrite ?app_nil_r.
    + split; [reflexivity|]. exists [], []. split; [reflexivity|].
      rewrite app_nil_r. reflexivity.
    + split; reflexivity.
    + split; [reflexivity|]. exists [], []. split; [reflexivity|].
      rewrite app_nil_r. reflexivity.
  - simpl. rewrite !app_nil_r. split; reflexivity.
Qed.

Lemma leaves_andThen {A B : Type} (t : Task A) (k : A -> Task B)
  (writes writes' : list Buf.Buffer) (final : list Event) :
  leaves t writes [] -> (forall a, leaves (k a) writes' final) ->
  leaves (andThen t k) (writes ++ writes') final.
Proof.
  intros Ht Hk d. unfold andThen.
  destruct (Ht d) as [logs [Hlogs H]].
  destruct (t d) as [[a|e] d1].
  - destruct H as [He Hw]. rewrite app_nil_r in He.
    destruct (Hk a d1) as [logs' [Hlogs' H']].
    exists (logs ++ logs'). split; [apply only_logs_app; assumption|].
    destruct (k a d1) as [[b|e'] d2].
    + destruct H' as [He' Hw']. rewrite He', He, Hw', Hw, !app_assoc.
      split; reflexivity.
    + destruct H' as [He' (done & rest & Hsplit & Hw')].
      rewrite He', He, !app_assoc. split; [reflexivity|].
      exists (writes ++ done), rest. rewrite Hsplit, Hw', Hw, !app_assoc.
      split; reflexivity.
  - destruct H as [He (done & rest & Hsplit & Hw)].
    exists logs. split; [exact Hlogs|]. split; [exact He|].
    exists done, (rest ++ writes'). rewrite Hsplit, app_assoc.
    split; [reflexivity | exact Hw].
Qed.

Lemma leaves_pollAnswer (command : Z) : leaves (pollAnswer command) [] [].
Proof.
  unfold pollAnswer.
  apply (leaves_andThen (take 2000) _ [] [] []); [apply leaves_take|].
  intros msg. destruct (negb (SiMessage.check msg command));
    [apply leaves_throw | apply leaves_ret].
Qed.

Lemma leaves_startup :
  leaves startup
    [SiMessage.sequence SiMessage.STARTUP_SEQUENCE;
     SiMessage.sequence SiMessage.GET_PROTOCOL_CONFIGURATION;
     SiMessage.sequence SiMessage.GET_CARDBLOCKS_CONFIGURATION;
     SiMessage.sequence SiMessage.BEEP_TWICE]
    [EvStatus ON None].
Proof.
  unfold startup.
  apply (leaves_andThen _ _ [SiMessage.sequence SiMessage.STARTUP_SEQUENCE]
           [SiMessage.sequence SiMessage.GET_PROTOCOL_CONFIGURATION;
            SiMessage.sequence SiMessage.GET_CARDBLOCKS_CONFIGURATION;
            SiMessage.sequence SiMessage.BEEP_TWICE]); [apply leaves_send|].
  intros _.
  apply (leaves_andThen _ _ []
           [SiMessage.sequence SiMessage.GET_PROTOCOL_CONFIGURATION;
            SiMessage.sequence SiMessage.GET_CARDBLOCKS_CONFIGURATION;
            SiMessage.sequence SiMessage.BEEP_TWICE]); [apply leaves_pollAnswer|].
  intros _.
  apply (leaves_andThen _ _ [SiMessage.sequence SiMessage.GET_PROTOCOL_CONFIGURATION]
           [SiMessage.sequence SiMessage.GET_CARDBLOCKS_CONFIGURATION;
            SiMessage.sequence SiMessage.BEEP_TWICE]); [apply leaves_send|].
  intros _.
  apply (leaves_andThen _ _ []
           [SiMessage.sequence SiMessage.GET_CARDBLOCKS_CONFIGURATION;
            SiMessage.sequence SiMessage.BEEP_TWICE]); [apply leaves_pollAnswer|].
  intros configMsg. cbv zeta.
  destruct (negb (Z.land (Buf.int32 (SiMessage.byteAt configMsg 6)) CONFIG_CHECK_MASK
                  =? CONFIG_CHECK_MASK)).
  { destruct (Z.land (Buf.int32 (SiMessage.byteAt configMsg 6)) EXTENDED_PROTOCOL_MASK
              =? 0); apply leaves_throw. }
  apply (leaves_andThen _ _ [SiMessage.sequence SiMessage.GET_CARDBLOCKS_CONFIGURATION]
           [SiMessage.sequence SiMessage.BEEP_TWICE]); [apply leaves_send|].
  intros _.
  apply (leaves_andThen _ _ [] [SiMessage.sequence SiMessage.BEEP_TWICE]);
    [apply leaves_pollAnswer|].
  intros blockMsg.
  apply (leaves_andThen _ _ [] [SiMessage.sequence SiMessage.BEEP_TWICE]);
    [apply leaves_mode|].
  intros _.
  apply (leaves_andThen _ _ [] [SiMessage.sequence SiMessage.BEEP_TWICE]);
    [apply leaves_log|].
  intros _.
  apply (leaves_andThen _ _ [SiMessage.sequence SiMessage.BEEP_TWICE] []);
    [apply leaves_send|].
  intros _. apply leaves_emit.
Qed.

(** X22: [startup] announces the status ON only when it returns, as its
    last event, after nothing but log lines, and then it has handed to the
    port exactly the wake-up sequence, the two configuration requests and the
    beep, in this order.  When it throws it has emitted log lines only, and
    handed to the port the first ones of these four requests. *)
Theorem startup_announces_on (d : SiDriver) :
  let requests :=
    [SiMessage.sequence SiMessage.STARTUP_SEQUENCE;
     SiMessage.sequence SiMessage.GET_PROTOCOL_CONFIGURATION;
     SiMessage.sequence SiMessage.GET_CARDBLOCKS_CONFIGURATION;
     SiMessage.sequence SiMessage.BEEP_TWICE] in
  exists logs,
    only_logs logs /\
    match startup d with
    | (Ok _, d') =>
        emitted d' = emitted d ++ logs ++ [EvStatus ON None] /\
        written d' = written d ++ requests
    | (Throw _, d') =>
        emitted d' = emitted d ++ logs /\
        exists done rest, requests = done ++ rest /\ written d' = written d ++ done
    end.
Proof. exact (leaves_startup d). Qed.

End StartupMore.

(* ================================================================== *)
(** * Reading the blocks of a card *)
(* ================================================================== *)

Module ReadoutFacts.
Import SiDriver StartupFacts StartupMore.


Lemma take_written (timeoutMs : Z) (d : SiDriver) :
  written (snd (take timeoutMs d)) = written d.
Proof.
  unfold take. destruct d as [? q ? ? ? ? ? ? ? ? ? inc].
  cbn [messageQueue incoming].
  destruct (queue q); [destruct inc as [|[m|] later]|]; reflexivity.
Qed.







End ReadoutFacts.

(* ================================================================== *)
(** * After a card is read, and start-up at both speeds *)
(* ================================================================== *)

Module BootstrapFacts.
Import SiDriver StartupFacts StartupMore ReadoutFacts.

Lemma take_emitted (timeoutMs : Z) (d : SiDriver) :
  emitted (snd (take timeoutMs d)) = emitted d.
Proof.
  unfold take. destruct d as [? q ? ? ? ? ? ? ? ? ? inc].
  cbn [messageQueue incoming].
  destruct (queue q); [destruct inc as [|[m|] later]|]; reflexivity.
Qed.

Lemma log_fields (d : SiDriver) (direction : Direction) (msg : string) :
  port (log d direction msg) = port d /\
  written (log d direction msg) = written d /\
  emitted (log d direction msg) = emitted d ++ [EvLog direction msg].
Proof. destruct d. repeat split. Qed.

Lemma add_written_fields (d : SiDriver) (data : Buf.Buffer) :
  written (add_written d data) = written d ++ [data] /\
  emitted (add_written d data) = emitted d.
Proof. destruct d. repeat split. Qed.

Lemma ackAndWaitRemoval_spec (d : SiDriver) :
  match write (port d) (SiMessage.sequence SiMessage.ACK_SEQUENCE) with
  | Some reason =>
      ackAndWaitRemoval d
      = (Throw (PortFailure reason),
         log d SEND (SiMessage.toString SiMessage.ACK_SEQUENCE))
  | None =>
      exists d' logs,
        ackAndWaitRemoval d = (Ok tt, d') /\
        written d' = written d ++ [SiMessage.sequence SiMessage.ACK_SEQUENCE] /\
        only_logs logs /\ emitted d' = emitted d ++ logs
  end.
Proof.
  unfold ackAndWaitRemoval, send, andThen, act.
  set (d0 := log d SEND (SiMessage.toString SiMessage.ACK_SEQUENCE)).
  destruct (log_fields d SEND (SiMessage.toString SiMessage.ACK_SEQUENCE))
    as (Hp0 & Hw0 & He0).
  fold d0 in Hp0, Hw0, He0.
  unfold port_write. rewrite Hp0.
  destruct (write (port d) (SiMessage.sequence SiMessage.ACK_SEQUENCE)) as [reason|];
    [reflexivity|].
  set (d1 := add_written d0 (SiMessage.sequence SiMessage.ACK_SEQUENCE)).
  destruct (add_written_fields d0 (SiMessage.sequence SiMessage.ACK_SEQUENCE))
    as (Hw1 & He1).
  fold d1 in Hw1, He1.
  pose proof (take_written 5000 d1) as Hw.
  pose proof (take_emitted 5000 d1) as He.
  destruct (take 5000 d1) as [[msg|e] d2]; cbn [snd] in Hw, He.
  - destruct (negb (SiMessage.strict_eq (SiMessage.commandByte msg)
                      SiMessage.SI_CARD_REMOVED)).
    + eexists. eexists [_; _]. split; [reflexivity|].
      match goal with
      | |- context [log d2 ?dir ?m] =>
          destruct (log_fields d2 dir m) as (_ & Hw2 & He2)
      end.
      rewrite Hw2, He2, Hw, He, Hw1, He1, Hw0, He0, <- app_assoc.
      split; [reflexivity|]. split; [|reflexivity].
      constructor; [eauto|]. apply only_logs_one.
    + eexists. eexists [_]. split; [reflexivity|].
      rewrite Hw, He, Hw1, He1, Hw0, He0.
      split; [reflexivity|]. split; [apply only_logs_one | reflexivity].
  - eexists. eexists [_; _]. split; [reflexivity|].
    match goal with
    | |- context [log d2 ?dir ?m] =>
        destruct (log_fields d2 dir m) as (_ & Hw2 & He2)
    end.
    rewrite Hw2, He2, Hw, He, Hw1, He1, Hw0, He0, <- app_assoc.
    split; [reflexivity|]. split; [|reflexivity].
    constructor; [eauto|]. apply only_logs_one.
Qed.

(** X25: [ackAndWaitRemoval] fails only when the port rejects the [ACK]
    byte, and then with the rejection of the port.  Otherwise it returns,
    whatever arrives within the five seconds and also when nothing arrives:
    it has handed the [ACK] byte to the port and nothing else, and emitted
    nothing but log lines. *)
Theorem ackAndWaitRemoval_returns (d : SiDriver) :
  match write (port d) (SiMessage.sequence SiMessage.ACK_SEQUENCE) with
  | Some reason =>
      ackAndWaitRemoval d
      = (Throw (PortFailure reason),
         log d SEND (SiMessage.toString SiMessage.ACK_SEQUENCE))
  | None =>
      exists d' logs,
        ackAndWaitRemoval d = (Ok tt, d') /\
        written d' = written d ++ [SiMessage.sequence SiMessage.ACK_SEQUENCE] /\
        only_logs logs /\ emitted d' = emitted d ++ logs
  end.
Proof. exact (ackAndWaitRemoval_spec d). Qed.

(** No step of the driver changes its port. *)
Lemma andThen_port {A B : Type} (t : Task A) (k : A -> Task B) :
  (forall s, port (snd (t s)) = port s) ->
  (forall a s, port (snd (k a s)) = port s) ->
  forall s, port (snd (andThen t k s)) = port s.
Proof.
  intros Ht Hk s. unfold andThen. specialize (Ht s).
  destruct (t s) as [[a|e] s1]; cbn [snd] in *; [|exact Ht].
  rewrite Hk. exact Ht.
Qed.

Lemma send_port (msg : SiMessage.SiMessage) (s : SiDriver) :
  port (snd (send msg s)) = port s.
Proof.
  unfold send, andThen, act, port_write, log, emit.
  destruct s as [port0 ? ? ? ? ? ? ? ? ? ? ?]. cbn [port].
  destruct (write port0 (SiMessage.sequence msg)); reflexivity.
Qed.

Lemma pollAnswer_port (command : Z) (s : SiDriver) :
  port (snd (pollAnswer command s)) = port s.
Proof.
  unfold pollAnswer, andThen, take.
  destruct s as [? q ? ? ? ? ? ? ? ? ? inc]. cbn [messageQueue incoming].
  destruct (queue q) as [|m rest];
    [destruct inc as [|[m|] later]|]; cbn [snd port];
    try reflexivity;
    destruct (negb (SiMessage.check m command)); reflexivity.
Qed.

Lemma startup_port (d : SiDriver) : port (snd (startup d)) = port d.
Proof.
  revert d. unfold startup.
  repeat (apply andThen_port;
          [first [apply send_port | apply pollAnswer_port] | intros ?]).
  intros s. cbv zeta.
  destruct (negb _); [destruct (_ =? 0); reflexivity|].
  revert s.
  repeat (apply andThen_port;
          [first [apply send_port | apply pollAnswer_port
                 | intros s; destruct s; reflexivity]
          | intros ?]).
  intros s; destruct s; reflexivity.
Qed.

(** One attempt, with the speed recorded when the port takes it. *)
Lemma startup_at_rates (rate : Z) (d : SiDriver) (rates : list Z) :
  startup_at rate (d, rates)
  = match setBaudRate (port d) rate with
    | Some reason => (Throw (PortFailure reason), (d, rates))
    | None => (fst (startup d), (snd (startup d), rates ++ [rate]))
    end.
Proof.
  unfold startup_at. destruct (setBaudRate (port d) rate); [reflexivity|].
  destruct (startup d); reflexivity.
Qed.

(** X26: [startupBootstrap] never fails with a timeout: a timeout of the
    second attempt becomes the error "Master station did not answer to startup
    sequence (high/low baud)".  It sets the port to 38400 baud first and to
    4800 baud only after the start-up at 38400 baud has timed out; when the
    start-up at 38400 baud returns, or fails with anything but a timeout,
    that is the outcome and the port stays at 38400 baud. *)
Theorem startupBootstrap_speeds (d : SiDriver) (rates : list Z) :
  let r := fst (startupBootstrap (d, rates)) in
  let rates' := snd (snd (startupBootstrap (d, rates))) in
  (forall msg, r <> Throw (TimeoutError msg)) /\
  (rates' = rates \/ rates' = rates ++ [38400] \/
   (rates' = rates ++ [38400; 4800] /\
    exists msg, fst (startup d) = Throw (TimeoutError msg))) /\
  (setBaudRate (port d) 38400 = None ->
   (forall err, fst (startup d) = Throw err -> is_TimeoutError err = false) ->
   startupBootstrap (d, rates) = (fst (startup d), (snd (startup d), rates ++ [38400]))).
Proof.
  cbv zeta. unfold startupBootstrap. rewrite startup_at_rates.
  destruct (setBaudRate (port d) 38400) as [reason|] eqn:Hhigh.
  { cbn. split; [discriminate|]. split; [left; reflexivity | discriminate]. }
  destruct (startup d) as [[u|err] d1] eqn:Hstart; cbn [fst snd].
  { split; [discriminate|]. split; [right; left; reflexivity|].
    intros _ _. reflexivity. }
  destruct err as [msg|m c|msg|reason]; cbn [is_TimeoutError fst snd];
    try (split; [discriminate|]; split; [right; left; reflexivity|];
         intros _ _; reflexivity).
  rewrite startup_at_rates.
  assert (Hport : port d1 = port d).
  { pose proof (startup_port d) as H. rewrite Hstart in H. exact H. }
  rewrite Hport.
  destruct (setBaudRate (port d) 4800) as [reason|]; cbn [fst snd is_TimeoutError].
  { split; [discriminate|]. split; [right; left; reflexivity|].
    intros _ H. specialize (H _ eq_refl). discriminate. }
  destruct (startup d1) as [[u|err2] d2]; cbn [fst snd].
  { split; [discriminate|]. split; [|intros _ H; specialize (H _ eq_refl); discriminate].
    right; right. rewrite <- app_assoc. split; [reflexivity | eauto]. }
  destruct err2 as [msg2|m c|msg2|reason]; cbn [is_TimeoutError fst snd];
    (split; [discriminate|]; split;
     [right; right; rewrite <- app_assoc; split; [reflexivity | eauto]
     |intros _ H; specialize (H _ eq_refl); discriminate]).
Qed.

Lemma andThen_Throw {A B : Type} (t : Task A) (k : A -> Task B)
  (d d' : SiDriver) (e : Exn) :
  t d = (Throw e, d') -> andThen t k d = (Throw e, d').
Proof. intros H. unfold andThen. rewrite H. reflexivity. Qed.

(** A start-up whose first answer does not come. *)
Lemma startup_no_answer (d : SiDriver) :
  write (port d) (SiMessage.sequence SiMessage.STARTUP_SEQUENCE) = None ->
  queue (messageQueue d) = [] ->
  (forall m, hd_error (incoming d) <> Some (Some m)) ->
  exists d',
    startup d = (Throw (TimeoutError "Message timeout"), d') /\
    port d' = port d /\ queue (messageQueue d') = [] /\
    incoming d' = tl (incoming d) /\
    written d' = written d ++ [SiMessage.sequence SiMessage.STARTUP_SEQUENCE] /\
    emitted d'
    = emitted d ++ [EvLog SEND (SiMessage.toString SiMessage.STARTUP_SEQUENCE)].
Proof.
  intros Hwrite Hqueue Hnone.
  set (d0 := add_written
               (log d SEND (SiMessage.toString SiMessage.STARTUP_SEQUENCE))
               (SiMessage.sequence SiMessage.STARTUP_SEQUENCE)).
  assert (Hsend : send SiMessage.STARTUP_SEQUENCE d = (Ok tt, d0)).
  { unfold send, andThen, act, port_write.
    destruct (log_fields d SEND (SiMessage.toString SiMessage.STARTUP_SEQUENCE))
      as (Hp & _ & _).
    rewrite Hp, Hwrite. reflexivity. }
  assert (Hpoll : exists d',
             pollAnswer SiMessage.SET_MASTER_MODE d0
             = (Throw (TimeoutError "Message timeout"), d') /\
             port d' = port d /\ queue (messageQueue d') = [] /\
             incoming d' = tl (incoming d) /\
             written d' = written d ++ [SiMessage.sequence SiMessage.STARTUP_SEQUENCE] /\
             emitted d'
             = emitted d ++ [EvLog SEND (SiMessage.toString SiMessage.STARTUP_SEQUENCE)]).
  { unfold pollAnswer, andThen, take, d0.
    destruct d as [port0 q0 running0 zerohour0 mode0 acc0 size0 last0 emitted0
                     resolved0 written0 incoming0].
    cbn [port messageQueue incoming written emitted log emit add_written running
         zerohour si6_192PunchesMode accBuffer accSize lastDataTime resolved] in *.
    rewrite Hqueue.
    destruct incoming0 as [|[m|] later].
    - eexists. split; [reflexivity|]. repeat split. exact Hqueue.
    - exfalso. apply (Hnone m). reflexivity.
    - eexists. split; [reflexivity|]. repeat split. exact Hqueue. }
  destruct Hpoll as (d' & Hpoll & Hrest).
  exists d'. split; [|exact Hrest].
  unfold startup. rewrite (andThen_Ok _ _ _ _ _ Hsend).
  apply andThen_Throw. exact Hpoll.
Qed.

(** X27: a station that does not answer: when the port takes every write
    and both speeds, no frame is waiting and none arrives during the first
    two waits, [startupBootstrap] fails with "Master station did not answer to
    startup sequence (high/low baud)", having set the port to 38400 and then
    to 4800 baud and handed it the wake-up sequence once at each speed; the
    status ON is not announced. *)
Theorem startupBootstrap_no_answer (d : SiDriver) (rates : list Z) :
  (forall data, write (port d) data = None) ->
  (forall rate, setBaudRate (port d) rate = None) ->
  queue (messageQueue d) = [] ->
  (forall m, ~ In (Some m) (firstn 2 (incoming d))) ->
  exists d',
    startupBootstrap (d, rates)
    = (Throw (Error "Master station did not answer to startup sequence (high/low baud)"),
       (d', rates ++ [38400; 4800])) /\
    written d'
    = written d ++ [SiMessage.sequence SiMessage.STARTUP_SEQUENCE;
                    SiMessage.sequence SiMessage.STARTUP_SEQUENCE] /\
    emitted d'
    = emitted d ++ [EvLog SEND (SiMessage.toString SiMessage.STARTUP_SEQUENCE);
                    EvLog SEND (SiMessage.toString SiMessage.STARTUP_SEQUENCE)] /\
    incoming d' = skipn 2 (incoming d).
Proof.
  intros Hwrite Hbaud Hqueue Hnone.
  destruct (startup_no_answer d (Hwrite _) Hqueue)
    as (d1 & Hs1 & Hp1 & Hq1 & Hi1 & Hw1 & He1).
  { intros m H. apply (Hnone m).
    destruct (incoming d) as [|x later]; [discriminate|].
    injection H as ->. left. reflexivity. }
  destruct (startup_no_answer d1) as (d2 & Hs2 & Hp2 & Hq2 & Hi2 & Hw2 & He2).
  { rewrite Hp1. apply Hwrite. }
  { exact Hq1. }
  { intros m H. apply (Hnone m). rewrite Hi1 in H.
    destruct (incoming d) as [|x [|y later]]; try discriminate.
    injection H as ->. right. left. reflexivity. }
  exists d2. unfold startupBootstrap.
  rewrite startup_at_rates, Hbaud, Hs1. cbn [fst snd is_TimeoutError].
  rewrite startup_at_rates, Hp1, Hbaud, Hs2. cbn [fst snd is_TimeoutError].
  rewrite <- app_assoc. split; [reflexivity|].
  rewrite Hw2, Hw1, He2, He1, Hi2, Hi1, <- !app_assoc.
  split; [reflexivity|]. split; [reflexivity|].
  destruct (incoming d) as [|x [|y later]]; reflexivity.
Qed.

Lemma startupBootstrap_no_answer_witness :
  let d := new_SiDriver reliable_port 0 [None] in
  ((forall data, write (port d) data = None) /\
   (forall rate, setBaudRate (port d) rate = None) /\
   queue (messageQueue d) = [] /\
   (forall m, ~ In (Some m) (firstn 2 (incoming d)))) /\
  exists d',
    startupBootstrap (d, [])
    = (Throw (Error "Master station did not answer to startup sequence (high/low baud)"),
       (d', [] ++ [38400; 4800])) /\
    written d'
    = written d ++ [SiMessage.sequence SiMessage.STARTUP_SEQUENCE;
                    SiMessage.sequence SiMessage.STARTUP_SEQUENCE] /\
    emitted d'
    = emitted d ++ [EvLog SEND (SiMessage.toString SiMessage.STARTUP_SEQUENCE);
                    EvLog SEND (SiMessage.toString SiMessage.STARTUP_SEQUENCE)] /\
    incoming d' = skipn 2 (incoming d).
Proof.
  intros d.
  assert (H1 : forall data, write (port d) data = None) by reflexivity.
  assert (H2 : forall rate, setBaudRate (port d) rate = None) by reflexivity.
  assert (H3 : queue (messageQueue d) = []) by reflexivity.
  assert (H4 : forall m, ~ In (Some m) (firstn 2 (incoming d))).
  { intros m [H|[]]. discriminate H. }
  split; [repeat split; assumption|].
  exact (startupBootstrap_no_answer d [] H1 H2 H3 H4).
Defined.

(** ** Reading a Card 5 *)




End BootstrapFacts.

(* ================================================================== *)
(** * The pre-built requests *)
(* ================================================================== *)

Module RequestFacts.
Import SiMessage.

(** X29: the requests that SiMessage.ts writes down byte by byte are
    well-formed frames: each one starts with [STX], ends with [ETX], carries
    the CRC that [crc] computes over its command, length and parameter bytes,
    and has a length byte that counts its parameter bytes.  So is the wake-up
    sequence after its first two bytes.  The read requests of each card type
    carry the command of that card type, and ask for the blocks 0, 6, 7, 2,
    3, 4, 5 (Card 6), 0, 1 (Card 8 and 9) and 0, 4, 5, 6, 7 (Card 10 and
    later). *)
Theorem prebuilt_requests_well_formed :
  Forall (fun m => valid m = true /\
                   Buf.get (sequence m) 2 = Some (Buf.length (sequence m) - 6))
    (mkSiMessage (skipn 2 (sequence STARTUP_SEQUENCE)) :: framed_requests) /\
  Forall (fun m => commandByte m = Some GET_SI_CARD_6_BN) SICARD_6_READOUT_COMMANDS /\
  Forall (fun m => commandByte m = Some GET_SI_CARD_8_PLUS_BN)
    (SICARD_8_9_READOUT_COMMANDS ++ SICARD_10_PLUS_READOUT_COMMANDS) /\
  map (fun m => byteAt m 3) SICARD_6_READOUT_COMMANDS
  = map Some [0; 6; 7; 2; 3; 4; 5] /\
  map (fun m => byteAt m 3) SICARD_8_9_READOUT_COMMANDS = map Some [0; 1] /\
  map (fun m => byteAt m 3) SICARD_10_PLUS_READOUT_COMMANDS
  = map Some [0; 4; 5; 6; 7].
Proof.
  split; [repeat constructor|].
  split; [repeat constructor|].
  split; [repeat constructor|].
  repeat split.
Qed.

(** X30: no message of fewer than four bytes is valid, whatever its bytes:
    a lone [ACK] or [NAK] byte never passes [check], for any command. *)
Theorem short_message_invalid (m : SiMessage) :
  (List.length (sequence m) < 4)%nat ->
  valid m = false /\ forall command, check m command = false.
Proof.
  intros Hshort.
  assert (Hvalid : valid m = false).
  { destruct m as [[|a [|b [|c [|d l]]]]]; cbn [sequence List.length] in Hshort;
      [reflexivity | | | | lia].
    - destruct a; reflexivity.
    - destruct a; try reflexivity. destruct b; reflexivity.
    - destruct a; try reflexivity. destruct c; try reflexivity.
      destruct b; reflexivity. }
  split; [exact Hvalid|].
  intros command. unfold check. rewrite Hvalid. reflexivity.
Qed.

Lemma short_message_invalid_witness :
  (List.length (sequence ACK_SEQUENCE) < 4)%nat /\
  valid ACK_SEQUENCE = false /\ forall command, check ACK_SEQUENCE command = false.
Proof.
  assert (H : (List.length (sequence ACK_SEQUENCE) < 4)%nat) by (simpl; lia).
  split; [exact H|].
  exact (short_message_invalid ACK_SEQUENCE H).
Defined.

End RequestFacts.
